(** * rule-api: crawl-permission resolution, override store and robots-file cache

    A shallow embedding of the Go sources
      - util            (GetDomain, GetBaseUrl)
      - internal/cache  (MemcachedClient: GetRobotsFile, SaveRobotsFile, set,
                         generateDomainHash, hashURL)
      - internal/persistence (RuleRepository: GetByUrl, GetById, Save, Update,
                         Delete)
      - handler         (GetAllowedCrawl, DeleteCustomRule, getRobotsTxt,
                         requestToRobotsTxt, isSuccess)
    together with models of the library functions they call (crypto/sha256,
    encoding/hex, encoding/base64, encoding/json on byte slices, net/url) and of
    the two external stores (the SQL table and the memcached server). *)

From Stdlib Require Import ZArith List Bool Lia.
From Stdlib Require Import Strings.String Strings.Ascii Strings.Byte.
From Stdlib Require Import Numbers.DecimalString Numbers.DecimalZ Numbers.DecimalPos.
From stdpp Require Import gmap strings.

Import ListNotations.
Local Open Scope string_scope.
Local Open Scope list_scope.
Local Open Scope Z_scope.

(** ** Go values *)

(** A Go [string] is an immutable sequence of bytes: a Rocq [string]. *)

(** A Go [[]byte].  The nil slice and the empty slice are different values of the
    type (encoding/json tells them apart), though [len] and the conversion to
    [string] do not. *)
Inductive bytes : Type :=
| nil_slice
| slice (data : list byte).

Definition bytes_data (b : bytes) : list byte :=
  match b with
  | nil_slice => []
  | slice data => data
  end.

(** [len(b)] *)
Definition len (b : bytes) : Z := Z.of_nat (List.length (bytes_data b)).

(** [string(b)] *)
Definition string_of_bytes (b : bytes) : string :=
  string_of_list_byte (bytes_data b).

(** [[]byte(s)]: always a non-nil slice. *)
Definition bytes_of_string (s : string) : bytes :=
  slice (list_byte_of_string s).

Definition Z_of_byte (b : byte) : Z := Z.of_N (Byte.to_N b).

Definition ascii_of_Z (z : Z) : ascii := ascii_of_N (Z.to_N (z mod 256)).

Definition byte_of_Z (z : Z) : byte := byte_of_ascii (ascii_of_Z z).

(** The character at index [i] of a lookup table. *)
Definition table_at (table : string) (i : Z) : ascii :=
  match String.get (Z.to_nat i) table with
  | Some c => c
  | None => zero
  end.

(** The double quote, as a one-character string. *)
Definition dquote : string := String (ascii_of_nat 34) EmptyString.

(** ** encoding/hex *)
Module hex.

Definition hextable : string := "0123456789abcdef".

(** [hex.EncodeToString]: two lowercase digits per byte, high nibble first. *)
Fixpoint EncodeToString (src : list byte) : string :=
  match src with
  | [] => EmptyString
  | b :: rest =>
      let v := Z_of_byte b in
      String (table_at hextable (Z.shiftr v 4))
        (String (table_at hextable (Z.land v 15)) (EncodeToString rest))
  end.

End hex.

(** ** encoding/base64, the standard encoding with padding *)
Module base64.

Definition encodeStd : string :=
  "ABCDEFGHIJKLMNOPQRSTUVWXYZabcdefghijklmnopqrstuvwxyz0123456789+/".

Definition StdPadding : ascii := "=".

Definition enc (v : Z) : ascii := table_at encodeStd (Z.land v 63).

(** [StdEncoding.EncodeToString]: three source bytes make four characters; a
    remainder of one or two bytes is padded to a full quantum. *)
Fixpoint EncodeToString (src : list byte) : string :=
  match src with
  | [] => EmptyString
  | [b0] =>
      let v := Z.shiftl (Z_of_byte b0) 16 in
      String (enc (Z.shiftr v 18)) (String (enc (Z.shiftr v 12))
        (String StdPadding (String StdPadding EmptyString)))
  | [b0; b1] =>
      let v := Z.lor (Z.shiftl (Z_of_byte b0) 16) (Z.shiftl (Z_of_byte b1) 8) in
      String (enc (Z.shiftr v 18)) (String (enc (Z.shiftr v 12))
        (String (enc (Z.shiftr v 6)) (String StdPadding EmptyString)))
  | b0 :: b1 :: b2 :: rest =>
      let v := Z.lor (Z.lor (Z.shiftl (Z_of_byte b0) 16) (Z.shiftl (Z_of_byte b1) 8))
                     (Z_of_byte b2) in
      String (enc (Z.shiftr v 18)) (String (enc (Z.shiftr v 12))
        (String (enc (Z.shiftr v 6)) (String (enc v) (EncodeToString rest))))
  end.

End base64.

(** ** encoding/json, on a byte slice *)
Module json.

(** [json.Marshal(v)] where the dynamic type of [v] is [[]byte]: a nil slice
    encodes as the JSON value null, any other slice as a JSON string holding
    the base64 encoding of the bytes.  This encoder has no failure case. *)
Definition Marshal (v : bytes) : bytes :=
  match v with
  | nil_slice => bytes_of_string "null"
  | slice data => bytes_of_string (dquote +:+ base64.EncodeToString data +:+ dquote)
  end.

End json.

(** ** crypto/sha256 (FIPS 180-4) *)
Module sha256.

Definition w32 : Z := 2 ^ 32.
Definition add32 (x y : Z) : Z := (x + y) mod w32.
Definition rotr (n x : Z) : Z :=
  Z.lor (Z.shiftr x n) ((Z.shiftl x (32 - n)) mod w32).
Definition not32 (x : Z) : Z := Z.lxor x (w32 - 1).

Definition Ch (x y z : Z) : Z := Z.lxor (Z.land x y) (Z.land (not32 x) z).
Definition Maj (x y z : Z) : Z :=
  Z.lxor (Z.lxor (Z.land x y) (Z.land x z)) (Z.land y z).
Definition Sigma0 (x : Z) : Z := Z.lxor (Z.lxor (rotr 2 x) (rotr 13 x)) (rotr 22 x).
Definition Sigma1 (x : Z) : Z := Z.lxor (Z.lxor (rotr 6 x) (rotr 11 x)) (rotr 25 x).
Definition sigma0 (x : Z) : Z := Z.lxor (Z.lxor (rotr 7 x) (rotr 18 x)) (Z.shiftr x 3).
Definition sigma1 (x : Z) : Z := Z.lxor (Z.lxor (rotr 17 x) (rotr 19 x)) (Z.shiftr x 10).

(** The constants are the first 32 bits of the fractional parts of the square
    roots (initial hash value) and cube roots (round constants) of the first
    primes. *)
Definition is_prime (n : nat) : bool :=
  (1 <? Z.of_nat n) &&
  forallb (fun d => negb (Z.of_nat n mod Z.of_nat d =? 0)) (seq 2 (n - 2)).

Definition primes_below (n : nat) : list Z :=
  map Z.of_nat (List.filter is_prime (seq 0 n)).

(** The largest [r] below [2 ^ bits] with [r ^ 3 <= n]. *)
Fixpoint cube_root_bits (bits : nat) (n r : Z) : Z :=
  match bits with
  | O => r
  | S k =>
      let r' := r + 2 ^ Z.of_nat k in
      cube_root_bits k n (if r' * r' * r' <=? n then r' else r)
  end.

Definition frac_sqrt (p : Z) : Z := Z.sqrt (p * 2 ^ 64) mod w32.
Definition frac_cbrt (p : Z) : Z := cube_root_bits 40 (p * 2 ^ 96) 0 mod w32.

Definition K : list Z := Eval vm_compute in map frac_cbrt (primes_below 312).
Definition H0 : list Z := Eval vm_compute in map frac_sqrt (primes_below 20).

(** The eight working variables / the hash value. *)
Record state := State { sa : Z; sb : Z; sc : Z; sd : Z; se : Z; sf : Z; sg : Z; sh : Z }.

Definition init : state :=
  match H0 with
  | [a; b; c; d; e; f; g; h] => State a b c d e f g h
  | _ => State 0 0 0 0 0 0 0 0
  end.

Definition word_at (ws : list Z) (i : nat) : Z := nth i ws 0.

(** One round.  [ws] is the sliding window of the message schedule: before
    round t it holds W(t) .. W(t+15). *)
Definition round (acc : state * list Z) (k : Z) : state * list Z :=
  let (s, ws) := acc in
  let t1 := add32 (add32 (add32 (add32 (sh s) (Sigma1 (se s))) (Ch (se s) (sf s) (sg s))) k)
                  (word_at ws 0) in
  let t2 := add32 (Sigma0 (sa s)) (Maj (sa s) (sb s) (sc s)) in
  let next := add32 (add32 (add32 (sigma1 (word_at ws 14)) (word_at ws 9))
                           (sigma0 (word_at ws 1))) (word_at ws 0) in
  (State (add32 t1 t2) (sa s) (sb s) (sc s) (add32 (sd s) t1) (se s) (sf s) (sg s),
   tl ws ++ [next]).

(** Big-endian words of a block of bytes. *)
Fixpoint words (block : list Z) : list Z :=
  match block with
  | b0 :: b1 :: b2 :: b3 :: rest =>
      (Z.lor (Z.lor (Z.lor (Z.shiftl b0 24) (Z.shiftl b1 16)) (Z.shiftl b2 8)) b3)
        :: words rest
  | _ => []
  end.

Definition compress (s : state) (block : list Z) : state :=
  let s' := fst (fold_left round K (s, words block)) in
  State (add32 (sa s) (sa s')) (add32 (sb s) (sb s')) (add32 (sc s) (sc s'))
        (add32 (sd s) (sd s')) (add32 (se s) (se s')) (add32 (sf s) (sf s'))
        (add32 (sg s) (sg s')) (add32 (sh s) (sh s')).

(** The message followed by the bit 1, zeros up to 56 modulo 64, and the bit
    length on 8 bytes. *)
Definition pad (msg : list Z) : list Z :=
  let n := Z.of_nat (List.length msg) in
  msg ++ [128] ++ repeat 0 (Z.to_nat ((55 - n) mod 64))
      ++ map (fun i => Z.shiftr (8 * n) (8 * (7 - Z.of_nat i)) mod 256) (seq 0 8).

Fixpoint blocks (fuel : nat) (s : state) (data : list Z) : state :=
  match fuel with
  | O => s
  | S fuel' =>
      match data with
      | [] => s
      | _ => blocks fuel' (compress s (firstn 64 data)) (skipn 64 data)
      end
  end.

Definition word_bytes (w : Z) : list byte :=
  [byte_of_Z (Z.shiftr w 24); byte_of_Z (Z.shiftr w 16); byte_of_Z (Z.shiftr w 8); byte_of_Z w].

Definition state_bytes (s : state) : list byte :=
  word_bytes (sa s) ++ word_bytes (sb s) ++ word_bytes (sc s) ++ word_bytes (sd s) ++
  word_bytes (se s) ++ word_bytes (sf s) ++ word_bytes (sg s) ++ word_bytes (sh s).

(** [h := sha256.New(); h.Write(data); h.Sum(nil)] *)
Definition Sum256 (data : list byte) : list byte :=
  let padded := pad (map Z_of_byte data) in
  state_bytes (blocks (List.length padded) init padded).

End sha256.

(** ** strings: the helpers of Go's [strings] package that the sources use *)
Module strings.

Definition code (c : ascii) : Z := Z.of_N (N_of_ascii c).

Definition between (lo hi c : ascii) : bool := (code lo <=? code c) && (code c <=? code hi).

Definition eqc (a b : ascii) : bool := Ascii.eqb a b.

(** [s[n:]] *)
Fixpoint drop (n : nat) (s : string) : string :=
  match n, s with
  | O, _ => s
  | S _, EmptyString => EmptyString
  | S k, String _ rest => drop k rest
  end.

(** [s[:n]] *)
Fixpoint take (n : nat) (s : string) : string :=
  match n, s with
  | O, _ => EmptyString
  | S _, EmptyString => EmptyString
  | S k, String c rest => String c (take k rest)
  end.

(** [strings.IndexByte] *)
Fixpoint IndexByte (s : string) (c : ascii) : option nat :=
  match s with
  | EmptyString => None
  | String d rest => if eqc d c then Some O else option_map S (IndexByte rest c)
  end.

(** [strings.LastIndexByte] *)
Fixpoint LastIndexByte (s : string) (c : ascii) : option nat :=
  match s with
  | EmptyString => None
  | String d rest =>
      match LastIndexByte rest c with
      | Some i => Some (S i)
      | None => if eqc d c then Some O else None
      end
  end.

Definition ContainsByte (s : string) (c : ascii) : bool :=
  match IndexByte s c with Some _ => true | None => false end.

(** [strings.Count(s, c)] for a one-byte separator. *)
Fixpoint CountByte (s : string) (c : ascii) : nat :=
  match s with
  | EmptyString => O
  | String d rest => ((if eqc d c then 1 else 0) + CountByte rest c)%nat
  end.

(** [strings.Cut(s, c)] for a one-byte separator. *)
Definition Cut (s : string) (c : ascii) : string * string * bool :=
  match IndexByte s c with
  | Some i => (take i s, drop (S i) s, true)
  | None => (s, EmptyString, false)
  end.

Definition HasPrefix (s p : string) : bool := String.prefix p s.

Definition HasSuffix (s p : string) : bool :=
  (String.length p <=? String.length s)%nat &&
  String.eqb (drop (String.length s - String.length p) s) p.

Definition lower (c : ascii) : ascii :=
  if between "A" "Z" c then ascii_of_N (N_of_ascii c + 32) else c.

(** [strings.ToLower], on the ASCII letters. *)
Fixpoint ToLower (s : string) : string :=
  match s with
  | EmptyString => EmptyString
  | String c rest => String (lower c) (ToLower rest)
  end.

Fixpoint all (p : ascii -> bool) (s : string) : bool :=
  match s with
  | EmptyString => true
  | String c rest => p c && all p rest
  end.

End strings.

(** ** Go errors

    An error value keeps the structure its constructor gave it; its text is
    produced by [Error] (further down), which needs [strconv.Quote] for the
    errors of net/url.  [foreign_error] is an error raised outside the process
    (by the SQL store, the memcached server or the HTTP transport), known by its
    text only. *)
Inductive error : Type :=
| errors_New (text : string)
| url_Error (Op URL : string) (Err : error)
| url_EscapeError (s : string)
| url_InvalidHostError (s : string)
| url_invalid_port (colonPort : string)
| sql_ErrNoRows
| memcache_ErrCacheMiss
| memcache_ErrMalformedKey
| foreign_error (text : string).

(** ** net/url, as of go1.24: [Parse] and [URL.Hostname] *)
Module url.

Import strings.

Record URL := mkURL {
  Scheme : string;
  Opaque : string;
  Host : string;
  Path : string;
  ForceQuery : bool;
  RawQuery : string;
  OmitHost : bool;
  Fragment : string
}.

Definition empty : URL := mkURL "" "" "" "" false "" false "".

Inductive encoding :=
| encodePath | encodePathSegment | encodeHost | encodeZone
| encodeUserPassword | encodeQueryComponent | encodeFragment.

Definition is_host_mode (mode : encoding) : bool :=
  match mode with encodeHost | encodeZone => true | _ => false end.

Definition ishex (c : ascii) : bool :=
  between "0" "9" c || between "a" "f" c || between "A" "F" c.

Definition unhex (c : ascii) : Z :=
  if between "0" "9" c then code c - code "0"
  else if between "a" "f" c then code c - code "a" + 10
  else if between "A" "F" c then code c - code "A" + 10
  else 0.

Definition alnum (c : ascii) : bool :=
  between "a" "z" c || between "A" "Z" c || between "0" "9" c.

(** [shouldEscape(c, encodeHost)]: letters, digits, the sub-delimiters and the
    few marks a host may carry need no escape; every other byte does. *)
Definition shouldEscape_host (c : ascii) : bool :=
  if alnum c then false
  else if existsb (eqc c)
            ["!"; "$"; "&"; "'"; "("; ")"; "*"; "+"; ","; ";"; "="; ":"; "["; "]"; "<"; ">";
             ascii_of_nat 34]%char
  then false
  else if existsb (eqc c) ["-"; "_"; "."; "~"]%char then false
  else true.

(** [unescape(s, mode)]: checks every percent escape and, in the host modes,
    every plain byte, and decodes the escapes. *)
Fixpoint unescape (s : string) (mode : encoding) : error + string :=
  match s with
  | EmptyString => inr EmptyString
  | String c rest =>
      if eqc c "%" then
        match rest with
        | String h1 (String h2 rest') =>
            if negb (ishex h1 && ishex h2) then inl (url_EscapeError (take 3 s))
            else
              let esc := take 3 s in
              let v := Z.lor (Z.shiftl (unhex h1) 4) (unhex h2) in
              if match mode with
                 | encodeHost => (unhex h1 <? 8) && negb (String.eqb esc "%25")
                 | encodeZone =>
                     negb (String.eqb esc "%25") && negb (v =? 32)
                     && shouldEscape_host (ascii_of_Z v)
                 | _ => false
                 end
              then inl (url_EscapeError esc)
              else
                match unescape rest' mode with
                | inl e => inl e
                | inr t => inr (String (ascii_of_Z v) t)
                end
        | _ => inl (url_EscapeError (take 3 s))
        end
      else if is_host_mode mode && (code c <? 128) && shouldEscape_host c
      then inl (url_InvalidHostError (String c EmptyString))
      else
        match unescape rest mode with
        | inl e => inl e
        | inr t =>
            inr (String (if eqc c "+" then
                           match mode with encodeQueryComponent => " "%char | _ => c end
                         else c) t)
        end
  end.

Definition stringContainsCTLByte (s : string) : bool :=
  negb (all (fun c => negb ((code c <? 32) || (code c =? 127))) s).

(** [getScheme]: the scanning loop, with [i = 0] told by [first]. *)
Fixpoint scheme_end (s : string) (first : bool) : error + option nat :=
  match s with
  | EmptyString => inr None
  | String c rest =>
      if between "a" "z" c || between "A" "Z" c then
        match scheme_end rest false with
        | inr (Some i) => inr (Some (S i))
        | other => other
        end
      else if between "0" "9" c || eqc c "+" || eqc c "-" || eqc c "." then
        if first then inr None
        else match scheme_end rest false with
             | inr (Some i) => inr (Some (S i))
             | other => other
             end
      else if eqc c ":" then
        if first then inl (errors_New "missing protocol scheme") else inr (Some O)
      else inr None
  end.

Definition getScheme (rawURL : string) : error + (string * string) :=
  match scheme_end rawURL true with
  | inl e => inl e
  | inr (Some i) => inr (take i rawURL, drop (S i) rawURL)
  | inr None => inr (EmptyString, rawURL)
  end.

Definition validOptionalPort (port : string) : bool :=
  match port with
  | EmptyString => true
  | String c digits => eqc c ":" && all (between "0" "9") digits
  end.

Definition validUserinfo (s : string) : bool :=
  all (fun c => alnum c ||
                existsb (eqc c)
                  ["-"; "."; "_"; ":"; "~"; "!"; "$"; "&"; "'"; "("; ")"; "*"; "+"; ",";
                   ";"; "="; "%"; "@"]%char) s.

Definition parseHost (host : string) : error + string :=
  if HasPrefix host "[" then
    match LastIndexByte host "]" with
    | None => inl (errors_New "missing ']' in host")
    | Some i =>
        let colonPort := drop (S i) host in
        if negb (validOptionalPort colonPort) then inl (url_invalid_port colonPort)
        else
          match String.index 0 "%25" (take i host) with
          | Some zone =>
              match unescape (take zone host) encodeHost with
              | inl e => inl e
              | inr host1 =>
                  match unescape (take (i - zone) (drop zone host)) encodeZone with
                  | inl e => inl e
                  | inr host2 =>
                      match unescape (drop i host) encodeHost with
                      | inl e => inl e
                      | inr host3 => inr (host1 +:+ host2 +:+ host3)
                      end
                  end
              end
          | None => unescape host encodeHost
          end
    end
  else
    match LastIndexByte host ":" with
    | Some i =>
        let colonPort := drop i host in
        if negb (validOptionalPort colonPort) then inl (url_invalid_port colonPort)
        else unescape host encodeHost
    | None => unescape host encodeHost
    end.

(** [parseAuthority], without the user name and password it also returns:
    they are checked, as the code does, but no caller here reads them. *)
Definition parseAuthority (authority : string) : error + string :=
  match LastIndexByte authority "@" with
  | None => parseHost authority
  | Some i =>
      match parseHost (drop (S i) authority) with
      | inl e => inl e
      | inr host =>
          let userinfo := take i authority in
          if negb (validUserinfo userinfo) then inl (errors_New "net/url: invalid userinfo")
          else if negb (ContainsByte userinfo ":") then
            match unescape userinfo encodeUserPassword with
            | inl e => inl e
            | inr _ => inr host
            end
          else
            let '(username, password, _) := Cut userinfo ":" in
            match unescape username encodeUserPassword with
            | inl e => inl e
            | inr _ =>
                match unescape password encodeUserPassword with
                | inl e => inl e
                | inr _ => inr host
                end
            end
      end
  end.

(** [parse(rawURL, viaRequest = false)] *)
Definition parse (rawURL : string) : error + URL :=
  if stringContainsCTLByte rawURL
  then inl (errors_New "net/url: invalid control character in URL")
  else if String.eqb rawURL "*" then inr (mkURL "" "" "" "*" false "" false "")
  else
    match getScheme rawURL with
    | inl e => inl e
    | inr (scheme0, rest0) =>
        let scheme := ToLower scheme0 in
        let '(rest, force, query) :=
          if HasSuffix rest0 "?" && (CountByte rest0 "?" =? 1)%nat
          then (take (String.length rest0 - 1) rest0, true, EmptyString)
          else let '(r, q, _) := Cut rest0 "?" in (r, false, q) in
        if negb (HasPrefix rest "/") && negb (String.eqb scheme "")
        then inr (mkURL scheme rest "" "" force query false "")
        else if negb (HasPrefix rest "/")
                && ContainsByte (fst (fst (Cut rest "/"))) ":"
        then inl (errors_New "first path segment in URL cannot contain colon")
        else
          let with_path (host : string) (omit : bool) (p : string) : error + URL :=
            match unescape p encodePath with
            | inl e => inl e
            | inr path => inr (mkURL scheme "" host path force query omit "")
            end in
          if (negb (String.eqb scheme "") || negb (HasPrefix rest "///"))
             && HasPrefix rest "//"
          then
            let authority0 := drop 2 rest in
            let '(authority, rest') :=
              match IndexByte authority0 "/" with
              | Some i => (take i authority0, drop i authority0)
              | None => (authority0, EmptyString)
              end in
            match parseAuthority authority with
            | inl e => inl e
            | inr host => with_path host false rest'
            end
          else if negb (String.eqb scheme "") && HasPrefix rest "/"
          then with_path "" true rest
          else with_path "" false rest
    end.

(** [url.Parse] *)
Definition Parse (rawURL : string) : error + URL :=
  let '(u, frag, _) := Cut rawURL "#" in
  match parse u with
  | inl e => inl (url_Error "parse" u e)
  | inr url =>
      if String.eqb frag "" then inr url
      else
        match unescape frag encodeFragment with
        | inl e => inl (url_Error "parse" rawURL e)
        | inr f => inr (mkURL (Scheme url) (Opaque url) (Host url) (Path url)
                              (ForceQuery url) (RawQuery url) (OmitHost url) f)
        end
  end.

(** [splitHostPort], its first result. *)
Definition splitHost (hostPort : string) : string :=
  let host :=
    match LastIndexByte hostPort ":" with
    | Some colon =>
        if validOptionalPort (drop colon hostPort) then take colon hostPort else hostPort
    | None => hostPort
    end in
  if HasPrefix host "[" && HasSuffix host "]"
  then take (String.length host - 2) (drop 1 host)
  else host.

(** [URL.Hostname] *)
Definition Hostname (u : URL) : string := splitHost (Host u).

End url.

(** ** util *)

(** [util.GetDomain] *)
Definition GetDomain (url : string) : error + string :=
  match url.Parse url with
  | inl err => inl err
  | inr parsedUrl =>
      if String.eqb (url.Hostname parsedUrl) ""
      then inl (errors_New "invalid url. Url should contain scheme and hostname")
      else inr (url.Hostname parsedUrl)
  end.

(** [util.GetBaseUrl] *)
Definition GetBaseUrl (url : string) : error + string :=
  match url.Parse url with
  | inl err => inl err
  | inr parsedUrl =>
      if String.eqb (url.Scheme parsedUrl) "" || String.eqb (url.Hostname parsedUrl) ""
      then inl (errors_New "invalid url. Url should contain scheme and hostname")
      else inr (url.Scheme parsedUrl +:+ "://" +:+ url.Hostname parsedUrl)
  end.

(** ** model *)

(** [model.Rule].  The two [time.Time] fields are instants, as integers. *)
Module Rule.
Record t := mk {
  ID : Z;
  Domain : string;
  Blocked : bool;
  RobotsTxt : string;
  CreatedAt : Z;
  UpdatedAt : Z
}.
(** [var rule model.Rule]: the zero value. *)
Definition zero : t := mk 0 "" false "" 0 0.
End Rule.

(** [model.AllowedCrawlResponse] *)
Module AllowedCrawlResponse.
Record t := mk {
  IsAllowed : bool;
  Blocked : bool;
  StatusCode : Z;
  Error : string
}.
End AllowedCrawlResponse.

(** [model.TargetResponse] *)
Module TargetResponse.
Record t := mk {
  StatusCode : Z;
  Body : bytes
}.
End TargetResponse.

(** ** The SQL store: table [web_crawler.custom_rule] *)

(** Modelled from the spec: the columns of the table, whose schema file
    (database/migration/init.sql) is not among the sources.  The spec gives
    "one table keyed by surrogate integer id, with a unique-intent column for
    domain, a text column for robots_txt, a boolean blocked, and
    created_at/updated_at timestamps maintained by the store". *)
Record Row := mkRow {
  row_id : Z;
  row_domain : string;
  row_robots_txt : string;
  row_blocked : bool;
  row_created_at : Z;
  row_updated_at : Z
}.

(** The statements the repository sends, with their parameters, and the
    statement of the API key gate. *)
Inductive Stmt : Type :=
| SELECT_WHERE_domain (domain : string)
| SELECT_WHERE_id (id : string)
| INSERT_domain_robots_txt (domain robots_txt : string)
| UPDATE_SET_domain_robots_txt_WHERE_id (domain robots_txt : string) (id : Z)
| DELETE_WHERE_id (id : string)
| SELECT_is_active_WHERE_api_key (apiKeyHash : string).

(** [strconv.Itoa] *)
Definition Itoa (i : Z) : string := NilZero.string_of_int (Z.to_int i).

(** The store reads a text parameter compared with the integer column [id] as
    a decimal integer. *)
Definition integer_of_text (s : string) : option Z :=
  option_map Z.of_int (NilZero.int_of_string s).

Definition id_is (param : string) (r : Row) : bool :=
  match integer_of_text param with
  | Some i => row_id r =? i
  | None => false
  end.

(** ** The memcached server, and the gomemcache client's [Item] *)
Record Item := mkItem {
  Key : string;
  Value : bytes;
  Expiration : Z
}.

(** [memcache.legalKey]: at most 250 bytes, none of them a space, a control
    character or DEL. *)
Definition legal_key_byte (c : ascii) : bool :=
  negb ((strings.code c <=? 32) || (strings.code c =? 127)).

Definition legalKey (key : string) : bool :=
  (String.length key <=? 250)%nat && strings.all legal_key_byte key.

(** ** net/http: the request sent and what comes back *)
Record Request := mkRequest {
  Method : string;
  URL : string;
  User_Agent : string
}.

(** What [httpClient.Do] followed by [io.ReadAll(resp.Body)] can produce.  An
    error of [Do] is always a [*url.Error] whose [Op] is the method, here Get; the
    client fills in its [URL] and [Err]. *)
Inductive Exchange : Type :=
| DoFails (URL : string) (Err : error)
| ReadAllFails (StatusCode : Z) (err : error)
| Responds (StatusCode : Z) (body : list byte).

(** [http.NewRequest(method, url, nil)] for a valid method: it fails exactly
    when the URL does not parse. *)
Definition NewRequest (method url : string) : error + Request :=
  match url.Parse url with
  | inl err => inl err
  | inr _ => inr (mkRequest method url "")
  end.

(** [req.Header.Set("User-Agent", value)] *)
Definition Header_Set_User_Agent (req : Request) (value : string) : Request :=
  mkRequest (Method req) (URL req) value.

(** ** The world outside the process, and the I/O performed on it *)
Inductive Event : Type :=
| Sql (q : Stmt)
| MemcacheGet (key : string)
| MemcacheSet (item : Item)
| HttpDo (req : Request).

Record World := mkWorld {
  table : list Row;
  next_id : Z;
  clock : Z;
  memcached : gmap string Item;
  events : list Event;
  success_responses : Z;
  error_responses : Z
}.

Definition is_sql (e : Event) : bool := match e with Sql _ => true | _ => false end.
Definition is_cache_get (e : Event) : bool := match e with MemcacheGet _ => true | _ => false end.
Definition is_cache_set (e : Event) : bool := match e with MemcacheSet _ => true | _ => false end.
Definition is_http (e : Event) : bool := match e with HttpDo _ => true | _ => false end.

(** A computation on the world. *)
Definition M (A : Type) : Type := World -> A * World.

Definition ret {A : Type} (a : A) : M A := fun w => (a, w).

Definition bind {A B : Type} (m : M A) (k : A -> M B) : M B :=
  fun w => let (a, w') := m w in k a w'.

Notation "'let*' x ':=' m 'in' k" := (bind m (fun x => k))
  (at level 10, x name, m at level 100, k at level 200, only parsing).

(** The world after one more I/O event. *)
Definition record (e : Event) (w : World) : World :=
  mkWorld (table w) (next_id w) (clock w) (memcached w) (events w ++ [e])
          (success_responses w) (error_responses w).

Definition emit (e : Event) : M unit := fun w => (tt, record e w).

Fixpoint emit_each (es : list Event) : M unit :=
  match es with
  | [] => ret tt
  | e :: es => let* _ := emit e in emit_each es
  end.

Definition add_success (count : Z) (w : World) : World :=
  mkWorld (table w) (next_id w) (clock w) (memcached w) (events w)
          (success_responses w + count) (error_responses w).

Definition add_error (count : Z) (w : World) : World :=
  mkWorld (table w) (next_id w) (clock w) (memcached w) (events w)
          (success_responses w) (error_responses w + count).

Definition set_table (rows : list Row) (w : World) : World :=
  mkWorld rows (next_id w) (clock w) (memcached w) (events w)
          (success_responses w) (error_responses w).

Definition set_memcached (m : gmap string Item) (w : World) : World :=
  mkWorld (table w) (next_id w) (clock w) m (events w)
          (success_responses w) (error_responses w).

(** A panic unwinds the handler; otherwise the function returns. *)
Inductive outcome (A : Type) : Type :=
| returns (a : A)
| panics (why : string).
Arguments returns {A} a.
Arguments panics {A} why.

(** What a handler writes with [c.JSON(code, obj)]. *)
Inductive Body : Type :=
| crawl_response (r : AllowedCrawlResponse.t)
| gin_H (fields : list (string * string)).

Record Reply := JSON { code : Z; obj : Body }.

(** The HTTP status of the answer a handler returned with, if it did. *)
Definition code_of (o : outcome Reply) : option Z :=
  match o with
  | returns reply => Some (code reply)
  | panics _ => None
  end.

(** [gin.Context], the query string of the request: [c.Query(key)] is the first
    value of the key, or the empty string. *)
Record Context := mkContext { query : list (string * string) }.

Definition Query (c : Context) (key : string) : string :=
  match List.find (fun kv => String.eqb (fst kv) key) (query c) with
  | Some kv => snd kv
  | None => ""
  end.

(** [config.Config], the three settings read here.  [TtlSeconds] stands for
    [int32(cfg.CacheSettings.TtlForRobotsTxt.Seconds())], which the code computes
    through a float64; [TelemetryEnabled] for [cfg.TelemetrySettings.Enabled]. *)
Record Config := mkConfig {
  RuleUserAgent : string;
  TtlSeconds : Z;
  TelemetryEnabled : bool
}.

(** ** URLs of the common shape, scheme://host/path?query *)

Definition scheme_letter (c : ascii) : bool :=
  strings.between "a" "z" c || strings.between "A" "Z" c.

Definition scheme_byte (c : ascii) : bool :=
  scheme_letter c || strings.between "0" "9" c
  || strings.eqc c "+" || strings.eqc c "-" || strings.eqc c ".".

Definition host_byte (c : ascii) : bool :=
  url.alnum c || strings.eqc c "-" || strings.eqc c ".".

Definition path_byte (c : ascii) : bool :=
  url.alnum c || existsb (strings.eqc c) ["/"; "-"; "."; "_"; "~"]%char.

Definition query_byte (c : ascii) : bool :=
  url.alnum c || existsb (strings.eqc c) ["="; "&"; "-"; "."; "_"; "~"]%char.

(** A letter, then letters, digits, plus, minus and dots. *)
Definition plain_scheme (s : string) : bool :=
  match s with
  | EmptyString => false
  | String c rest => scheme_letter c && strings.all scheme_byte rest
  end.

(** A non-empty host name of letters, digits, minus and dots. *)
Definition plain_host (h : string) : bool :=
  negb (String.eqb h "") && strings.all host_byte h.

(** No path, or an absolute one without escapes. *)
Definition plain_path (p : string) : bool :=
  (String.eqb p "" || strings.HasPrefix p "/") && strings.all path_byte p.

Definition plain_query (q : string) : bool := strings.all query_byte q.

(** The URL text: the query, when there is one, follows a question mark. *)
Definition query_text (query : option string) : string :=
  match query with
  | Some q => "?" +:+ q
  | None => ""
  end.

Definition common_url (scheme host path : string) (query : option string) : string :=
  scheme +:+ "://" +:+ host +:+ path +:+ query_text query.

(** The bytes of a URL of the common shape. *)
Definition url_byte (c : ascii) : bool :=
  scheme_byte c || host_byte c || path_byte c || query_byte c
  || strings.eqc c ":" || strings.eqc c "/" || strings.eqc c "?".

(** ** The identities of the table *)

(** No two rows share an id, and the sequence is ahead of every id. *)
Definition well_keyed (w : World) : Prop :=
  List.NoDup (map row_id (table w))
  /\ List.Forall (fun r => row_id r < next_id w) (table w).

(** ** The custom-rule handlers: what they read and what they write *)

(** [c.DefaultQuery(key, defaultValue)]: the first value of the key when the key
    is in the query string, even with an empty value. *)
Definition DefaultQuery (c : Context) (key defaultValue : string) : string :=
  match List.find (fun kv => String.eqb (fst kv) key) (query c) with
  | Some kv => snd kv
  | None => defaultValue
  end.

(** [strconv.ParseBool]; [None] stands for its syntax error, whose text no caller
    here reads. *)
Definition ParseBool (str : string) : option bool :=
  if existsb (String.eqb str) ["1"; "t"; "T"; "TRUE"; "true"; "True"] then Some true
  else if existsb (String.eqb str) ["0"; "f"; "F"; "FALSE"; "false"; "False"] then Some false
  else None.

(** A request with a body: its query string and what
    [io.ReadAll(c.Request.Body)] returns. *)
Record BodyContext := mkBodyContext {
  context : Context;
  ReadAll_Body : error + list byte
}.

(** What the custom-rule handlers write with [c.JSON(status, obj)]: a [gin.H]
    of texts, the [gin.H] holding the new id, or a rule. *)
Inductive Obj : Type :=
| H_text (fields : list (string * string))
| H_id (id : Z)
| rule_json (rule : Rule.t).

Record Answer := Answered { status : Z; written : Obj }.

(** ** main: the API key gate and the start-up *)

(** Table [web_crawler.api_key], the two columns the gate's SELECT names. *)
Record ApiKeyRow := mkApiKeyRow {
  api_key : string;
  is_active : bool
}.

(** What a middleware leaves: the chain aborted with an answer, or the next
    handler to run. *)
Inductive Gate : Type :=
| Abort (status : Z) (fields : list (string * string))
| Next.

(** What a route of the guarded group produces. *)
Inductive Served (A : Type) : Type :=
| Aborted (status : Z) (fields : list (string * string))
| Handled (a : A).
Arguments Aborted {A} status fields.
Arguments Handled {A} a.

(** How [setupDatabase] ends: with the pool, or with [os.Exit(1)]; in both
    cases after some pings and some seconds of sleep. *)
Inductive Startup : Type :=
| Connected (pings : nat) (slept : Z)
| Exit1 (pings : nat) (slept : Z).

(** ** URLs with a port, scheme://host:port/path?query *)





(** The bytes of such an authority. *)
Definition authority_byte (c : ascii) : bool := host_byte c || strings.eqc c ":".

(** ** Concrete inputs, for the examples at the end *)

Definition LF : string := String (ascii_of_nat 10) EmptyString.

(** [strconv.Quote] on a text of printable ASCII characters with no quote and no
    backslash in it. *)
Definition quote_plain (s : string) : string := dquote +:+ s +:+ dquote.

(** An evaluator that allows every agent everywhere. *)
Definition always_allowed (robotsBody userAgent uri : string) : bool := true.

(** A store and a cache that execute every command. *)
Definition store_up (q : Stmt) : option error := None.
Definition gets_answered (key : string) : option error := None.
Definition sets_answered (item : Item) : option error := None.

(** Remote sites: one that cannot be connected to, one that has no robots file,
    one that serves a robots file. *)
Definition site_down (req : Request) : Exchange :=
  DoFails (URL req) (foreign_error "dial tcp 192.0.2.1:443: connect: connection refused").

Definition site_not_found (req : Request) : Exchange :=
  Responds 404 (list_byte_of_string "404 page not found").

Definition robots_disallow_test : string := "User-agent: *" +:+ LF +:+ "Disallow: /test".
Definition robots_allow_test : string := "User-agent: *" +:+ LF +:+ "Allow: /test".

Definition site_serving (req : Request) : Exchange :=
  Responds 200 (list_byte_of_string robots_disallow_test).

Definition config_yml : Config :=
  mkConfig "Mozilla/5.0 (Windows NT 10.0; Win64; x64)" 86400 true.

Definition request_test : Context :=
  mkContext [("url", "https://example.com/test"); ("user_agent", "bot")].

(** No rule, nothing cached, nothing done yet. *)
Definition world_empty : World := mkWorld [] 1 0 ∅ [] 0 0.

(** One rule for example.com, whose blocked column is set. *)
Definition row_example_blocked : Row :=
  mkRow 1 "example.com" robots_allow_test true 0 0.

Definition world_blocked_rule : World := mkWorld [row_example_blocked] 2 0 ∅ [] 0 0.

(** One rule for example.com, whose blocked column is not set, and the rule an
    update request for it with blocked=true hands to the repository. *)
Definition world_plain_rule : World :=
  mkWorld [mkRow 1 "example.com" robots_allow_test false 0 0] 2 0 ∅ [] 0 0.

Definition rule_now_blocked : Rule.t :=
  Rule.mk 1 "example.com" true robots_disallow_test 0 0.

(** A store and a cache that refuse every command. *)
Definition store_down (q : Stmt) : option error :=
  Some (foreign_error "pq: the database system is shutting down").
Definition gets_refused (key : string) : option error :=
  Some (foreign_error "memcache: connect timeout to 127.0.0.1:11211").
Definition sets_refused (item : Item) : option error :=
  Some (foreign_error "memcache: connect timeout to 127.0.0.1:11211").

(** The two robots files, as bodies. *)
Definition file_disallow_test : list byte := list_byte_of_string robots_disallow_test.
Definition file_allow_test : list byte := list_byte_of_string robots_allow_test.

(** A crawl request for a URL with no scheme, and one for a URL whose host is an
    IPv6 address with a zone. *)
Definition request_no_scheme : Context :=
  mkContext [("url", "//example.com/x"); ("user_agent", "bot")].

Definition request_zone : Context :=
  mkContext [("url", "http://[::1%25eth0]/x"); ("user_agent", "bot")].

(** Requests to the custom-rule routes. *)
Definition request_rule_1 : Context := mkContext [("id", "1")].

Definition request_rule_1_and_url : Context :=
  mkContext [("id", "1"); ("url", "https://example.org/")].

Definition create_request : BodyContext :=
  mkBodyContext (mkContext [("url", "https://example.com/a")]) (inr file_disallow_test).

Definition create_request_blocked : BodyContext :=
  mkBodyContext (mkContext [("url", "https://example.com/a"); ("blocked", "true")])
                (inr file_disallow_test).

Definition update_request_unchanged : BodyContext :=
  mkBodyContext (mkContext [("id", "1"); ("blocked", "false")]) (inr file_allow_test).

Definition update_request_blocked : BodyContext :=
  mkBodyContext (mkContext [("id", "1"); ("blocked", "true")]) (inr file_allow_test).

Section RuleApi.

(** *** What the process does not decide *)

(** [strconv.Quote], which the [%q] verb of the net/url error texts uses. *)
Variable strconv_Quote : string -> string.

(** [grobotstxt.AgentAllowed(robotsBody, userAgent, uri)], the directive
    evaluator. *)
Variable AgentAllowed : string -> string -> string -> bool.

(** The store's verdict on a statement: [Some err] when it fails it
    (connection lost, constraint violated, parameter refused). *)
Variable store_fault : Stmt -> option error.

(** What the schema makes of the columns an INSERT leaves out. *)
Variable blocked_default : bool.

(** The memcached server failing a get of a key, or a set of an item. *)
Variable get_fault : string -> option error.
Variable set_fault : Item -> option error.

(** The remote sites, as seen through [httpClient]. *)
Variable httpClient : Request -> Exchange.

Variable cfg : Config.

(** [err.Error()] *)
Fixpoint Error (e : error) : string :=
  match e with
  | errors_New text => text
  | url_Error Op URL Err => Op +:+ " " +:+ strconv_Quote URL +:+ ": " +:+ Error Err
  | url_EscapeError s => "invalid URL escape " +:+ strconv_Quote s
  | url_InvalidHostError s => "invalid character " +:+ strconv_Quote s +:+ " in host name"
  | url_invalid_port colonPort => "invalid port " +:+ strconv_Quote colonPort +:+ " after host"
  | sql_ErrNoRows => "sql: no rows in result set"
  | memcache_ErrCacheMiss => "memcache: cache miss"
  | memcache_ErrMalformedKey => "malformed: key is too long or contains invalid characters"
  | foreign_error text => text
  end.

(** [errors.Is(err, sql.ErrNoRows)] *)
Definition is_ErrNoRows (e : error) : bool :=
  match e with sql_ErrNoRows => true | _ => false end.

(** [errors.Is(err, memcache.ErrCacheMiss)] *)
Definition is_ErrCacheMiss (e : error) : bool :=
  match e with memcache_ErrCacheMiss => true | _ => false end.

(** *** database/sql on the table *)

(** [db.QueryRow(SELECT ...).Scan(...)]: the first row the store returns for
    the condition, [sql.ErrNoRows] when there is none. *)
Definition QueryRow_Scan (q : Stmt) (cond : Row -> bool) : M (error + Row) :=
  let* _ := emit (Sql q) in
  fun w =>
    match store_fault q with
    | Some err => (inl err, w)
    | None =>
        match List.find cond (table w) with
        | Some r => (inr r, w)
        | None => (inl sql_ErrNoRows, w)
        end
    end.

(** [db.Exec(...)] of a statement that rewrites the table. *)
Definition Exec (q : Stmt) (rewrite : list Row -> list Row) : M (option error) :=
  let* _ := emit (Sql q) in
  fun w =>
    match store_fault q with
    | Some err => (Some err, w)
    | None => (None, set_table (rewrite (table w)) w)
    end.

(** The five columns the two SELECTs name, scanned into a zero [Rule]. *)
Definition scan (r : Row) : Rule.t :=
  Rule.mk (row_id r) (row_domain r) (Rule.Blocked Rule.zero) (row_robots_txt r)
          (row_created_at r) (row_updated_at r).

(** *** persistence.RuleRepository *)

Definition GetByUrl (url : string) : M (error + Rule.t) :=
  match GetDomain url with
  | inl err => ret (inl (errors_New ("failed to parse url. " +:+ Error err)))
  | inr domain =>
      let* row := QueryRow_Scan (SELECT_WHERE_domain domain)
                                (fun r => String.eqb (row_domain r) domain) in
      match row with
      | inl err =>
          if is_ErrNoRows err
          then ret (inl (errors_New ("rule with domain '" +:+ domain +:+ "' not found")))
          else ret (inl err)
      | inr r => ret (inr (scan r))
      end
  end.

Definition GetById (id : string) : M (error + Rule.t) :=
  let* row := QueryRow_Scan (SELECT_WHERE_id id) (id_is id) in
  match row with
  | inl err =>
      if is_ErrNoRows err
      then ret (inl (errors_New ("rule with id '" +:+ id +:+ "' not found")))
      else ret (inl err)
  | inr r => ret (inr (scan r))
  end.

(** [INSERT ... RETURNING id]: the store draws the id from its sequence and
    fills the columns the statement does not name. *)
Definition Save (rule : Rule.t) : M (error + Z) :=
  let q := INSERT_domain_robots_txt (Rule.Domain rule) (Rule.RobotsTxt rule) in
  let* _ := emit (Sql q) in
  fun w =>
    match store_fault q with
    | Some err => (inl err, w)
    | None =>
        (inr (next_id w),
         mkWorld (table w ++ [mkRow (next_id w) (Rule.Domain rule) (Rule.RobotsTxt rule)
                                    blocked_default (clock w) (clock w)])
                 (next_id w + 1) (clock w) (memcached w) (events w)
                 (success_responses w) (error_responses w))
    end.

Definition update_row (rule : Rule.t) (r : Row) : Row :=
  if row_id r =? Rule.ID rule
  then mkRow (row_id r) (Rule.Domain rule) (Rule.RobotsTxt rule) (row_blocked r)
             (row_created_at r) (row_updated_at r)
  else r.

Definition Update (rule : Rule.t) : M (error + Rule.t) :=
  let* err := Exec (UPDATE_SET_domain_robots_txt_WHERE_id
                      (Rule.Domain rule) (Rule.RobotsTxt rule) (Rule.ID rule))
                   (map (update_row rule)) in
  match err with
  | Some err => ret (inl err)
  | None => GetById (Itoa (Rule.ID rule))
  end.

Definition Delete (ruleId : string) : M (option error) :=
  let* err := Exec (DELETE_WHERE_id ruleId) (List.filter (fun r => negb (id_is ruleId r))) in
  match err with
  | Some err => ret (Some err)
  | None => ret None
  end.

(** *** gomemcache *)

(** [client.Get(key)] *)
Definition memcache_Get (key : string) : M (error + Item) :=
  if negb (legalKey key) then ret (inl memcache_ErrMalformedKey)
  else
    let* _ := emit (MemcacheGet key) in
    fun w =>
      match get_fault key with
      | Some err => (inl err, w)
      | None =>
          match memcached w !! key with
          | Some item => (inr item, w)
          | None => (inl memcache_ErrCacheMiss, w)
          end
      end.

(** [client.Set(item)] *)
Definition memcache_Set (item : Item) : M (option error) :=
  if negb (legalKey (Key item)) then ret (Some memcache_ErrMalformedKey)
  else
    let* _ := emit (MemcacheSet item) in
    fun w =>
      match set_fault item with
      | Some err => (Some err, w)
      | None => (None, set_memcached (<[Key item := item]> (memcached w)) w)
      end.

(** *** cache.MemcachedClient *)

Definition hashURL (url : string) : string :=
  hex.EncodeToString (sha256.Sum256 (list_byte_of_string url)).

Definition generateDomainHash (url : string) : string :=
  match GetDomain url with
  | inl _ => hashURL url +:+ "-robots-txt"
  | inr domain => hashURL domain +:+ "-robots-txt"
  end.

(** [mc.set(key, value, expiration)], called with a [[]byte] value. *)
Definition set (key : string) (value : bytes) (expiration : Z) : M (option error) :=
  let byteValue := json.Marshal value in
  memcache_Set (mkItem key byteValue expiration).

Definition GetRobotsFile (url : string) : M (bytes * bool) :=
  let key := generateDomainHash url in
  let* item := memcache_Get key in
  match item with
  | inl err =>
      if is_ErrCacheMiss err then ret (nil_slice, false) else ret (nil_slice, false)
  | inr item => ret (Value item, true)
  end.

Definition SaveRobotsFile (url : string) (robotFile : bytes) : M unit :=
  let key := generateDomainHash url in
  let* err := set key robotFile (TtlSeconds cfg) in
  match err with
  | Some _ => ret tt
  | None => ret tt
  end.

(** *** telemetry.ApiMetrics *)

(** The two closures [SetupMetrics] builds: each adds to its counter when
    telemetry is enabled, and does nothing otherwise. *)
Definition SuccessResponseCounter (count : Z) : M unit :=
  fun w => (tt, if TelemetryEnabled cfg then add_success count w else w).

Definition ErrorResponseCounter (count : Z) : M unit :=
  fun w => (tt, if TelemetryEnabled cfg then add_error count w else w).

(** *** handler.RuleApiHandler *)

Definition StatusOK : Z := 200.
Definition StatusBadRequest : Z := 400.
Definition StatusInternalServerError : Z := 500.

Definition isSuccess (statusCode : Z) : bool :=
  (200 <=? statusCode) && (statusCode <? 300).

(** [httpClient.Do(req)] and the reading of the body. *)
Definition Do (req : Request) : M Exchange :=
  let* _ := emit (HttpDo req) in ret (httpClient req).

(** The error of [http.NewRequest] is overwritten unread: when the request
    is nil, [req.Header.Set] dereferences it. *)
Definition requestToRobotsTxt (url : string) : M (outcome (error + TargetResponse.t)) :=
  match GetBaseUrl url with
  | inl err => ret (returns (inl (errors_New ("failed to parse url. " +:+ Error err))))
  | inr baseUrl =>
      match NewRequest "GET" (baseUrl +:+ "/robots.txt") with
      | inl _ => ret (panics "runtime error: invalid memory address or nil pointer dereference")
      | inr req =>
          let req := Header_Set_User_Agent req (RuleUserAgent cfg) in
          let* resp := Do req in
          match resp with
          | DoFails URL Err => ret (returns (inl (url_Error "Get" URL Err)))
          | ReadAllFails _ err => ret (returns (inl err))
          | Responds statusCode body =>
              ret (returns (inr (TargetResponse.mk statusCode (slice body))))
          end
      end
  end.

Definition getRobotsTxt (url : string) : M (outcome (error + TargetResponse.t)) :=
  let* cached := GetRobotsFile url in
  let (file, ok) := cached : bytes * bool in
  if ok then ret (returns (inr (TargetResponse.mk StatusOK file)))
  else
    let* fetched := requestToRobotsTxt url in
    match fetched with
    | panics why => ret (panics why)
    | returns (inl err) => ret (returns (inl err))
    | returns (inr tResp) =>
        let* _ :=
          (if isSuccess (TargetResponse.StatusCode tResp)
              && negb (len (TargetResponse.Body tResp) =? 0)
           then SaveRobotsFile url (TargetResponse.Body tResp)
           else ret tt) in
        ret (returns (inr tResp))
    end.

(** The condition [err == nil && rule != nil && rule.RobotsTxt != ""] on what
    [GetByUrl] returned. *)
Definition custom_rule (found : error + Rule.t) : option Rule.t :=
  match found with
  | inr rule => if negb (String.eqb (Rule.RobotsTxt rule) "") then Some rule else None
  | inl _ => None
  end.

(** The end of [GetAllowedCrawl], once the directive text is known. *)
Definition answer (robotsTxt userAgent url : string) (blocked : bool)
           (targetResponseStatusCode : Z) : M (outcome Reply) :=
  if AgentAllowed robotsTxt userAgent url then
    let* _ := SuccessResponseCounter 1 in
    ret (returns (JSON StatusOK (crawl_response
           (AllowedCrawlResponse.mk true blocked targetResponseStatusCode ""))))
  else
    let* _ := SuccessResponseCounter 1 in
    ret (returns (JSON StatusOK (crawl_response
           (AllowedCrawlResponse.mk false blocked targetResponseStatusCode "")))).

Definition GetAllowedCrawl (c : Context) : M (outcome Reply) :=
  let url := Query c "url" in
  if String.eqb url "" then
    let* _ := ErrorResponseCounter 1 in
    ret (returns (JSON StatusBadRequest (crawl_response
           (AllowedCrawlResponse.mk false false StatusBadRequest
              "'url' query parameter is required"))))
  else
  let userAgent := Query c "user_agent" in
  if String.eqb userAgent "" then
    let* _ := ErrorResponseCounter 1 in
    ret (returns (JSON StatusBadRequest (crawl_response
           (AllowedCrawlResponse.mk false false StatusBadRequest
              "'user_agent' query parameter is required"))))
  else
  let blocked := false in
  let* found := GetByUrl url in
  match custom_rule found with
  | Some rule =>
      answer (Rule.RobotsTxt rule) userAgent url (Rule.Blocked rule) StatusOK
  | None =>
      let* fetched := getRobotsTxt url in
      match fetched with
      | panics why => ret (panics why)
      | returns (inl err) =>
          let* _ := ErrorResponseCounter 1 in
          ret (returns (JSON StatusInternalServerError (crawl_response
                 (AllowedCrawlResponse.mk false blocked StatusInternalServerError
                    (Error err)))))
      | returns (inr tResp) =>
          if negb (isSuccess (TargetResponse.StatusCode tResp)) then
            let* _ := SuccessResponseCounter 1 in
            ret (returns (JSON StatusOK (crawl_response
                   (AllowedCrawlResponse.mk false blocked (TargetResponse.StatusCode tResp)
                      (string_of_bytes (TargetResponse.Body tResp))))))
          else
            answer (string_of_bytes (TargetResponse.Body tResp)) userAgent url blocked
                   (TargetResponse.StatusCode tResp)
      end
  end.

Definition DeleteCustomRule (c : Context) : M (outcome Reply) :=
  let id := Query c "id" in
  if String.eqb id "" then
    ret (returns (JSON StatusBadRequest
           (gin_H [("error", "'id' query parameter is required")])))
  else
    let* err := Delete id in
    match err with
    | Some err =>
        ret (returns (JSON StatusInternalServerError
               (gin_H [("error", "failed to delete custom rule. " +:+ Error err)])))
    | None =>
        ret (returns (JSON StatusOK
               (gin_H [("message", "rule with id '" +:+ id +:+ "' is deleted")])))
    end.

(** *** handler: the custom rules *)

Definition GetCustomRule (c : Context) : M Answer :=
  let id := Query c "id" in
  let url := Query c "url" in
  if String.eqb id "" && String.eqb url "" then
    ret (Answered StatusBadRequest
           (H_text [("error", "'id' or 'url' query parameter is required")]))
  else if negb (String.eqb id "") then
    let* found := GetById id in
    match found with
    | inl err =>
        ret (Answered 404 (H_text [("error", "failed to get rule by id. " +:+ Error err)]))
    | inr rule => ret (Answered StatusOK (rule_json rule))
    end
  else
    let* found := GetByUrl url in
    match found with
    | inl err =>
        ret (Answered 404 (H_text [("error", "failed to get rule by url. " +:+ Error err)]))
    | inr rule => ret (Answered StatusOK (rule_json rule))
    end.

Definition CreateCustomRule (c : BodyContext) : M Answer :=
  let url := Query (context c) "url" in
  if String.eqb url "" then
    ret (Answered StatusBadRequest (H_text [("error", "'url' query parameter is required")]))
  else
    let b := DefaultQuery (context c) "blocked" "false" in
    let blocked := match ParseBool b with Some v => v | None => false end in
    match ReadAll_Body c with
    | inl err =>
        ret (Answered StatusInternalServerError
               (H_text [("error", "unable to read file. " +:+ Error err)]))
    | inr body =>
        if len (slice body) =? 0 then
          ret (Answered StatusBadRequest
                 (H_text [("error", "custom rules are not found or empty")]))
        else
          match GetDomain url with
          | inl err =>
              ret (Answered StatusInternalServerError
                     (H_text [("error", "failed to parse url. " +:+ Error err)]))
          | inr domain =>
              let* saved :=
                Save (Rule.mk (Rule.ID Rule.zero) domain blocked (string_of_list_byte body)
                              (Rule.CreatedAt Rule.zero) (Rule.UpdatedAt Rule.zero)) in
              match saved with
              | inl err =>
                  ret (Answered StatusInternalServerError
                         (H_text [("error", "failed to save custom rule. " +:+ Error err)]))
              | inr id => ret (Answered StatusOK (H_id id))
              end
          end
    end.

Definition UpdateCustomRule (c : BodyContext) : M Answer :=
  let id := Query (context c) "id" in
  let url := Query (context c) "url" in
  if String.eqb id "" && String.eqb url "" then
    ret (Answered StatusBadRequest
           (H_text [("error", "'id' or 'url' query parameter is required")]))
  else
    let b := Query (context c) "blocked" in
    if String.eqb b "" then
      ret (Answered StatusBadRequest
             (H_text [("error", "'blocked' query parameter is required")]))
    else
      match ParseBool b with
      | None =>
          ret (Answered StatusInternalServerError
                 (H_text [("error", "unable to parse 'blocked' query parameter")]))
      | Some blocked =>
          match ReadAll_Body c with
          | inl _ =>
              ret (Answered StatusInternalServerError
                     (H_text [("error", "unable to read file")]))
          | inr body =>
              if len (slice body) =? 0 then
                ret (Answered StatusBadRequest
                       (H_text [("error", "custom rules are not found or empty")]))
              else
                let* found := (if negb (String.eqb id "") then GetById id else GetByUrl url) in
                match found with
                | inl err =>
                    ret (Answered 404
                           (H_text [("error",
                                     (if negb (String.eqb id "")
                                      then "failed to get rule by id. "
                                      else "failed to get rule by url. ") +:+ Error err)]))
                | inr rule =>
                    if String.eqb (Rule.RobotsTxt rule) (string_of_list_byte body)
                       && Bool.eqb (Rule.Blocked rule) blocked
                    then ret (Answered StatusOK (rule_json rule))
                    else
                      let* result :=
                        Update (Rule.mk (Rule.ID rule) (Rule.Domain rule) blocked
                                        (string_of_list_byte body)
                                        (Rule.CreatedAt rule) (Rule.UpdatedAt rule)) in
                      match result with
                      | inl err =>
                          ret (Answered StatusInternalServerError
                                 (H_text [("error",
                                           "failed to update custom rule. " +:+ Error err)]))
                      | inr result => ret (Answered StatusOK (rule_json result))
                      end
                end
          end
      end.

(** *** main *)

Definition hashAPIKey (apiKey : string) : string :=
  hex.EncodeToString (sha256.Sum256 (list_byte_of_string apiKey)).

(** [apiKeyCheck], on the value of the X-API-Key header, the rows of the key
    table and the store's verdict on the SELECT for a parameter.  Beside the
    gate's decision, the parameters of the statements it sent. *)
Definition apiKeyCheck (keys : list ApiKeyRow) (key_fault : string -> option error)
           (apiKey : string) : Gate * list string :=
  if String.eqb apiKey "" then
    (Abort 401 [("message", "X-API-Key header is missing")], [])
  else
    let apiKeyHash := hashAPIKey apiKey in
    match key_fault apiKeyHash with
    | Some err =>
        if is_ErrNoRows err
        then (Abort 401 [("error", "invalid api-key")], [apiKeyHash])
        else (Abort StatusInternalServerError [("error", "api-key check failed")], [apiKeyHash])
    | None =>
        match List.find (fun row => String.eqb (api_key row) apiKeyHash) keys with
        | None => (Abort 401 [("error", "invalid api-key")], [apiKeyHash])
        | Some row =>
            if negb (is_active row)
            then (Abort 403 [("error", "api-key is not active")], [apiKeyHash])
            else (Next, [apiKeyHash])
        end
    end.

(** A route of the group [customRule], which uses [apiKeyCheck]: the gate's
    statements go to the store that serves the repository, and the handler runs
    afterwards when the gate lets the request through. *)
Definition customRule {A : Type} (keys : list ApiKeyRow) (apiKey : string)
           (handler : M A) : M (Served A) :=
  let checked :=
    apiKeyCheck keys
      (fun apiKeyHash => store_fault (SELECT_is_active_WHERE_api_key apiKeyHash)) apiKey in
  let* _ := emit_each (map (fun apiKeyHash => Sql (SELECT_is_active_WHERE_api_key apiKeyHash))
                           (snd checked)) in
  match fst checked with
  | Abort status fields => ret (Aborted status fields)
  | Next => let* a := handler in ret (Handled a)
  end.

(** The ping loop of [setupDatabase]: attempt [i] of [maxRetry], with [left]
    attempts left including this one; [ping i] is the error of the i-th ping. *)
Fixpoint ping_loop (ping : Z -> option error) (maxRetry : Z) (left : nat) (i : Z)
         (pings : nat) (slept : Z) : Startup :=
  match left with
  | O => Connected pings slept
  | S left' =>
      match ping i with
      | Some _ =>
          if i =? maxRetry then Exit1 (S pings) slept
          else ping_loop ping maxRetry left' (i + 1) (S pings) (slept + 5 * i)
      | None => Connected (S pings) slept
      end
  end.

Definition setupDatabase (sql_Open : option error) (ping : Z -> option error) : Startup :=
  match sql_Open with
  | Some _ => Exit1 0 0
  | None => ping_loop ping 6 6 1 0 0
  end.

(** *** Running the computations *)

Ltac run :=
  unfold bind, ret, emit, ErrorResponseCounter, SuccessResponseCounter; simpl.

Lemma eqb_empty_false (s : string) : s <> "" -> String.eqb s "" = false.
Proof. intros H. now apply String.eqb_neq. Qed.

(** The counters touch nothing but their own count, and that only when
    telemetry is enabled. *)
Lemma SuccessResponseCounter_world (count : Z) (w : World) :
  let w' := snd (SuccessResponseCounter count w) in
  table w' = table w /\ next_id w' = next_id w /\ memcached w' = memcached w
  /\ events w' = events w
  /\ success_responses w' = success_responses w + (if TelemetryEnabled cfg then count else 0)
  /\ error_responses w' = error_responses w.
Proof.
  unfold SuccessResponseCounter. destruct (TelemetryEnabled cfg); cbn; repeat split; lia.
Qed.

Lemma ErrorResponseCounter_world (count : Z) (w : World) :
  let w' := snd (ErrorResponseCounter count w) in
  table w' = table w /\ next_id w' = next_id w /\ memcached w' = memcached w
  /\ events w' = events w
  /\ success_responses w' = success_responses w
  /\ error_responses w' = error_responses w + (if TelemetryEnabled cfg then count else 0).
Proof.
  unfold ErrorResponseCounter. destruct (TelemetryEnabled cfg); cbn; repeat split; lia.
Qed.

Lemma SuccessResponseCounter_events (count : Z) (w : World) :
  events (snd (SuccessResponseCounter count w)) = events w.
Proof. apply SuccessResponseCounter_world. Qed.

Lemma SuccessResponseCounter_memcached (count : Z) (w : World) :
  memcached (snd (SuccessResponseCounter count w)) = memcached w.
Proof. apply SuccessResponseCounter_world. Qed.

Lemma ErrorResponseCounter_events (count : Z) (w : World) :
  events (snd (ErrorResponseCounter count w)) = events w.
Proof. apply ErrorResponseCounter_world. Qed.

Lemma ErrorResponseCounter_memcached (count : Z) (w : World) :
  memcached (snd (ErrorResponseCounter count w)) = memcached w.
Proof. apply ErrorResponseCounter_world. Qed.

(** C8: a request without the url parameter is answered with exactly
    {isAllowed:false, blocked:false, statusCode:400, error:"'url' query
    parameter is required"}; one without user_agent gets the 400 validation
    answer for that parameter; in both cases the world after the call is the
    world before it passed through the error counter (incremented when
    telemetry is enabled, untouched otherwise): no statement was sent to the
    store, no cache command and no HTTP request were issued. *)
Theorem C8_validation_before_any_io (c : Context) (w : World) :
  (Query c "url" = "" ->
     GetAllowedCrawl c w =
       (returns (JSON 400 (crawl_response
          (AllowedCrawlResponse.mk false false 400 "'url' query parameter is required"))),
        snd (ErrorResponseCounter 1 w)))
  /\ (Query c "url" <> "" -> Query c "user_agent" = "" ->
     GetAllowedCrawl c w =
       (returns (JSON 400 (crawl_response
          (AllowedCrawlResponse.mk false false 400
             "'user_agent' query parameter is required"))),
        snd (ErrorResponseCounter 1 w)))
  /\ events (snd (ErrorResponseCounter 1 w)) = events w
  /\ table (snd (ErrorResponseCounter 1 w)) = table w
  /\ memcached (snd (ErrorResponseCounter 1 w)) = memcached w
  /\ error_responses (snd (ErrorResponseCounter 1 w))
     = error_responses w + (if TelemetryEnabled cfg then 1 else 0).
Proof.
  pose proof (ErrorResponseCounter_world 1 w) as (Ht & _ & Hm & He & _ & Hc).
  split; [| split].
  - intros Hurl. unfold GetAllowedCrawl. rewrite Hurl. reflexivity.
  - intros Hurl Hua. unfold GetAllowedCrawl.
    rewrite (eqb_empty_false _ Hurl), Hua. reflexivity.
  - auto.
Qed.

(** *** The repository *)

Lemma filter_twice {A : Type} (f : A -> bool) (l : list A) :
  List.filter f (List.filter f l) = List.filter f l.
Proof.
  induction l as [| a l IH]; simpl; [reflexivity |].
  destruct (f a) eqn:Hfa; simpl; [rewrite Hfa, IH |]; auto.
Qed.

Lemma filter_all {A : Type} (f : A -> bool) (l : list A) :
  forallb f l = true -> List.filter f l = l.
Proof.
  induction l as [| a l IH]; simpl; [reflexivity |].
  intros H. apply andb_prop in H as [Ha Hl]. rewrite Ha, IH; auto.
Qed.

Lemma Delete_accepted (ruleId : string) (w : World) :
  store_fault (DELETE_WHERE_id ruleId) = None ->
  Delete ruleId w =
    (None,
     set_table (List.filter (fun r => negb (id_is ruleId r)) (table w))
       (record (Sql (DELETE_WHERE_id ruleId)) w)).
Proof. intros Hok. unfold Delete, Exec. run. rewrite Hok. reflexivity. Qed.

(** C9: when the store executes the DELETE, the repository's Delete returns
    no error, whether or not a row has the id; the rows with another id are
    kept; a second Delete of the same id returns no error either and leaves
    the table as the first one left it; and the handler answers 200 both
    times. *)
Theorem C9_delete_is_idempotent (ruleId : string) (w : World) :
  store_fault (DELETE_WHERE_id ruleId) = None ->
  let w1 := snd (Delete ruleId w) in
  let w2 := snd (Delete ruleId w1) in
  fst (Delete ruleId w) = None
  /\ fst (Delete ruleId w1) = None
  /\ table w1 = List.filter (fun r => negb (id_is ruleId r)) (table w)
  /\ (forallb (fun r => negb (id_is ruleId r)) (table w) = true -> table w1 = table w)
  /\ table w2 = table w1
  /\ (forall c, Query c "id" = ruleId -> ruleId <> "" ->
        code_of (fst (DeleteCustomRule c w)) = Some 200
        /\ code_of (fst (DeleteCustomRule c (snd (DeleteCustomRule c w)))) = Some 200).
Proof.
  intros Hok. cbv zeta.
  rewrite (Delete_accepted ruleId w Hok). cbn [fst snd].
  rewrite (Delete_accepted ruleId _ Hok). cbn [fst snd].
  split; [reflexivity |]. split; [reflexivity |]. split; [reflexivity |].
  split; [| split].
  - intros Hnone. simpl. now apply filter_all.
  - simpl. apply filter_twice.
  - intros c Hid Hne. unfold DeleteCustomRule. rewrite Hid, (eqb_empty_false _ Hne).
    split.
    + unfold bind at 1. rewrite (Delete_accepted ruleId w Hok). reflexivity.
    + unfold bind at 2. rewrite (Delete_accepted ruleId w Hok). cbn [fst snd ret].
      unfold bind at 1. rewrite (Delete_accepted ruleId _ Hok). reflexivity.
Qed.

(** *** The cache key *)

Lemma string_length_app (s t : string) :
  String.length (s +:+ t) = (String.length s + String.length t)%nat.
Proof. induction s as [| c s IH]; simpl; [reflexivity | now rewrite IH]. Qed.

Lemma all_app (p : ascii -> bool) (s t : string) :
  strings.all p (s +:+ t) = strings.all p s && strings.all p t.
Proof.
  induction s as [| c s IH]; simpl; [reflexivity |].
  now rewrite IH, andb_assoc.
Qed.

Lemma Sum256_length (data : list byte) : List.length (sha256.Sum256 data) = 32%nat.
Proof. reflexivity. Qed.

Lemma hex_length (src : list byte) :
  String.length (hex.EncodeToString src) = (2 * List.length src)%nat.
Proof. induction src as [| b src IH]; simpl; [reflexivity | rewrite IH; lia]. Qed.

Lemma hex_digits_legal (src : list byte) :
  strings.all legal_key_byte (hex.EncodeToString src) = true.
Proof.
  induction src as [| b src IH]; [reflexivity |].
  cbn [hex.EncodeToString strings.all]. rewrite IH, andb_true_r.
  destruct b; reflexivity.
Qed.

Lemma hashURL_length (url : string) : String.length (hashURL url) = 64%nat.
Proof. unfold hashURL. now rewrite hex_length, Sum256_length. Qed.

Lemma hashed_key_legal (s : string) : legalKey (hashURL s +:+ "-robots-txt") = true.
Proof.
  unfold legalKey. rewrite string_length_app, hashURL_length, all_app.
  unfold hashURL. rewrite hex_digits_legal. reflexivity.
Qed.

Lemma generateDomainHash_legal (url : string) : legalKey (generateDomainHash url) = true.
Proof. unfold generateDomainHash. destruct (GetDomain url); apply hashed_key_legal. Qed.

Lemma GetRobotsFile_run (url : string) (w : World) :
  GetRobotsFile url w =
    (match get_fault (generateDomainHash url) with
     | Some _ => (nil_slice, false)
     | None =>
         match memcached w !! generateDomainHash url with
         | Some item => (Value item, true)
         | None => (nil_slice, false)
         end
     end,
     record (MemcacheGet (generateDomainHash url)) w).
Proof.
  unfold GetRobotsFile, memcache_Get. rewrite generateDomainHash_legal. run.
  destruct (get_fault (generateDomainHash url)) as [err |].
  - destruct (is_ErrCacheMiss err); reflexivity.
  - destruct (memcached w !! generateDomainHash url); reflexivity.
Qed.

Lemma SaveRobotsFile_run (url : string) (robotFile : bytes) (w : World) :
  let item := mkItem (generateDomainHash url) (json.Marshal robotFile) (TtlSeconds cfg) in
  let w1 := record (MemcacheSet item) w in
  SaveRobotsFile url robotFile w =
    (tt, match set_fault item with
         | Some _ => w1
         | None => set_memcached (<[generateDomainHash url := item]> (memcached w1)) w1
         end).
Proof.
  unfold SaveRobotsFile, set, memcache_Set. cbn [Key].
  rewrite generateDomainHash_legal. run.
  destruct (set_fault _); reflexivity.
Qed.

(** C10: the key is computed for every input string: when no hostname can
    be extracted it is the digest of the whole input followed by the suffix,
    otherwise the digest of the hostname followed by the suffix; it is always
    75 bytes long and a key the memcached client accepts; and GetRobotsFile
    and SaveRobotsFile, whose signatures have no error result, send their one
    cache command under that key and return, whatever the input and whatever
    the server answers. *)
Theorem C10_key_derivation_is_total (url : string) :
  (forall err, GetDomain url = inl err ->
     generateDomainHash url = hashURL url +:+ "-robots-txt")
  /\ (forall domain, GetDomain url = inr domain ->
     generateDomainHash url = hashURL domain +:+ "-robots-txt")
  /\ String.length (generateDomainHash url) = 75%nat
  /\ legalKey (generateDomainHash url) = true
  /\ (forall w, exists file ok,
        GetRobotsFile url w =
          ((file, ok), record (MemcacheGet (generateDomainHash url)) w))
  /\ (forall robotFile w, exists w',
        SaveRobotsFile url robotFile w = (tt, w')
        /\ events w' =
             events w ++ [MemcacheSet (mkItem (generateDomainHash url)
                                              (json.Marshal robotFile) (TtlSeconds cfg))]).
Proof.
  split; [| split; [| split; [| split; [| split]]]].
  - intros err H. unfold generateDomainHash. now rewrite H.
  - intros domain H. unfold generateDomainHash. now rewrite H.
  - unfold generateDomainHash.
    destruct (GetDomain url); rewrite string_length_app, hashURL_length; reflexivity.
  - apply generateDomainHash_legal.
  - intros w. rewrite GetRobotsFile_run.
    destruct (get_fault _); [eauto |].
    destruct (memcached w !! _); eauto.
  - intros robotFile w. rewrite SaveRobotsFile_run. cbv zeta.
    eexists. split; [reflexivity |].
    destruct (set_fault _); reflexivity.
Qed.

(** *** The resolution *)

Lemma scan_Blocked (r : Row) : Rule.Blocked (scan r) = false.
Proof. reflexivity. Qed.

Lemma GetByUrl_world (url : string) (w : World) :
  snd (GetByUrl url w) =
    match GetDomain url with
    | inl _ => w
    | inr domain => record (Sql (SELECT_WHERE_domain domain)) w
    end.
Proof.
  unfold GetByUrl. destruct (GetDomain url) as [err | domain]; [reflexivity |].
  unfold QueryRow_Scan. run.
  destruct (store_fault _) as [err |].
  - destruct (is_ErrNoRows err); reflexivity.
  - destruct (List.find _ _); reflexivity.
Qed.

(** With one rule per domain, a rule of the table is the one its domain
    finds. *)
Lemma find_by_unique_domain (rows : list Row) (r : Row) :
  List.In r rows ->
  List.NoDup (map row_domain rows) ->
  List.find (fun r' => String.eqb (row_domain r') (row_domain r)) rows = Some r.
Proof.
  induction rows as [| a rows IH]; [intros [] |].
  cbn [map List.find]. intros [-> | Hin] Hnodup.
  - now rewrite String.eqb_refl.
  - apply NoDup_cons_iff in Hnodup as [Hnotin Hnodup].
    destruct (String.eqb_spec (row_domain a) (row_domain r)) as [Heq | _].
    + exfalso. apply Hnotin. rewrite Heq. now apply in_map.
    + now apply IH.
Qed.

Lemma GetByUrl_found (url domain : string) (r : Row) (w : World) :
  GetDomain url = inr domain ->
  store_fault (SELECT_WHERE_domain domain) = None ->
  List.find (fun r => String.eqb (row_domain r) domain) (table w) = Some r ->
  GetByUrl url w = (inr (scan r), record (Sql (SELECT_WHERE_domain domain)) w).
Proof.
  intros Hd Hok Hfind. unfold GetByUrl, QueryRow_Scan. rewrite Hd. run.
  now rewrite Hok, Hfind.
Qed.

(** No rule that the repository returns has the flag set. *)
Lemma GetByUrl_Blocked (url : string) (w : World) (rule : Rule.t) :
  fst (GetByUrl url w) = inr rule -> Rule.Blocked rule = false.
Proof.
  unfold GetByUrl, QueryRow_Scan. destruct (GetDomain url) as [err | domain].
  - discriminate.
  - run. destruct (store_fault _) as [err |].
    + destruct (is_ErrNoRows err); discriminate.
    + destruct (List.find _ _) as [r |]; simpl; [| discriminate].
      intros [= <-]. reflexivity.
Qed.

Lemma GetByUrl_stores (url : string) (w : World) :
  table (snd (GetByUrl url w)) = table w
  /\ memcached (snd (GetByUrl url w)) = memcached w
  /\ success_responses (snd (GetByUrl url w)) = success_responses w
  /\ error_responses (snd (GetByUrl url w)) = error_responses w
  /\ List.filter (fun e => negb (is_sql e)) (events (snd (GetByUrl url w)))
     = List.filter (fun e => negb (is_sql e)) (events w).
Proof.
  rewrite GetByUrl_world. destruct (GetDomain url); simpl; repeat split.
  rewrite List.filter_app. simpl. apply app_nil_r.
Qed.

(** Whether the cache hits depends on the cache alone. *)
Lemma GetRobotsFile_same_cache (url : string) (w w' : World) :
  memcached w' = memcached w ->
  fst (GetRobotsFile url w') = fst (GetRobotsFile url w).
Proof. intros H. rewrite !GetRobotsFile_run. cbn [fst]. now rewrite H. Qed.

Lemma GetBaseUrl_GetDomain (url baseUrl : string) :
  GetBaseUrl url = inr baseUrl -> exists domain, GetDomain url = inr domain.
Proof.
  unfold GetBaseUrl, GetDomain. destruct (url.Parse url) as [err | u]; [discriminate |].
  destruct (String.eqb (url.Scheme u) ""); [discriminate |].
  destruct (String.eqb (url.Hostname u) ""); [discriminate |]. eauto.
Qed.

(** The live fetch, when the cache has missed and the request can be built. *)
Lemma getRobotsTxt_miss (url baseUrl : string) (req : Request) (w : World) :
  snd (fst (GetRobotsFile url w)) = false ->
  GetBaseUrl url = inr baseUrl ->
  NewRequest "GET" (baseUrl +:+ "/robots.txt") = inr req ->
  let sent := Header_Set_User_Agent req (RuleUserAgent cfg) in
  let w1 := record (HttpDo sent) (record (MemcacheGet (generateDomainHash url)) w) in
  getRobotsTxt url w =
    match httpClient sent with
    | DoFails URL Err => (returns (inl (url_Error "Get" URL Err)), w1)
    | ReadAllFails _ err => (returns (inl err), w1)
    | Responds statusCode body =>
        (returns (inr (TargetResponse.mk statusCode (slice body))),
         if isSuccess statusCode && negb (len (slice body) =? 0)
         then snd (SaveRobotsFile url (slice body) w1)
         else w1)
    end.
Proof.
  intros Hmiss Hbase Hreq. cbv zeta. unfold getRobotsTxt.
  unfold bind at 1. destruct (GetRobotsFile url w) as [[file ok] w0] eqn:Hget.
  rewrite GetRobotsFile_run in Hget. cbn [fst snd] in Hmiss. subst ok.
  injection Hget as _ <-.
  unfold requestToRobotsTxt. rewrite Hbase, Hreq. unfold Do. run.
  destruct (httpClient _) as [URL Err | sc err | sc body]; try reflexivity.
  cbn [TargetResponse.StatusCode TargetResponse.Body].
  destruct (isSuccess sc && negb (len (slice body) =? 0)); [| reflexivity].
  destruct (SaveRobotsFile url (slice body) _) as [[] w2]. reflexivity.
Qed.

(** C1: for a request with non-empty url and user_agent, when the store
    returns a row for the url's domain and its robots_txt is not empty, the
    answer is computed from that text (isAllowed is the evaluator's verdict on
    it), its statusCode is 200 and its error empty; the only I/O is the one
    SELECT: no cache get, no cache set, no HTTP request, and the stores are
    unchanged. *)
Theorem C1_override_short_circuits (c : Context) (w : World) (domain : string) (r : Row) :
  Query c "url" <> "" ->
  Query c "user_agent" <> "" ->
  GetDomain (Query c "url") = inr domain ->
  store_fault (SELECT_WHERE_domain domain) = None ->
  List.find (fun r => String.eqb (row_domain r) domain) (table w) = Some r ->
  row_robots_txt r <> "" ->
  exists resp w',
    GetAllowedCrawl c w = (returns (JSON 200 (crawl_response resp)), w')
    /\ AllowedCrawlResponse.IsAllowed resp
       = AgentAllowed (row_robots_txt r) (Query c "user_agent") (Query c "url")
    /\ AllowedCrawlResponse.StatusCode resp = 200
    /\ AllowedCrawlResponse.Error resp = ""
    /\ events w' = events w ++ [Sql (SELECT_WHERE_domain domain)]
    /\ memcached w' = memcached w
    /\ table w' = table w.
Proof.
  intros Hurl Hua Hd Hok Hfind Htext.
  unfold GetAllowedCrawl.
  rewrite (eqb_empty_false _ Hurl), (eqb_empty_false _ Hua).
  unfold bind at 1. rewrite (GetByUrl_found _ _ _ _ Hd Hok Hfind).
  unfold custom_rule. cbn [scan Rule.RobotsTxt Rule.Blocked].
  rewrite (eqb_empty_false _ Htext). cbn [negb].
  unfold answer. destruct (AgentAllowed _ _ _); run;
    (do 2 eexists; split; [reflexivity |]; destruct (TelemetryEnabled cfg); cbn; auto 10).
Qed.

(** C5: with no override applying and the cache missing, a live fetch that
    fails in the transport (Do returns its url.Error) makes the handler answer
    with HTTP status 500 and {isAllowed:false, blocked:false, statusCode:500,
    error: the text of that error}: the text is not empty and ends with the
    text of the cause; the HTTP status tells this answer from every answer the
    directive evaluation or a non-2xx upstream status produces, which all
    carry 200; nothing is written to the cache and the error counter is the
    one incremented (by one when telemetry is enabled, not at all otherwise). *)
Theorem C5_transport_failure_is_an_error_result
        (c : Context) (w : World) (baseUrl : string) (req : Request)
        (URL : string) (Err : error) :
  Query c "url" <> "" ->
  Query c "user_agent" <> "" ->
  custom_rule (fst (GetByUrl (Query c "url") w)) = None ->
  snd (fst (GetRobotsFile (Query c "url") w)) = false ->
  GetBaseUrl (Query c "url") = inr baseUrl ->
  NewRequest "GET" (baseUrl +:+ "/robots.txt") = inr req ->
  httpClient (Header_Set_User_Agent req (RuleUserAgent cfg)) = DoFails URL Err ->
  exists text w',
    GetAllowedCrawl c w =
      (returns (JSON 500 (crawl_response (AllowedCrawlResponse.mk false false 500 text))), w')
    /\ text = "Get " +:+ strconv_Quote URL +:+ ": " +:+ Error Err
    /\ text <> ""
    /\ code_of (fst (GetAllowedCrawl c w)) <> Some StatusOK
    /\ memcached w' = memcached w
    /\ List.filter is_cache_set (events w') = List.filter is_cache_set (events w)
    /\ error_responses w' = error_responses w + (if TelemetryEnabled cfg then 1 else 0)
    /\ success_responses w' = success_responses w.
Proof.
  intros Hurl Hua Hnone Hmiss Hbase Hreq Hfail.
  pose proof (GetByUrl_stores (Query c "url") w) as (Ht & Hm & Hs & He & Hev).
  assert (Hrun : GetAllowedCrawl c w =
            (returns (JSON 500 (crawl_response (AllowedCrawlResponse.mk false false 500
                       ("Get " +:+ strconv_Quote URL +:+ ": " +:+ Error Err)))),
             snd (ErrorResponseCounter 1
               (record (HttpDo (Header_Set_User_Agent req (RuleUserAgent cfg)))
                  (record (MemcacheGet (generateDomainHash (Query c "url")))
                     (snd (GetByUrl (Query c "url") w))))))).
  { unfold GetAllowedCrawl.
    rewrite (eqb_empty_false _ Hurl), (eqb_empty_false _ Hua).
    unfold bind at 1. destruct (GetByUrl (Query c "url") w) as [found w0] eqn:Hfound.
    cbn [fst snd] in *. rewrite Hnone.
    unfold bind at 1.
    rewrite (getRobotsTxt_miss _ baseUrl req); auto.
    - cbv zeta. rewrite Hfail. reflexivity.
    - rewrite (GetRobotsFile_same_cache _ w w0 Hm). exact Hmiss. }
  rewrite Hrun. do 2 eexists. split; [reflexivity |].
  split; [reflexivity |]. split; [discriminate |]. split; [discriminate |].
  destruct (ErrorResponseCounter_world 1
              (record (HttpDo (Header_Set_User_Agent req (RuleUserAgent cfg)))
                 (record (MemcacheGet (generateDomainHash (Query c "url")))
                    (snd (GetByUrl (Query c "url") w)))))
    as (_ & _ & -> & -> & -> & ->).
  cbn [memcached events error_responses success_responses record].
  rewrite Hm, He, Hs. repeat split; auto.
  rewrite !List.filter_app. cbn. rewrite !app_nil_r.
  rewrite GetByUrl_world. destruct (GetDomain (Query c "url")); [reflexivity |].
  cbn. rewrite List.filter_app. cbn. apply app_nil_r.
Qed.

(** The same answer when the body of the response cannot be read to its
    end: the error of the read is handed on as it is. *)
Lemma read_failure_is_an_error_result
      (c : Context) (w : World) (baseUrl : string) (req : Request)
      (statusCode : Z) (err : error) :
  Query c "url" <> "" ->
  Query c "user_agent" <> "" ->
  custom_rule (fst (GetByUrl (Query c "url") w)) = None ->
  snd (fst (GetRobotsFile (Query c "url") w)) = false ->
  GetBaseUrl (Query c "url") = inr baseUrl ->
  NewRequest "GET" (baseUrl +:+ "/robots.txt") = inr req ->
  httpClient (Header_Set_User_Agent req (RuleUserAgent cfg)) = ReadAllFails statusCode err ->
  fst (GetAllowedCrawl c w) =
    returns (JSON 500 (crawl_response
               (AllowedCrawlResponse.mk false false 500 (Error err)))).
Proof.
  intros Hurl Hua Hnone Hmiss Hbase Hreq Hfail.
  pose proof (GetByUrl_stores (Query c "url") w) as (_ & Hm & _).
  unfold GetAllowedCrawl.
  rewrite (eqb_empty_false _ Hurl), (eqb_empty_false _ Hua).
  unfold bind at 1. destruct (GetByUrl (Query c "url") w) as [found w0] eqn:Hfound.
  cbn [fst snd] in *. rewrite Hnone.
  unfold bind at 1.
  rewrite (getRobotsTxt_miss _ baseUrl req); auto.
  - cbv zeta. rewrite Hfail. reflexivity.
  - rewrite (GetRobotsFile_same_cache _ w w0 Hm). exact Hmiss.
Qed.

(** C6: with no override applying and the cache missing, a live fetch that
    is answered with a status outside 200..299 makes the handler answer with
    HTTP status 200 and {isAllowed:false, blocked:false, statusCode: the
    upstream status, error: the upstream body}; the cache is left as it was
    and no set command is sent to it; the success counter is the one
    incremented (by one when telemetry is enabled, not at all otherwise). *)
Theorem C6_non_2xx_is_disallowed_and_not_cached
        (c : Context) (w : World) (baseUrl : string) (req : Request)
        (statusCode : Z) (body : list byte) :
  Query c "url" <> "" ->
  Query c "user_agent" <> "" ->
  custom_rule (fst (GetByUrl (Query c "url") w)) = None ->
  snd (fst (GetRobotsFile (Query c "url") w)) = false ->
  GetBaseUrl (Query c "url") = inr baseUrl ->
  NewRequest "GET" (baseUrl +:+ "/robots.txt") = inr req ->
  httpClient (Header_Set_User_Agent req (RuleUserAgent cfg)) = Responds statusCode body ->
  isSuccess statusCode = false ->
  exists w',
    GetAllowedCrawl c w =
      (returns (JSON 200 (crawl_response
         (AllowedCrawlResponse.mk false false statusCode (string_of_list_byte body)))), w')
    /\ memcached w' = memcached w
    /\ List.filter is_cache_set (events w') = List.filter is_cache_set (events w)
    /\ success_responses w' = success_responses w + (if TelemetryEnabled cfg then 1 else 0)
    /\ error_responses w' = error_responses w.
Proof.
  intros Hurl Hua Hnone Hmiss Hbase Hreq Hresp Hstatus.
  pose proof (GetByUrl_stores (Query c "url") w) as (Ht & Hm & Hs & He & Hev).
  assert (Hrun : GetAllowedCrawl c w =
            (returns (JSON 200 (crawl_response
               (AllowedCrawlResponse.mk false false statusCode (string_of_list_byte body)))),
             snd (SuccessResponseCounter 1
               (record (HttpDo (Header_Set_User_Agent req (RuleUserAgent cfg)))
                  (record (MemcacheGet (generateDomainHash (Query c "url")))
                     (snd (GetByUrl (Query c "url") w))))))).
  { unfold GetAllowedCrawl.
    rewrite (eqb_empty_false _ Hurl), (eqb_empty_false _ Hua).
    unfold bind at 1. destruct (GetByUrl (Query c "url") w) as [found w0] eqn:Hfound.
    cbn [fst snd] in *. rewrite Hnone.
    unfold bind at 1.
    rewrite (getRobotsTxt_miss _ baseUrl req); auto.
    - cbv zeta. rewrite Hresp, Hstatus.
      cbn [andb TargetResponse.StatusCode TargetResponse.Body]. rewrite Hstatus.
      reflexivity.
    - rewrite (GetRobotsFile_same_cache _ w w0 Hm). exact Hmiss. }
  rewrite Hrun. eexists. split; [reflexivity |].
  destruct (SuccessResponseCounter_world 1
              (record (HttpDo (Header_Set_User_Agent req (RuleUserAgent cfg)))
                 (record (MemcacheGet (generateDomainHash (Query c "url")))
                    (snd (GetByUrl (Query c "url") w)))))
    as (_ & _ & -> & -> & -> & ->).
  cbn [memcached events error_responses success_responses record].
  rewrite Hm, He, Hs. repeat split; auto.
  rewrite !List.filter_app. cbn. rewrite !app_nil_r.
  rewrite GetByUrl_world. destruct (GetDomain (Query c "url")); [reflexivity |].
  cbn. rewrite List.filter_app. cbn. apply app_nil_r.
Qed.

(** A set command reaches the cache only from [SaveRobotsFile], which
    [getRobotsTxt] calls only for a 2xx response with a non-empty body. *)
Lemma cache_written_only_for_2xx_with_body (url : string) (w : World) :
  List.filter is_cache_set (events (snd (getRobotsTxt url w)))
    = List.filter is_cache_set (events w)
  \/ exists req statusCode body,
       httpClient req = Responds statusCode body
       /\ isSuccess statusCode = true /\ body <> [].
Proof.
  unfold getRobotsTxt. unfold bind at 1.
  destruct (GetRobotsFile url w) as [[file ok] w0] eqn:Hget.
  rewrite GetRobotsFile_run in Hget. injection Hget as _ <-.
  assert (Hw0 : List.filter is_cache_set
                  (events (record (MemcacheGet (generateDomainHash url)) w))
                = List.filter is_cache_set (events w)).
  { cbn. rewrite List.filter_app. cbn. apply app_nil_r. }
  destruct ok; [left; exact Hw0 |].
  unfold requestToRobotsTxt.
  destruct (GetBaseUrl url) as [err | baseUrl]; [left; exact Hw0 |].
  destruct (NewRequest "GET" _) as [err | req]; [left; exact Hw0 |].
  unfold Do. run.
  destruct (httpClient _) as [URL Err | sc err | sc body] eqn:Hresp;
    cbn; try (left; rewrite List.filter_app; cbn; rewrite app_nil_r; exact Hw0).
  destruct (isSuccess sc) eqn:Hsc; cbn;
    [| left; rewrite List.filter_app; cbn; rewrite app_nil_r; exact Hw0].
  destruct (negb (len (slice body) =? 0)) eqn:Hlen;
    [| left; cbn; rewrite List.filter_app; cbn; rewrite app_nil_r; exact Hw0].
  right. exists (Header_Set_User_Agent req (RuleUserAgent cfg)), sc, body.
  repeat split; auto. intros ->. discriminate Hlen.
Qed.

(** Whatever the table holds, the flag of an answer is false. *)
Lemma Blocked_of_every_answer_is_false
      (c : Context) (w : World) (status : Z) (resp : AllowedCrawlResponse.t) :
  fst (GetAllowedCrawl c w) = returns (JSON status (crawl_response resp)) ->
  AllowedCrawlResponse.Blocked resp = false.
Proof.
  unfold GetAllowedCrawl.
  destruct (String.eqb (Query c "url") ""); [intros [= _ <-]; reflexivity |].
  destruct (String.eqb (Query c "user_agent") ""); [intros [= _ <-]; reflexivity |].
  unfold bind at 1. destruct (GetByUrl (Query c "url") w) as [found w0] eqn:Hfound.
  assert (Hflag : forall rule, custom_rule found = Some rule -> Rule.Blocked rule = false).
  { intros rule. unfold custom_rule. destruct found as [err | rule']; [discriminate |].
    destruct (negb _); [| discriminate]. intros [= <-].
    apply (GetByUrl_Blocked (Query c "url") w). now rewrite Hfound. }
  destruct (custom_rule found) as [rule |].
  - rewrite (Hflag rule eq_refl). unfold answer.
    destruct (AgentAllowed _ _ _); run; intros [= _ <-]; reflexivity.
  - unfold bind at 1. destruct (getRobotsTxt (Query c "url") w0) as [[[err | tResp] | why] w1].
    + run. intros [= _ <-]. reflexivity.
    + destruct (negb _).
      * run. intros [= _ <-]. reflexivity.
      * unfold answer. destruct (AgentAllowed _ _ _); run; intros [= _ <-]; reflexivity.
    + run. discriminate.
Qed.

(** *** Update *)

Lemma integer_of_text_Itoa (i : Z) : integer_of_text (Itoa i) = Some i.
Proof.
  unfold integer_of_text, Itoa. rewrite NilZero.isi.
  - cbn [option_map]. now rewrite DecimalZ.of_to.
  - destruct i as [| p | p]; cbn; try discriminate.
    intros [= H]. now apply (DecimalPos.Unsigned.to_uint_nonnil p).
  - destruct i as [| p | p]; cbn; try discriminate.
    intros [= H]. now apply (DecimalPos.Unsigned.to_uint_nonnil p).
Qed.

Lemma id_is_Itoa (i : Z) (r : Row) : id_is (Itoa i) r = (row_id r =? i).
Proof. unfold id_is. now rewrite integer_of_text_Itoa. Qed.

Lemma update_row_id (rule : Rule.t) (r : Row) : row_id (update_row rule r) = row_id r.
Proof. unfold update_row. destruct (row_id r =? Rule.ID rule); reflexivity. Qed.

Lemma find_updated (rule : Rule.t) (rows : list Row) :
  List.find (id_is (Itoa (Rule.ID rule))) (map (update_row rule) rows)
  = option_map (update_row rule)
      (List.find (fun r => row_id r =? Rule.ID rule) rows).
Proof.
  induction rows as [| r rows IH]; [reflexivity |].
  cbn [map List.find]. rewrite id_is_Itoa, update_row_id.
  destruct (row_id r =? Rule.ID rule); [reflexivity | exact IH].
Qed.

Lemma find_updated_by_id (rule : Rule.t) (rows : list Row) :
  List.find (fun r => row_id r =? Rule.ID rule) (map (update_row rule) rows)
  = option_map (update_row rule)
      (List.find (fun r => row_id r =? Rule.ID rule) rows).
Proof.
  induction rows as [| r rows IH]; [reflexivity |].
  cbn [map List.find]. rewrite update_row_id.
  destruct (row_id r =? Rule.ID rule); [reflexivity | exact IH].
Qed.

Lemma update_row_other (rule : Rule.t) (rows : list Row) :
  List.find (fun r => row_id r =? Rule.ID rule) rows = None ->
  map (update_row rule) rows = rows.
Proof.
  induction rows as [| r rows IH]; [reflexivity |].
  cbn [map List.find]. unfold update_row at 1.
  destruct (row_id r =? Rule.ID rule); [discriminate |].
  intros H. now rewrite IH.
Qed.

(** What Update does when the store executes its two statements: the row
    with the id gets the rule's domain and text, and keeps its blocked column;
    the rule returned is that row read again. *)
Lemma Update_existing (rule : Rule.t) (w : World) (r : Row) :
  store_fault (UPDATE_SET_domain_robots_txt_WHERE_id
                 (Rule.Domain rule) (Rule.RobotsTxt rule) (Rule.ID rule)) = None ->
  store_fault (SELECT_WHERE_id (Itoa (Rule.ID rule))) = None ->
  List.find (fun r => row_id r =? Rule.ID rule) (table w) = Some r ->
  exists w',
    Update rule w =
      (inr (Rule.mk (Rule.ID rule) (Rule.Domain rule) false (Rule.RobotsTxt rule)
                    (row_created_at r) (row_updated_at r)), w')
    /\ table w' = map (update_row rule) (table w)
    /\ List.find (fun r => row_id r =? Rule.ID rule) (table w')
       = Some (mkRow (Rule.ID rule) (Rule.Domain rule) (Rule.RobotsTxt rule)
                     (row_blocked r) (row_created_at r) (row_updated_at r)).
Proof.
  intros Hupd Hsel Hfind.
  pose proof (List.find_some _ _ Hfind) as [_ Hid]. apply Z.eqb_eq in Hid.
  assert (Hrow : update_row rule r
                 = mkRow (Rule.ID rule) (Rule.Domain rule) (Rule.RobotsTxt rule)
                         (row_blocked r) (row_created_at r) (row_updated_at r)).
  { unfold update_row. rewrite Hid, Z.eqb_refl. reflexivity. }
  unfold Update, Exec, GetById, QueryRow_Scan. run. rewrite Hupd, Hsel. cbn.
  rewrite find_updated, Hfind. cbn. rewrite Hrow. cbn.
  eexists. split; [reflexivity |]. cbn. split; [reflexivity |].
  rewrite find_updated_by_id, Hfind. cbn. now rewrite Hrow.
Qed.

(** When no row has the id, the UPDATE changes nothing and the reload fails
    with the not-found error. *)
Lemma Update_missing (rule : Rule.t) (w : World) :
  store_fault (UPDATE_SET_domain_robots_txt_WHERE_id
                 (Rule.Domain rule) (Rule.RobotsTxt rule) (Rule.ID rule)) = None ->
  store_fault (SELECT_WHERE_id (Itoa (Rule.ID rule))) = None ->
  List.find (fun r => row_id r =? Rule.ID rule) (table w) = None ->
  exists w',
    Update rule w =
      (inl (errors_New ("rule with id '" +:+ Itoa (Rule.ID rule) +:+ "' not found")), w')
    /\ table w' = table w.
Proof.
  intros Hupd Hsel Hfind.
  unfold Update, Exec, GetById, QueryRow_Scan. run. rewrite Hupd, Hsel. cbn.
  rewrite find_updated, Hfind. cbn.
  eexists. split; [reflexivity |]. cbn. now apply update_row_other.
Qed.

(** Save stores the domain and the text of the rule it is given, and nothing
    of its Blocked field: the column gets what the schema gives it. *)
Lemma Save_does_not_store_Blocked (rule : Rule.t) (blocked : bool) (w : World) :
  Save (Rule.mk (Rule.ID rule) (Rule.Domain rule) blocked (Rule.RobotsTxt rule)
                (Rule.CreatedAt rule) (Rule.UpdatedAt rule)) w
  = Save rule w.
Proof. reflexivity. Qed.

(** *** The cache, read after it was written *)

Lemma list_byte_of_string_length (s : string) :
  List.length (list_byte_of_string s) = String.length s.
Proof.
  unfold list_byte_of_string. rewrite length_map.
  induction s as [| c s IH]; simpl; [reflexivity | now rewrite IH].
Qed.

Lemma base64_length_bound (n : nat) :
  forall src : list byte,
    (List.length src <= n)%nat ->
    (List.length src <= String.length (base64.EncodeToString src))%nat.
Proof.
  induction n as [| n IH]; intros src Hn.
  - destruct src; [simpl; lia | simpl in Hn; lia].
  - destruct src as [| b0 [| b1 [| b2 rest]]]; cbn [base64.EncodeToString String.length List.length]; try lia.
    cbn [List.length] in Hn.
    assert (Hrest : (List.length rest <= n)%nat) by lia.
    specialize (IH rest Hrest). lia.
Qed.

(** What the JSON encoder makes of a byte slice is never that slice: it is
    null, or the base64 text between quotes, two bytes longer at least. *)
Lemma json_Marshal_is_not_identity (b : bytes) : json.Marshal b <> b.
Proof.
  destruct b as [| data]; [discriminate |].
  unfold json.Marshal, bytes_of_string. intros [= H].
  apply (f_equal (@List.length byte)) in H.
  rewrite list_byte_of_string_length, !string_length_app in H.
  pose proof (base64_length_bound (List.length data) data (le_n _)).
  cbn [dquote String.length] in H. lia.
Qed.

(** With the server answering both commands, the read after a write returns
    the JSON encoding of what was written. *)
Lemma read_after_write_returns_the_json_encoding
      (url : string) (robotFile : bytes) (w : World) :
  set_fault (mkItem (generateDomainHash url) (json.Marshal robotFile) (TtlSeconds cfg))
    = None ->
  get_fault (generateDomainHash url) = None ->
  fst (GetRobotsFile url (snd (SaveRobotsFile url robotFile w)))
  = (json.Marshal robotFile, true).
Proof.
  intros Hset Hget. rewrite SaveRobotsFile_run. cbv zeta. rewrite Hset.
  rewrite GetRobotsFile_run, Hget. cbn [fst snd set_memcached memcached].
  now rewrite lookup_insert_eq.
Qed.

(** Cache-aside, twice: after a live fetch answered 2xx with a non-empty body
    and stored, the next call for the URL sends one get and no request, and its
    text is the JSON encoding of the body fetched. *)
Lemma second_call_reads_the_json_encoding
      (url baseUrl : string) (req : Request) (statusCode : Z) (body : list byte)
      (w : World) :
  snd (fst (GetRobotsFile url w)) = false ->
  GetBaseUrl url = inr baseUrl ->
  NewRequest "GET" (baseUrl +:+ "/robots.txt") = inr req ->
  httpClient (Header_Set_User_Agent req (RuleUserAgent cfg)) = Responds statusCode body ->
  isSuccess statusCode = true ->
  body <> [] ->
  set_fault (mkItem (generateDomainHash url) (json.Marshal (slice body)) (TtlSeconds cfg))
    = None ->
  get_fault (generateDomainHash url) = None ->
  let w1 := snd (getRobotsTxt url w) in
  fst (getRobotsTxt url w) = returns (inr (TargetResponse.mk statusCode (slice body)))
  /\ fst (getRobotsTxt url w1)
     = returns (inr (TargetResponse.mk StatusOK (json.Marshal (slice body))))
  /\ events (snd (getRobotsTxt url w1))
     = events w1 ++ [MemcacheGet (generateDomainHash url)]
  /\ json.Marshal (slice body) <> slice body.
Proof.
  intros Hmiss Hbase Hreq Hresp Hok Hbody Hset Hget. cbv zeta.
  rewrite (getRobotsTxt_miss url baseUrl req w Hmiss Hbase Hreq). cbv zeta.
  rewrite Hresp, Hok. cbn [fst snd andb].
  assert (Hlen : negb (len (slice body) =? 0) = true).
  { destruct body; [congruence | reflexivity]. }
  rewrite Hlen, SaveRobotsFile_run. cbv zeta. rewrite Hset. cbn [snd].
  split; [reflexivity |].
  set (w1 := set_memcached _ _).
  assert (Hsecond : getRobotsTxt url w1
                    = (returns (inr (TargetResponse.mk StatusOK (json.Marshal (slice body)))),
                       record (MemcacheGet (generateDomainHash url)) w1)).
  { unfold getRobotsTxt. unfold bind at 1.
    rewrite GetRobotsFile_run, Hget. subst w1. cbn [set_memcached memcached].
    rewrite lookup_insert_eq. reflexivity. }
  rewrite Hsecond. repeat split. apply json_Marshal_is_not_identity.
Qed.


(** *** URLs of the common shape *)

Ltac by_byte c :=
  destruct c as [[|] [|] [|] [|] [|] [|] [|] [|]]; try reflexivity; try discriminate.

Lemma all_impl (p q : ascii -> bool) (s : string) :
  (forall c, p c = true -> q c = true) -> strings.all p s = true -> strings.all q s = true.
Proof.
  intros Hpq. induction s as [| c s IH]; [reflexivity |].
  cbn [strings.all]. intros H. apply andb_prop in H as [Hc Hs].
  now rewrite (Hpq c Hc), IH.
Qed.

Lemma IndexByte_absent (p : ascii -> bool) (x : ascii) (s : string) :
  (forall c, p c = true -> strings.eqc c x = false) ->
  strings.all p s = true -> strings.IndexByte s x = None.
Proof.
  intros Hp. induction s as [| c s IH]; [reflexivity |].
  cbn [strings.all strings.IndexByte]. intros H. apply andb_prop in H as [Hc Hs].
  now rewrite (Hp c Hc), IH.
Qed.

Lemma LastIndexByte_absent (p : ascii -> bool) (x : ascii) (s : string) :
  (forall c, p c = true -> strings.eqc c x = false) ->
  strings.all p s = true -> strings.LastIndexByte s x = None.
Proof.
  intros Hp. induction s as [| c s IH]; [reflexivity |].
  cbn [strings.all strings.LastIndexByte]. intros H. apply andb_prop in H as [Hc Hs].
  now rewrite IH, (Hp c Hc).
Qed.

Lemma CountByte_absent (p : ascii -> bool) (x : ascii) (s : string) :
  (forall c, p c = true -> strings.eqc c x = false) ->
  strings.all p s = true -> strings.CountByte s x = 0%nat.
Proof.
  intros Hp. induction s as [| c s IH]; [reflexivity |].
  cbn [strings.all strings.CountByte]. intros H. apply andb_prop in H as [Hc Hs].
  now rewrite IH, (Hp c Hc).
Qed.

Lemma app_nil_l' (t : string) : "" +:+ t = t.
Proof. reflexivity. Qed.

Lemma app_cons (c : ascii) (s t : string) : String c s +:+ t = String c (s +:+ t).
Proof. reflexivity. Qed.

Lemma IndexByte_app_absent (s t : string) (x : ascii) :
  strings.IndexByte s x = None ->
  strings.IndexByte (s +:+ t) x
  = option_map (fun i => (String.length s + i)%nat) (strings.IndexByte t x).
Proof.
  induction s as [| c s IH]; rewrite ?app_nil_l', ?app_cons;
    cbn [strings.IndexByte String.length].
  - intros _. destruct (strings.IndexByte t x); reflexivity.
  - destruct (strings.eqc c x); [discriminate |].
    destruct (strings.IndexByte s x) eqn:Hs; [discriminate |]. intros _.
    rewrite (IH eq_refl). destruct (strings.IndexByte t x); reflexivity.
Qed.

Lemma CountByte_app (s t : string) (x : ascii) :
  strings.CountByte (s +:+ t) x = (strings.CountByte s x + strings.CountByte t x)%nat.
Proof.
  induction s as [| c s IH]; rewrite ?app_nil_l', ?app_cons;
    cbn [strings.CountByte]; [reflexivity |].
  rewrite IH. lia.
Qed.

Lemma take_app (s t : string) : strings.take (String.length s) (s +:+ t) = s.
Proof.
  induction s as [| c s IH]; rewrite ?app_nil_l', ?app_cons; cbn [String.length strings.take];
    [reflexivity | now rewrite IH].
Qed.

Lemma drop_app (s t : string) : strings.drop (String.length s) (s +:+ t) = t.
Proof.
  induction s as [| c s IH]; rewrite ?app_nil_l', ?app_cons; cbn [String.length strings.drop];
    [reflexivity | exact IH].
Qed.

Lemma app_empty_r (s : string) : s +:+ "" = s.
Proof. induction s as [| c s IH]; rewrite ?app_cons; [reflexivity | now rewrite IH]. Qed.

Lemma app_assoc' (s t u : string) : (s +:+ t) +:+ u = s +:+ t +:+ u.
Proof.
  induction s as [| c s IH]; rewrite ?app_nil_l', ?app_cons; [reflexivity | now rewrite IH].
Qed.

Lemma HasSuffix_last (s : string) (c x : ascii) :
  strings.HasSuffix (s +:+ String c "") (String x "") = strings.eqc c x.
Proof.
  unfold strings.HasSuffix. rewrite string_length_app. cbn [String.length].
  replace (String.length s + 1 - 1)%nat with (String.length s) by lia.
  rewrite drop_app.
  replace (1 <=? String.length s + 1)%nat with true by (symmetry; apply Nat.leb_le; lia).
  cbn [andb String.eqb]. unfold strings.eqc. destruct (Ascii.eqb c x); reflexivity.
Qed.

Lemma snoc_inv (p : ascii -> bool) (s : string) :
  s <> "" -> strings.all p s = true ->
  exists s' c, s = s' +:+ String c "" /\ p c = true.
Proof.
  induction s as [| a s IH]; [congruence |]. intros _ H.
  cbn [strings.all] in H. apply andb_prop in H as [Ha Hs].
  destruct s as [| b s].
  - exists "", a. split; [reflexivity | exact Ha].
  - destruct (IH ltac:(discriminate) Hs) as (s' & c & -> & Hc).
    exists (String a s'), c. split; [reflexivity | exact Hc].
Qed.

Lemma scheme_is_url_byte c : scheme_byte c = true -> url_byte c = true.
Proof. unfold url_byte. now intros ->. Qed.
Lemma host_is_url_byte c : host_byte c = true -> url_byte c = true.
Proof. unfold url_byte. intros ->. now rewrite !orb_true_r. Qed.
Lemma path_is_url_byte c : path_byte c = true -> url_byte c = true.
Proof. unfold url_byte. intros ->. now rewrite !orb_true_r. Qed.
Lemma query_is_url_byte c : query_byte c = true -> url_byte c = true.
Proof. unfold url_byte. intros ->. now rewrite !orb_true_r. Qed.

Lemma url_byte_not_hash c : url_byte c = true -> strings.eqc c "#" = false.
Proof. by_byte c. Qed.

Lemma url_byte_not_control c :
  url_byte c = true -> negb ((strings.code c <? 32) || (strings.code c =? 127)) = true.
Proof. by_byte c. Qed.

Lemma host_byte_not_slash c : host_byte c = true -> strings.eqc c "/" = false.
Proof. by_byte c. Qed.
Lemma host_byte_not_at c : host_byte c = true -> strings.eqc c "@" = false.
Proof. by_byte c. Qed.
Lemma host_byte_not_colon c : host_byte c = true -> strings.eqc c ":" = false.
Proof. by_byte c. Qed.
Lemma path_byte_not_question c : path_byte c = true -> strings.eqc c "?" = false.
Proof. by_byte c. Qed.
Lemma query_byte_not_question c : query_byte c = true -> strings.eqc c "?" = false.
Proof. by_byte c. Qed.
Lemma host_byte_not_bracket c : host_byte c = true -> Ascii.eqb "[" c = false.
Proof. by_byte c. Qed.
Lemma scheme_letter_not_star c : scheme_letter c = true -> Ascii.eqb c "*" = false.
Proof. by_byte c. Qed.

Lemma host_byte_unescaped c :
  host_byte c = true ->
  strings.eqc c "%" = false /\ url.shouldEscape_host c = false /\ strings.eqc c "+" = false.
Proof. by_byte c; intros _; repeat split. Qed.

Lemma path_byte_unescaped c :
  path_byte c = true -> strings.eqc c "%" = false /\ strings.eqc c "+" = false.
Proof. by_byte c; intros _; repeat split. Qed.

Lemma scheme_byte_cases c :
  scheme_byte c = true ->
  (strings.between "a" "z" c || strings.between "A" "Z" c = true)
  \/ (strings.between "a" "z" c || strings.between "A" "Z" c = false
      /\ strings.between "0" "9" c || strings.eqc c "+" || strings.eqc c "-"
         || strings.eqc c "." = true).
Proof. by_byte c; intros _; (now left) || (right; split; reflexivity). Qed.

Lemma scheme_end_scan (s t : string) :
  strings.all scheme_byte s = true ->
  url.scheme_end (s +:+ String ":" t) false = inr (Some (String.length s)).
Proof.
  induction s as [| c s IH]; [reflexivity |].
  cbn [strings.all]. intros H. apply andb_prop in H as [Hc Hs].
  rewrite app_cons. cbn [url.scheme_end String.length]. rewrite (IH Hs).
  destruct (scheme_byte_cases c Hc) as [-> | [-> ->]]; reflexivity.
Qed.

Lemma drop_past (s t : string) (x : ascii) :
  strings.drop (S (String.length s)) (s +:+ String x t) = t.
Proof.
  induction s as [| c s IH]; rewrite ?app_nil_l', ?app_cons; [reflexivity | exact IH].
Qed.

Lemma getScheme_plain (scheme t : string) :
  plain_scheme scheme = true ->
  url.getScheme (scheme +:+ String ":" t) = inr (scheme, t).
Proof.
  destruct scheme as [| c rest]; [discriminate |].
  cbn [plain_scheme]. intros H. apply andb_prop in H as [Hc Hrest].
  unfold url.getScheme. rewrite app_cons. cbn [url.scheme_end].
  unfold scheme_letter in Hc. rewrite Hc, (scheme_end_scan rest t Hrest).
  rewrite <- app_cons.
  change (S (String.length rest)) with (String.length (String c rest)).
  now rewrite take_app, drop_past.
Qed.

Lemma unescape_host_plain (h : string) :
  strings.all host_byte h = true -> url.unescape h url.encodeHost = inr h.
Proof.
  induction h as [| c h IH]; [reflexivity |].
  cbn [strings.all]. intros H. apply andb_prop in H as [Hc Hh].
  destruct (host_byte_unescaped c Hc) as (Hpct & Hesc & Hplus).
  cbn [url.unescape]. rewrite Hpct, Hesc, andb_false_r, (IH Hh), Hplus. reflexivity.
Qed.

Lemma unescape_path_plain (p : string) :
  strings.all path_byte p = true -> url.unescape p url.encodePath = inr p.
Proof.
  induction p as [| c p IH]; [reflexivity |].
  cbn [strings.all]. intros H. apply andb_prop in H as [Hc Hp].
  destruct (path_byte_unescaped c Hc) as (Hpct & Hplus).
  cbn [url.unescape url.is_host_mode andb]. rewrite Hpct, (IH Hp), Hplus. reflexivity.
Qed.

Lemma plain_host_no_bracket (h : string) :
  strings.all host_byte h = true -> strings.HasPrefix h "[" = false.
Proof.
  destruct h as [| c h]; [reflexivity |].
  cbn [strings.all]. intros H. apply andb_prop in H as [Hc _].
  unfold strings.HasPrefix. cbn [String.prefix].
  destruct (ascii_dec "[" c) as [<- | _]; [discriminate Hc | reflexivity].
Qed.

Lemma parseHost_plain (h : string) :
  strings.all host_byte h = true -> url.parseHost h = inr h.
Proof.
  intros H. unfold url.parseHost.
  rewrite (plain_host_no_bracket h H).
  rewrite (LastIndexByte_absent host_byte ":" h host_byte_not_colon H).
  now apply unescape_host_plain.
Qed.

Lemma parseAuthority_plain (h : string) :
  strings.all host_byte h = true -> url.parseAuthority h = inr h.
Proof.
  intros H. unfold url.parseAuthority.
  rewrite (LastIndexByte_absent host_byte "@" h host_byte_not_at H).
  now apply parseHost_plain.
Qed.

Lemma splitHost_plain (h : string) :
  strings.all host_byte h = true -> url.splitHost h = h.
Proof.
  intros H. unfold url.splitHost.
  rewrite (LastIndexByte_absent host_byte ":" h host_byte_not_colon H).
  now rewrite (plain_host_no_bracket h H).
Qed.

Lemma split_query (a : string) (query : option string) :
  strings.all path_byte a = true ->
  match query with Some q => plain_query q | None => true end = true ->
  let rest0 := a +:+ query_text query in
  (if strings.HasSuffix rest0 "?" && (strings.CountByte rest0 "?" =? 1)%nat
   then (strings.take (String.length rest0 - 1) rest0, true, EmptyString)
   else let '(r, q, _) := strings.Cut rest0 "?" in (r, false, q))
  = (a,
     match query with Some EmptyString => true | _ => false end,
     match query with Some q => q | None => EmptyString end).
Proof.
  intros Ha Hq. cbv zeta.
  pose proof (CountByte_absent path_byte "?" a path_byte_not_question Ha) as Hcount.
  pose proof (IndexByte_absent path_byte "?" a path_byte_not_question Ha) as Hindex.
  destruct query as [q |]; unfold query_text.
  - assert (Hcut : strings.Cut (a +:+ "?" +:+ q) "?" = (a, q, true)).
    { unfold strings.Cut. change ("?" +:+ q) with (String "?" q).
      rewrite (IndexByte_app_absent a _ "?" Hindex). cbn [strings.IndexByte].
      change (strings.eqc "?" "?") with true. cbn [option_map].
      rewrite Nat.add_0_r, take_app, drop_past. reflexivity. }
    destruct q as [| c q].
    + change ("?" +:+ "") with (String "?" "").
      rewrite HasSuffix_last, CountByte_app, Hcount, string_length_app.
      cbn [strings.CountByte String.length]. change (strings.eqc "?" "?") with true.
      cbn [andb Nat.add Nat.eqb].
      replace (String.length a + 1 - 1)%nat with (String.length a) by lia.
      now rewrite take_app.
    + destruct (snoc_inv query_byte (String c q) ltac:(discriminate) Hq)
        as (q' & z & Hsnoc & Hz).
      rewrite Hcut. rewrite Hsnoc at 1 2.
      replace (a +:+ "?" +:+ q' +:+ String z "")
        with ((a +:+ "?" +:+ q') +:+ String z "")
        by now rewrite !app_assoc'.
      now rewrite HasSuffix_last, (query_byte_not_question z Hz).
  - rewrite app_empty_r, Hcount, andb_false_r.
    unfold strings.Cut. now rewrite Hindex.
Qed.

Lemma host_is_path_byte c : host_byte c = true -> path_byte c = true.
Proof. by_byte c. Qed.

Lemma common_url_bytes (scheme host path : string) (query : option string) :
  plain_scheme scheme = true -> strings.all host_byte host = true ->
  strings.all path_byte path = true ->
  match query with Some q => plain_query q | None => true end = true ->
  strings.all url_byte (common_url scheme host path query) = true.
Proof.
  intros Hs Hh Hp Hq. unfold common_url, query_text. rewrite !all_app.
  destruct scheme as [| c rest]; [discriminate |]. cbn [plain_scheme] in Hs.
  apply andb_prop in Hs as [Hc Hrest]. cbn [strings.all].
  rewrite (scheme_is_url_byte c) by (unfold scheme_byte; now rewrite Hc).
  rewrite (all_impl _ _ rest scheme_is_url_byte Hrest).
  rewrite (all_impl _ _ host host_is_url_byte Hh).
  rewrite (all_impl _ _ path path_is_url_byte Hp).
  destruct query as [q |]; [| reflexivity].
  change ("?" +:+ q) with (String "?" q). cbn [strings.all].
  now rewrite (all_impl _ _ q query_is_url_byte Hq).
Qed.

Lemma HasPrefix_slash (s : string) : strings.HasPrefix (String "/" s) "/" = true.
Proof. destruct s; reflexivity. Qed.

Lemma HasPrefix_slash_slash (s : string) :
  strings.HasPrefix (String "/" (String "/" s)) "//" = true.
Proof. destruct s; reflexivity. Qed.

(** What [url.Parse] makes of a URL of the common shape. *)
Theorem Parse_common_url (scheme host path : string) (query : option string) :
  plain_scheme scheme = true ->
  plain_host host = true ->
  plain_path path = true ->
  match query with Some q => plain_query q | None => true end = true ->
  url.Parse (common_url scheme host path query)
  = inr (url.mkURL (strings.ToLower scheme) "" host path
           match query with Some EmptyString => true | _ => false end
           match query with Some q => q | None => EmptyString end
           false "").
Proof.
  intros Hs Hh Hp Hq.
  apply andb_prop in Hh as [Hne Hh]. apply andb_prop in Hp as [Habs Hp].
  pose proof (common_url_bytes scheme host path query Hs Hh Hp Hq) as Hbytes.
  unfold url.Parse, strings.Cut.
  rewrite (IndexByte_absent url_byte "#" _ url_byte_not_hash Hbytes).
  unfold url.parse, url.stringContainsCTLByte.
  rewrite (all_impl _ _ _ url_byte_not_control Hbytes). cbn [negb].
  assert (Hstar : String.eqb (common_url scheme host path query) "*" = false).
  { destruct scheme as [| c rest]; [discriminate |]. cbn [plain_scheme] in Hs.
    apply andb_prop in Hs as [Hc _]. unfold common_url. rewrite app_cons.
    cbn [String.eqb]. now rewrite (scheme_letter_not_star c Hc). }
  rewrite Hstar.
  unfold common_url at 1. change ("://" +:+ ?x) with (String ":" ("//" +:+ x)).
  rewrite (getScheme_plain scheme _ Hs).
  assert (Hnonempty : String.eqb (strings.ToLower scheme) "" = false).
  { destruct scheme; [discriminate | reflexivity]. }
  rewrite Hnonempty. cbn [negb orb andb].
  assert (Hprefix : strings.all path_byte ("//" +:+ host +:+ path) = true).
  { change ("//" +:+ ?x) with (String "/" (String "/" x)). cbn [strings.all].
    rewrite all_app, (all_impl _ _ host host_is_path_byte Hh), Hp. reflexivity. }
  replace ("//" +:+ host +:+ path +:+ query_text query)
    with (("//" +:+ host +:+ path) +:+ query_text query)
    by now rewrite !app_assoc'.
  pose proof (split_query ("//" +:+ host +:+ path) query Hprefix Hq) as Hsplit.
  cbv zeta in Hsplit. rewrite Hsplit. clear Hsplit.
  change ("//" +:+ ?x) with (String "/" (String "/" x)).
  rewrite HasPrefix_slash, HasPrefix_slash_slash.
  cbn [negb andb strings.drop].
  assert (Hauth :
            match strings.IndexByte (host +:+ path) "/" with
            | Some i => (strings.take i (host +:+ path), strings.drop i (host +:+ path))
            | None => (host +:+ path, EmptyString)
            end = (host, path)).
  { rewrite (IndexByte_app_absent host path "/"
               (IndexByte_absent host_byte "/" host host_byte_not_slash Hh)).
    destruct path as [| c p].
    - cbn [strings.IndexByte option_map]. now rewrite app_empty_r.
    - cbn [orb String.eqb] in Habs. unfold strings.HasPrefix in Habs.
      cbn [String.prefix] in Habs.
      destruct (ascii_dec "/" c) as [<- | _]; [| discriminate].
      cbn [strings.IndexByte]. change (strings.eqc "/" "/") with true. cbn [option_map].
      now rewrite Nat.add_0_r, take_app, drop_app. }
  rewrite Hauth, (parseAuthority_plain host Hh), (unescape_path_plain path Hp).
  reflexivity.
Qed.

(** The domain and the base URL of a URL of the common shape: the host as it
    is spelled, whatever the path and the query. *)
Theorem GetDomain_common_url (scheme host path : string) (query : option string) :
  plain_scheme scheme = true ->
  plain_host host = true ->
  plain_path path = true ->
  match query with Some q => plain_query q | None => true end = true ->
  GetDomain (common_url scheme host path query) = inr host
  /\ GetBaseUrl (common_url scheme host path query)
     = inr (strings.ToLower scheme +:+ "://" +:+ host).
Proof.
  intros Hs Hh Hp Hq. unfold GetDomain, GetBaseUrl.
  rewrite (Parse_common_url scheme host path query Hs Hh Hp Hq).
  apply andb_prop in Hh as [Hne Hh]. apply negb_true_iff in Hne.
  unfold url.Hostname. cbn [url.Host url.Scheme].
  rewrite (splitHost_plain host Hh), Hne.
  destruct scheme; [discriminate |]. split; reflexivity.
Qed.

(** Hence the key of a URL of the common shape is the digest of its host, as
    spelled, whatever its scheme, path and query. *)
Theorem key_ignores_scheme_path_and_query
        (scheme host path : string) (query : option string) :
  plain_scheme scheme = true ->
  plain_host host = true ->
  plain_path path = true ->
  match query with Some q => plain_query q | None => true end = true ->
  generateDomainHash (common_url scheme host path query) = hashURL host +:+ "-robots-txt".
Proof.
  intros Hs Hh Hp Hq. unfold generateDomainHash.
  now destruct (GetDomain_common_url scheme host path query Hs Hh Hp Hq) as [-> _].
Qed.

(** *** URLs with a port *)

Lemma authority_byte_not_question c : authority_byte c = true -> strings.eqc c "?" = false.
Proof. by_byte c. Qed.











(** *** A bare host name is not a URL *)






(** *** The key of a URL and of its host *)


(** *** More on the domain of a URL *)



(** *** More on the repository *)

Lemma find_app_none {A : Type} (p : A -> bool) (l : list A) (x : A) :
  List.find p l = None -> List.find p (l ++ [x]) = if p x then Some x else None.
Proof.
  induction l as [| a l IH]; [reflexivity |]. cbn [List.find app].
  destruct (p a); [discriminate | exact IH].
Qed.

Lemma find_none_below (n : Z) (rows : list Row) :
  List.Forall (fun r => row_id r < n) rows ->
  List.find (fun r => row_id r =? n) rows = None.
Proof.
  induction 1 as [| r rows Hr _ IH]; [reflexivity |]. cbn [List.find].
  replace (row_id r =? n) with false by (symmetry; apply Z.eqb_neq; lia). exact IH.
Qed.

Lemma find_id_is_Itoa (n : Z) (rows : list Row) :
  List.find (id_is (Itoa n)) rows = List.find (fun r => row_id r =? n) rows.
Proof.
  induction rows as [| r rows IH]; [reflexivity |]. cbn [List.find].
  now rewrite id_is_Itoa, IH.
Qed.

Lemma Save_accepted (rule : Rule.t) (w : World) :
  store_fault (INSERT_domain_robots_txt (Rule.Domain rule) (Rule.RobotsTxt rule)) = None ->
  Save rule w =
    (inr (next_id w),
     mkWorld (table w ++ [mkRow (next_id w) (Rule.Domain rule) (Rule.RobotsTxt rule)
                                blocked_default (clock w) (clock w)])
             (next_id w + 1) (clock w) (memcached w)
             (events w ++ [Sql (INSERT_domain_robots_txt (Rule.Domain rule)
                                                         (Rule.RobotsTxt rule))])
             (success_responses w) (error_responses w)).
Proof. intros Hok. unfold Save. run. now rewrite Hok. Qed.

(** X3: insert then look up.  With the store executing the statements, in a
    table whose ids are below the sequence and that has no rule for the domain,
    Save returns the next id of the sequence, and both GetById of that id and
    GetByUrl of a URL of the domain then return the saved domain and text under
    that id, with Blocked false whatever the rule saved said. *)
Theorem X3_save_then_get (rule : Rule.t) (url : string) (w : World) :
  store_fault (INSERT_domain_robots_txt (Rule.Domain rule) (Rule.RobotsTxt rule)) = None ->
  store_fault (SELECT_WHERE_id (Itoa (next_id w))) = None ->
  store_fault (SELECT_WHERE_domain (Rule.Domain rule)) = None ->
  well_keyed w ->
  GetDomain url = inr (Rule.Domain rule) ->
  List.find (fun r => String.eqb (row_domain r) (Rule.Domain rule)) (table w) = None ->
  let w1 := snd (Save rule w) in
  exists created updated,
    let saved := Rule.mk (next_id w) (Rule.Domain rule) false (Rule.RobotsTxt rule)
                         created updated in
    fst (Save rule w) = inr (next_id w)
    /\ fst (GetById (Itoa (next_id w)) w1) = inr saved
    /\ fst (GetByUrl url w1) = inr saved.
Proof.
  intros Hins Hsel Hdom [_ Hbelow] Hurl Hfresh. cbv zeta.
  exists (clock w), (clock w).
  rewrite (Save_accepted rule w Hins). cbn [fst snd].
  split; [reflexivity |]. split.
  - unfold GetById, QueryRow_Scan. run. rewrite Hsel, find_id_is_Itoa.
    rewrite (find_app_none _ _ _ (find_none_below _ _ Hbelow)).
    cbn [row_id]. now rewrite Z.eqb_refl.
  - unfold GetByUrl, QueryRow_Scan. rewrite Hurl. run. rewrite Hdom.
    rewrite (find_app_none _ _ _ Hfresh). cbn [row_domain].
    now rewrite String.eqb_refl.
Qed.

Lemma map_row_id_updated (rule : Rule.t) (rows : list Row) :
  map row_id (map (update_row rule) rows) = map row_id rows.
Proof.
  induction rows as [| r rows IH]; [reflexivity |].
  cbn [map]. now rewrite update_row_id, IH.
Qed.

Lemma Forall_updated (n : Z) (rule : Rule.t) (rows : list Row) :
  List.Forall (fun r => row_id r < n) rows ->
  List.Forall (fun r => row_id r < n) (map (update_row rule) rows).
Proof.
  induction 1 as [| r rows Hr _ IH]; cbn [map]; constructor; auto.
  now rewrite update_row_id.
Qed.

Lemma NoDup_map_filter {A B : Type} (f : A -> B) (p : A -> bool) (l : list A) :
  List.NoDup (map f l) -> List.NoDup (map f (List.filter p l)).
Proof.
  induction l as [| a l IH]; [auto |]. cbn [map List.filter]. intros H.
  apply List.NoDup_cons_iff in H as [Hnotin Hnodup].
  destruct (p a); [| auto]. cbn [map]. constructor; [| auto].
  intros Hin. apply Hnotin. apply List.in_map_iff in Hin as (x & Hx & Hin).
  apply List.filter_In in Hin as [Hin _]. rewrite <- Hx. now apply List.in_map.
Qed.

Lemma Forall_filter {A : Type} (P : A -> Prop) (p : A -> bool) (l : list A) :
  List.Forall P l -> List.Forall P (List.filter p l).
Proof.
  induction 1 as [| a l Ha _ IH]; [constructor |]. cbn [List.filter].
  destruct (p a); [constructor |]; auto.
Qed.

Lemma GetById_world (id : string) (w : World) :
  snd (GetById id w) = record (Sql (SELECT_WHERE_id id)) w.
Proof.
  unfold GetById, QueryRow_Scan. run.
  destruct (store_fault _) as [err |].
  - destruct (is_ErrNoRows err); reflexivity.
  - destruct (List.find _ _); reflexivity.
Qed.

Lemma Save_world (rule : Rule.t) (w : World) :
  (table (snd (Save rule w)) = table w /\ next_id (snd (Save rule w)) = next_id w)
  \/ (table (snd (Save rule w))
      = table w ++ [mkRow (next_id w) (Rule.Domain rule) (Rule.RobotsTxt rule)
                          blocked_default (clock w) (clock w)]
      /\ next_id (snd (Save rule w)) = next_id w + 1).
Proof.
  unfold Save. run. destruct (store_fault _); [left | right]; split; reflexivity.
Qed.

Lemma Update_world (rule : Rule.t) (w : World) :
  next_id (snd (Update rule w)) = next_id w
  /\ (table (snd (Update rule w)) = table w
      \/ table (snd (Update rule w)) = map (update_row rule) (table w)).
Proof.
  unfold Update, Exec. run. destruct (store_fault _) as [err |].
  - split; [reflexivity | now left].
  - rewrite GetById_world. split; [reflexivity | now right].
Qed.

Lemma Delete_world (ruleId : string) (w : World) :
  next_id (snd (Delete ruleId w)) = next_id w
  /\ (table (snd (Delete ruleId w)) = table w
      \/ table (snd (Delete ruleId w))
         = List.filter (fun r => negb (id_is ruleId r)) (table w)).
Proof.
  unfold Delete, Exec. run. destruct (store_fault _) as [err |].
  - split; [reflexivity | now left].
  - split; [reflexivity | now right].
Qed.

(** X4: an invariant of the three writing operations.  If no two rows share
    an id and the sequence is ahead of every id, this still holds after Save,
    after Update and after Delete, whatever the rule or id given and whether the
    store executes the statement or refuses it. *)
Theorem X4_writes_keep_ids_unique (rule : Rule.t) (ruleId : string) (w : World) :
  well_keyed w ->
  well_keyed (snd (Save rule w))
  /\ well_keyed (snd (Update rule w))
  /\ well_keyed (snd (Delete ruleId w)).
Proof.
  intros [Hnodup Hbelow]. unfold well_keyed. split; [| split].
  - destruct (Save_world rule w) as [[-> ->] | [-> ->]]; [now split |].
    split.
    + rewrite map_app. cbn [map row_id].
      apply List.NoDup_app; [assumption | repeat constructor; intros [] | ].
      intros x Hin [<- | []].
      apply List.in_map_iff in Hin as (r & Hr & Hin).
      rewrite List.Forall_forall in Hbelow. specialize (Hbelow r Hin). lia.
    + apply List.Forall_app. split.
      * eapply List.Forall_impl; [| exact Hbelow]. cbn. intros; lia.
      * repeat constructor. cbn. lia.
  - destruct (Update_world rule w) as [-> [-> | ->]]; [now split |].
    rewrite map_row_id_updated. split; [assumption | now apply Forall_updated].
  - destruct (Delete_world ruleId w) as [-> [-> | ->]]; [now split |].
    split; [now apply NoDup_map_filter | now apply Forall_filter].
Qed.

Lemma filter_others_updated (rule : Rule.t) (rows : list Row) :
  List.filter (fun r => negb (row_id r =? Rule.ID rule)) (map (update_row rule) rows)
  = List.filter (fun r => negb (row_id r =? Rule.ID rule)) rows.
Proof.
  induction rows as [| r rows IH]; [reflexivity |]. cbn [map List.filter].
  rewrite update_row_id, IH. unfold update_row.
  destruct (row_id r =? Rule.ID rule); reflexivity.
Qed.

(** X5: Update of an id that a row has, with the store executing the UPDATE
    and the SELECT: the row gets the domain and the text given and keeps its
    blocked column; the rows with another id are as before, and the table has
    as many rows; the rule returned is the row read again, with Blocked false. *)
Theorem X5_update_rewrites_one_row (rule : Rule.t) (w : World) (r : Row) :
  store_fault (UPDATE_SET_domain_robots_txt_WHERE_id
                 (Rule.Domain rule) (Rule.RobotsTxt rule) (Rule.ID rule)) = None ->
  store_fault (SELECT_WHERE_id (Itoa (Rule.ID rule))) = None ->
  List.find (fun r => row_id r =? Rule.ID rule) (table w) = Some r ->
  exists w' created updated,
    Update rule w =
      (inr (Rule.mk (Rule.ID rule) (Rule.Domain rule) false (Rule.RobotsTxt rule)
                    created updated), w')
    /\ List.find (fun r => row_id r =? Rule.ID rule) (table w')
       = Some (mkRow (Rule.ID rule) (Rule.Domain rule) (Rule.RobotsTxt rule)
                     (row_blocked r) created updated)
    /\ List.filter (fun r => negb (row_id r =? Rule.ID rule)) (table w')
       = List.filter (fun r => negb (row_id r =? Rule.ID rule)) (table w)
    /\ List.length (table w') = List.length (table w).
Proof.
  intros Hupd Hsel Hfind.
  destruct (Update_existing rule w r Hupd Hsel Hfind) as (w' & Hrun & Htable & Hrow).
  exists w', (row_created_at r), (row_updated_at r).
  split; [exact Hrun |]. split; [exact Hrow |].
  rewrite Htable. split; [apply filter_others_updated | apply length_map].
Qed.

(** X6: Update of an id that no row has, with the store executing both
    statements: the UPDATE changes no row and the reload fails with the error
    "rule with id '<id>' not found". *)
Theorem X6_update_of_unknown_id_is_not_found (rule : Rule.t) (w : World) :
  store_fault (UPDATE_SET_domain_robots_txt_WHERE_id
                 (Rule.Domain rule) (Rule.RobotsTxt rule) (Rule.ID rule)) = None ->
  store_fault (SELECT_WHERE_id (Itoa (Rule.ID rule))) = None ->
  List.find (fun r => row_id r =? Rule.ID rule) (table w) = None ->
  fst (Update rule w)
  = inl (errors_New ("rule with id '" +:+ Itoa (Rule.ID rule) +:+ "' not found"))
  /\ table (snd (Update rule w)) = table w.
Proof.
  intros Hupd Hsel Hfind.
  destruct (Update_missing rule w Hupd Hsel Hfind) as (w' & -> & Htable). auto.
Qed.

(** X7: a statement the store refuses changes nothing.  Save, Update and
    Delete hand the store's error back as it is and leave the table and the
    sequence as they were; Update does not go on to reload the row. *)
Theorem X7_refused_statement_changes_nothing
        (rule : Rule.t) (ruleId : string) (w : World) (e1 e2 e3 : error) :
  store_fault (INSERT_domain_robots_txt (Rule.Domain rule) (Rule.RobotsTxt rule)) = Some e1 ->
  store_fault (UPDATE_SET_domain_robots_txt_WHERE_id
                 (Rule.Domain rule) (Rule.RobotsTxt rule) (Rule.ID rule)) = Some e2 ->
  store_fault (DELETE_WHERE_id ruleId) = Some e3 ->
  (fst (Save rule w) = inl e1
   /\ table (snd (Save rule w)) = table w /\ next_id (snd (Save rule w)) = next_id w)
  /\ (fst (Update rule w) = inl e2
      /\ table (snd (Update rule w)) = table w
      /\ events (snd (Update rule w))
         = events w ++ [Sql (UPDATE_SET_domain_robots_txt_WHERE_id
                               (Rule.Domain rule) (Rule.RobotsTxt rule) (Rule.ID rule))])
  /\ (fst (Delete ruleId w) = Some e3 /\ table (snd (Delete ruleId w)) = table w).
Proof.
  intros H1 H2 H3. unfold Save, Update, Delete, Exec. run.
  rewrite H1, H2, H3. cbn. auto 10.
Qed.

Lemma find_after_filter {A : Type} (p : A -> bool) (l : list A) :
  List.find p (List.filter (fun a => negb (p a)) l) = None.
Proof.
  induction l as [| a l IH]; [reflexivity |]. cbn [List.filter].
  destruct (p a) eqn:Hp; cbn [negb]; [exact IH |]. cbn [List.find]. now rewrite Hp.
Qed.

(** X8: delete then look up.  After a Delete that the store executed, GetById
    of the same id fails with "rule with id '<id>' not found", and every row
    with another id is still in the table. *)
Theorem X8_deleted_rule_is_not_found (ruleId : string) (w : World) :
  store_fault (DELETE_WHERE_id ruleId) = None ->
  store_fault (SELECT_WHERE_id ruleId) = None ->
  fst (GetById ruleId (snd (Delete ruleId w)))
  = inl (errors_New ("rule with id '" +:+ ruleId +:+ "' not found"))
  /\ (forall r, List.In r (table w) -> id_is ruleId r = false ->
        List.In r (table (snd (Delete ruleId w)))).
Proof.
  intros Hdel Hsel. rewrite (Delete_accepted ruleId w Hdel). cbn [snd]. split.
  - unfold GetById, QueryRow_Scan. run. rewrite Hsel.
    now rewrite (find_after_filter (id_is ruleId)).
  - intros r Hin Hother. cbn. apply List.filter_In. split; [exact Hin |].
    now rewrite Hother.
Qed.

(** *** More on the cache *)

(** X9: the failures of the cache server are swallowed.  When the server fails
    the get, GetRobotsFile reports a miss, also when the entry is there; when it
    fails the set, SaveRobotsFile returns with the cache as it was.  In both
    cases the command was sent once. *)
Theorem X9_cache_failures_are_swallowed
        (url : string) (robotFile : bytes) (w : World) (e1 e2 : error) :
  get_fault (generateDomainHash url) = Some e1 ->
  set_fault (mkItem (generateDomainHash url) (json.Marshal robotFile) (TtlSeconds cfg))
    = Some e2 ->
  GetRobotsFile url w
  = ((nil_slice, false), record (MemcacheGet (generateDomainHash url)) w)
  /\ SaveRobotsFile url robotFile w
     = (tt, record (MemcacheSet (mkItem (generateDomainHash url) (json.Marshal robotFile)
                                        (TtlSeconds cfg))) w)
  /\ memcached (snd (SaveRobotsFile url robotFile w)) = memcached w.
Proof.
  intros Hget Hset. rewrite GetRobotsFile_run, SaveRobotsFile_run. cbv zeta.
  rewrite Hget, Hset. auto.
Qed.

(** X10: the entry is shared by the URLs of a host.  What SaveRobotsFile
    stored for one URL is what GetRobotsFile finds for any URL from which the
    same hostname is extracted (server answering): the JSON encoding of the
    bytes saved. *)
Theorem X10_urls_of_a_host_share_the_entry
        (url1 url2 domain : string) (robotFile : bytes) (w : World) :
  GetDomain url1 = inr domain ->
  GetDomain url2 = inr domain ->
  set_fault (mkItem (generateDomainHash url1) (json.Marshal robotFile) (TtlSeconds cfg))
    = None ->
  get_fault (generateDomainHash url2) = None ->
  fst (GetRobotsFile url2 (snd (SaveRobotsFile url1 robotFile w)))
  = (json.Marshal robotFile, true).
Proof.
  intros H1 H2 Hset Hget.
  assert (Hkey : generateDomainHash url2 = generateDomainHash url1).
  { unfold generateDomainHash. now rewrite H1, H2. }
  rewrite SaveRobotsFile_run. cbv zeta. rewrite Hset.
  rewrite GetRobotsFile_run, Hget, Hkey. cbn [fst snd set_memcached memcached].
  now rewrite lookup_insert_eq.
Qed.

(** X11: the last write wins.  After two SaveRobotsFile for the same URL that
    the server executed, the cache is the one before them with the single entry
    of the key replaced by the second item, and GetRobotsFile returns the
    encoding of the second file. *)
Theorem X11_last_write_wins (url : string) (first second : bytes) (w : World) :
  set_fault (mkItem (generateDomainHash url) (json.Marshal first) (TtlSeconds cfg)) = None ->
  set_fault (mkItem (generateDomainHash url) (json.Marshal second) (TtlSeconds cfg)) = None ->
  get_fault (generateDomainHash url) = None ->
  let w2 := snd (SaveRobotsFile url second (snd (SaveRobotsFile url first w))) in
  memcached w2
  = <[generateDomainHash url :=
        mkItem (generateDomainHash url) (json.Marshal second) (TtlSeconds cfg)]> (memcached w)
  /\ fst (GetRobotsFile url w2) = (json.Marshal second, true).
Proof.
  intros H1 H2 Hget. cbv zeta.
  rewrite !SaveRobotsFile_run. cbv zeta. rewrite H1, H2.
  cbn [fst snd set_memcached memcached record].
  rewrite insert_insert_eq. split; [reflexivity |].
  rewrite GetRobotsFile_run, Hget. cbn [fst snd set_memcached memcached record].
  now rewrite lookup_insert_eq.
Qed.

(** *** More on the resolution *)

Lemma answer_run (robotsTxt userAgent url : string) (blocked : bool) (statusCode : Z)
      (w : World) :
  answer robotsTxt userAgent url blocked statusCode w
  = (returns (JSON 200 (crawl_response
       (AllowedCrawlResponse.mk (AgentAllowed robotsTxt userAgent url) blocked statusCode ""))),
     snd (SuccessResponseCounter 1 w)).
Proof. unfold answer. destruct (AgentAllowed _ _ _); reflexivity. Qed.

(** The handler past the override lookup, when no override applies. *)
Lemma GetAllowedCrawl_without_override (c : Context) (w : World) :
  Query c "url" <> "" ->
  Query c "user_agent" <> "" ->
  custom_rule (fst (GetByUrl (Query c "url") w)) = None ->
  GetAllowedCrawl c w =
    match getRobotsTxt (Query c "url") (snd (GetByUrl (Query c "url") w)) with
    | (panics why, w1) => (panics why, w1)
    | (returns (inl err), w1) =>
        (returns (JSON 500 (crawl_response
           (AllowedCrawlResponse.mk false false 500 (Error err)))), snd (ErrorResponseCounter 1 w1))
    | (returns (inr tResp), w1) =>
        if negb (isSuccess (TargetResponse.StatusCode tResp)) then
          (returns (JSON 200 (crawl_response
             (AllowedCrawlResponse.mk false false (TargetResponse.StatusCode tResp)
                (string_of_bytes (TargetResponse.Body tResp))))), snd (SuccessResponseCounter 1 w1))
        else
          (returns (JSON 200 (crawl_response
             (AllowedCrawlResponse.mk
                (AgentAllowed (string_of_bytes (TargetResponse.Body tResp))
                              (Query c "user_agent") (Query c "url"))
                false (TargetResponse.StatusCode tResp) ""))), snd (SuccessResponseCounter 1 w1))
    end.
Proof.
  intros Hurl Hua Hnone. unfold GetAllowedCrawl.
  rewrite (eqb_empty_false _ Hurl), (eqb_empty_false _ Hua).
  unfold bind at 1. destruct (GetByUrl (Query c "url") w) as [found w0].
  cbn [fst snd] in *. rewrite Hnone. unfold bind at 1.
  destruct (getRobotsTxt (Query c "url") w0) as [[[err | tResp] | why] w1]; try reflexivity.
  destruct (negb _); [reflexivity | apply answer_run].
Qed.

Lemma getRobotsTxt_hit (url : string) (item : Item) (w : World) :
  get_fault (generateDomainHash url) = None ->
  memcached w !! generateDomainHash url = Some item ->
  getRobotsTxt url w
  = (returns (inr (TargetResponse.mk StatusOK (Value item))),
     record (MemcacheGet (generateDomainHash url)) w).
Proof.
  intros Hget Hitem. unfold getRobotsTxt. unfold bind at 1.
  now rewrite GetRobotsFile_run, Hget, Hitem.
Qed.

Lemma filter_record (p : Event -> bool) (e : Event) (w : World) :
  p e = false -> List.filter p (events (record e w)) = List.filter p (events w).
Proof. intros H. cbn. rewrite List.filter_app. cbn. rewrite H. apply app_nil_r. Qed.

Lemma GetByUrl_sends_sql_only (p : Event -> bool) (url : string) (w : World) :
  (forall q, p (Sql q) = false) ->
  List.filter p (events (snd (GetByUrl url w))) = List.filter p (events w).
Proof.
  intros Hp. rewrite GetByUrl_world. destruct (GetDomain url); [reflexivity |].
  apply filter_record, Hp.
Qed.

(** X12: the cache hit.  With no override applying, when the cache holds an
    entry under the key of the URL (server answering), the answer is the
    evaluator's verdict on the cached value with statusCode 200, whatever the
    site would answer now: no HTTP request is sent and nothing is written to the
    cache. *)
Theorem X12_cache_hit_is_answered_without_a_fetch
        (c : Context) (w : World) (item : Item) :
  Query c "url" <> "" ->
  Query c "user_agent" <> "" ->
  custom_rule (fst (GetByUrl (Query c "url") w)) = None ->
  get_fault (generateDomainHash (Query c "url")) = None ->
  memcached w !! generateDomainHash (Query c "url") = Some item ->
  exists w',
    GetAllowedCrawl c w
    = (returns (JSON 200 (crawl_response
         (AllowedCrawlResponse.mk
            (AgentAllowed (string_of_bytes (Value item)) (Query c "user_agent")
                          (Query c "url"))
            false 200 ""))), w')
    /\ List.filter is_http (events w') = List.filter is_http (events w)
    /\ List.filter is_cache_set (events w') = List.filter is_cache_set (events w)
    /\ memcached w' = memcached w.
Proof.
  intros Hurl Hua Hnone Hget Hitem.
  pose proof (GetByUrl_stores (Query c "url") w) as (_ & Hm & _).
  rewrite (GetAllowedCrawl_without_override c w Hurl Hua Hnone).
  rewrite (getRobotsTxt_hit _ item) by (rewrite ?Hm; assumption).
  cbn [TargetResponse.StatusCode TargetResponse.Body]. change (isSuccess StatusOK) with true.
  cbn [negb]. eexists. split; [reflexivity |].
  rewrite SuccessResponseCounter_events, SuccessResponseCounter_memcached.
  cbn [events memcached record].
  rewrite !List.filter_app. cbn. rewrite !app_nil_r.
  rewrite !GetByUrl_sends_sql_only by reflexivity. auto.
Qed.

(** X13: the live fetch answered 2xx.  With no override applying and the
    cache missing, the answer is the evaluator's verdict on the body fetched and
    its statusCode is the upstream status (not always 200); a non-empty body is
    then in the cache under the key of the URL, as its JSON encoding with the
    configured expiry (server executing the set), and an empty body leaves the
    cache as it was. *)
Theorem X13_fetched_file_is_answered_and_cached
        (c : Context) (w : World) (baseUrl : string) (req : Request)
        (statusCode : Z) (body : list byte) :
  Query c "url" <> "" ->
  Query c "user_agent" <> "" ->
  custom_rule (fst (GetByUrl (Query c "url") w)) = None ->
  snd (fst (GetRobotsFile (Query c "url") w)) = false ->
  GetBaseUrl (Query c "url") = inr baseUrl ->
  NewRequest "GET" (baseUrl +:+ "/robots.txt") = inr req ->
  httpClient (Header_Set_User_Agent req (RuleUserAgent cfg)) = Responds statusCode body ->
  isSuccess statusCode = true ->
  let key := generateDomainHash (Query c "url") in
  let item := mkItem key (json.Marshal (slice body)) (TtlSeconds cfg) in
  exists w',
    GetAllowedCrawl c w
    = (returns (JSON 200 (crawl_response
         (AllowedCrawlResponse.mk
            (AgentAllowed (string_of_list_byte body) (Query c "user_agent") (Query c "url"))
            false statusCode ""))), w')
    /\ (body <> [] -> set_fault item = None ->
        memcached w' = <[key := item]> (memcached w))
    /\ (body = [] -> memcached w' = memcached w).
Proof.
  intros Hurl Hua Hnone Hmiss Hbase Hreq Hresp Hok. cbv zeta.
  pose proof (GetByUrl_stores (Query c "url") w) as (_ & Hm & _).
  rewrite (GetAllowedCrawl_without_override c w Hurl Hua Hnone).
  rewrite (getRobotsTxt_miss _ baseUrl req) by
    (auto; rewrite (GetRobotsFile_same_cache _ w _ Hm); exact Hmiss).
  cbv zeta. rewrite Hresp, Hok.
  cbn [TargetResponse.StatusCode TargetResponse.Body andb]. rewrite Hok. cbn [negb].
  eexists. split; [reflexivity |]. split.
  - intros Hbody Hset.
    assert (Hlen : negb (len (slice body) =? 0) = true).
    { destruct body; [congruence | reflexivity]. }
    rewrite Hlen, SaveRobotsFile_run. cbv zeta. rewrite Hset.
    rewrite SuccessResponseCounter_memcached.
    cbn [snd memcached set_memcached record]. now rewrite Hm.
  - intros ->. rewrite SuccessResponseCounter_memcached.
    cbn [memcached record]. exact Hm.
Qed.

Lemma getRobotsTxt_no_base (url : string) (err : error) (w : World) :
  snd (fst (GetRobotsFile url w)) = false ->
  GetBaseUrl url = inl err ->
  getRobotsTxt url w
  = (returns (inl (errors_New ("failed to parse url. " +:+ Error err))),
     record (MemcacheGet (generateDomainHash url)) w).
Proof.
  intros Hmiss Hbase. unfold getRobotsTxt.
  unfold bind at 1. destruct (GetRobotsFile url w) as [[file ok] w0] eqn:Hget.
  rewrite GetRobotsFile_run in Hget. cbn [fst snd] in Hmiss. subst ok.
  injection Hget as _ <-.
  unfold requestToRobotsTxt. rewrite Hbase. reflexivity.
Qed.

(** X14: a URL whose base cannot be built.  With no override applying and the
    cache missing, when GetBaseUrl fails (no scheme, or no hostname) the answer
    is HTTP 500 with the error "failed to parse url. " and the cause, and no HTTP
    request is sent. *)
Theorem X14_url_without_base_is_an_error (c : Context) (w : World) (err : error) :
  Query c "url" <> "" ->
  Query c "user_agent" <> "" ->
  custom_rule (fst (GetByUrl (Query c "url") w)) = None ->
  snd (fst (GetRobotsFile (Query c "url") w)) = false ->
  GetBaseUrl (Query c "url") = inl err ->
  exists w',
    GetAllowedCrawl c w
    = (returns (JSON 500 (crawl_response
         (AllowedCrawlResponse.mk false false 500 ("failed to parse url. " +:+ Error err)))),
       w')
    /\ List.filter is_http (events w') = List.filter is_http (events w)
    /\ memcached w' = memcached w.
Proof.
  intros Hurl Hua Hnone Hmiss Hbase.
  pose proof (GetByUrl_stores (Query c "url") w) as (_ & Hm & _).
  rewrite (GetAllowedCrawl_without_override c w Hurl Hua Hnone).
  rewrite (getRobotsTxt_no_base _ err) by
    (auto; rewrite (GetRobotsFile_same_cache _ w _ Hm); exact Hmiss).
  eexists. split; [reflexivity |].
  rewrite ErrorResponseCounter_events, ErrorResponseCounter_memcached.
  cbn [events memcached record]. rewrite List.filter_app. cbn.
  rewrite app_nil_r, GetByUrl_sends_sql_only by reflexivity. auto.
Qed.

Lemma getRobotsTxt_world (url : string) (w : World) :
  exists cache trace,
    snd (getRobotsTxt url w)
    = mkWorld (table w) (next_id w) (clock w) cache trace
              (success_responses w) (error_responses w).
Proof.
  unfold getRobotsTxt. unfold bind at 1.
  destruct (GetRobotsFile url w) as [[file ok] w0] eqn:Hget.
  rewrite GetRobotsFile_run in Hget. injection Hget as _ <-.
  destruct ok; [run; eauto |].
  unfold requestToRobotsTxt.
  destruct (GetBaseUrl url) as [err | baseUrl]; [run; eauto |].
  destruct (NewRequest _ _) as [err | req]; [run; eauto |].
  unfold Do. run.
  destruct (httpClient _) as [URL Err | sc err | sc body]; try (run; eauto; fail).
  cbn [TargetResponse.StatusCode TargetResponse.Body].
  destruct (isSuccess sc && negb (len (slice body) =? 0)); [| run; eauto].
  destruct (SaveRobotsFile url (slice body) _) as [[] w2] eqn:Hsave.
  rewrite SaveRobotsFile_run in Hsave. cbv zeta in Hsave. injection Hsave as <-.
  destruct (set_fault _); cbn; eauto.
Qed.

Lemma getRobotsTxt_frame (url : string) (w : World) :
  table (snd (getRobotsTxt url w)) = table w
  /\ next_id (snd (getRobotsTxt url w)) = next_id w
  /\ success_responses (snd (getRobotsTxt url w)) = success_responses w
  /\ error_responses (snd (getRobotsTxt url w)) = error_responses w.
Proof.
  destruct (getRobotsTxt_world url w) as (cache & trace & ->). cbn. auto.
Qed.

(** X15: every answer of GetAllowedCrawl passes through exactly one counter.
    With telemetry enabled, an answer with HTTP status 200 adds one to the success
    counter and nothing to the error counter, and an answer with status 400 or
    500 adds one to the error counter and nothing to the success counter; with
    telemetry disabled no counter moves.  There is no other status, and when the
    handler panics neither counter moves.  The handler never writes to the rule
    table. *)
Theorem X15_every_answer_is_counted_once (c : Context) (w : World) :
  let w' := snd (GetAllowedCrawl c w) in
  let one := if TelemetryEnabled cfg then 1 else 0 in
  table w' = table w /\ next_id w' = next_id w
  /\ match fst (GetAllowedCrawl c w) with
     | returns reply =>
         (code reply = 200
          /\ success_responses w' = success_responses w + one
          /\ error_responses w' = error_responses w)
         \/ ((code reply = 400 \/ code reply = 500)
             /\ success_responses w' = success_responses w
             /\ error_responses w' = error_responses w + one)
     | panics _ =>
         success_responses w' = success_responses w
         /\ error_responses w' = error_responses w
     end.
Proof.
  cbv zeta. destruct (GetAllowedCrawl c w) as [o w'] eqn:Hrun. cbn [fst snd].
  unfold GetAllowedCrawl in Hrun.
  destruct (String.eqb (Query c "url") "");
    [injection Hrun as <- <-; destruct (TelemetryEnabled cfg); cbn;
     rewrite ?Z.add_0_r; auto 7 |].
  destruct (String.eqb (Query c "user_agent") "");
    [injection Hrun as <- <-; destruct (TelemetryEnabled cfg); cbn;
     rewrite ?Z.add_0_r; auto 7 |].
  unfold bind at 1 in Hrun.
  pose proof (GetByUrl_stores (Query c "url") w) as (Ht & _ & Hs & He & _).
  pose proof (GetByUrl_world (Query c "url") w) as Hw.
  assert (Hn : next_id (snd (GetByUrl (Query c "url") w)) = next_id w).
  { rewrite Hw. destruct (GetDomain _); reflexivity. }
  clear Hw.
  destruct (GetByUrl (Query c "url") w) as [found w0]. cbn [snd] in Ht, Hs, He, Hn.
  destruct (custom_rule found) as [rule |].
  - rewrite answer_run in Hrun. injection Hrun as <- <-.
    destruct (TelemetryEnabled cfg); cbn; rewrite Ht, Hn, Hs, He, ?Z.add_0_r; auto 7.
  - unfold bind at 1 in Hrun.
    pose proof (getRobotsTxt_frame (Query c "url") w0) as (Ht1 & Hn1 & Hs1 & He1).
    destruct (getRobotsTxt (Query c "url") w0) as [[[err | tResp] | why] w1];
      cbn [snd] in Ht1, Hn1, Hs1, He1;
      rewrite Ht in Ht1; rewrite Hn in Hn1; rewrite Hs in Hs1; rewrite He in He1.
    + injection Hrun as <- <-.
      destruct (TelemetryEnabled cfg); cbn; rewrite Ht1, Hn1, Hs1, He1, ?Z.add_0_r; auto 7.
    + destruct (negb _).
      * injection Hrun as <- <-.
        destruct (TelemetryEnabled cfg); cbn; rewrite Ht1, Hn1, Hs1, He1, ?Z.add_0_r;
          auto 7.
      * rewrite answer_run in Hrun. injection Hrun as <- <-.
        destruct (TelemetryEnabled cfg); cbn; rewrite Ht1, Hn1, Hs1, He1, ?Z.add_0_r;
          auto 7.
    + injection Hrun as <- <-. auto.
Qed.

(** X16: when http.NewRequest refuses the address built from the base URL
    (its error is overwritten unread and the nil request is dereferenced), the
    handler does not answer: it panics, after the cache lookup, with no HTTP
    request sent and neither counter moved. *)
Theorem X16_refused_request_address_panics
        (c : Context) (w : World) (baseUrl : string) (err : error) :
  Query c "url" <> "" ->
  Query c "user_agent" <> "" ->
  custom_rule (fst (GetByUrl (Query c "url") w)) = None ->
  snd (fst (GetRobotsFile (Query c "url") w)) = false ->
  GetBaseUrl (Query c "url") = inr baseUrl ->
  NewRequest "GET" (baseUrl +:+ "/robots.txt") = inl err ->
  exists why w',
    GetAllowedCrawl c w = (panics why, w')
    /\ List.filter is_http (events w') = List.filter is_http (events w)
    /\ success_responses w' = success_responses w
    /\ error_responses w' = error_responses w.
Proof.
  intros Hurl Hua Hnone Hmiss Hbase Hreq.
  pose proof (GetByUrl_stores (Query c "url") w) as (_ & Hm & Hs & He & _).
  rewrite (GetAllowedCrawl_without_override c w Hurl Hua Hnone).
  assert (Hrun : forall w0, snd (fst (GetRobotsFile (Query c "url") w0)) = false ->
            getRobotsTxt (Query c "url") w0
            = (panics "runtime error: invalid memory address or nil pointer dereference",
               record (MemcacheGet (generateDomainHash (Query c "url"))) w0)).
  { intros w0 Hmiss0. unfold getRobotsTxt. unfold bind at 1.
    destruct (GetRobotsFile _ w0) as [[file ok] w1] eqn:Hget.
    rewrite GetRobotsFile_run in Hget. cbn [fst snd] in Hmiss0. subst ok.
    injection Hget as _ <-.
    unfold requestToRobotsTxt. rewrite Hbase, Hreq. reflexivity. }
  rewrite Hrun by (rewrite (GetRobotsFile_same_cache _ w _ Hm); exact Hmiss).
  do 2 eexists. split; [reflexivity |].
  cbn [events success_responses error_responses record].
  rewrite List.filter_app. cbn. rewrite app_nil_r, GetByUrl_sends_sql_only by reflexivity.
  auto.
Qed.

(** X17: a store that refuses the DELETE.  DeleteCustomRule with a non-empty
    id answers HTTP 500 with the cause after "failed to delete custom rule. ",
    having sent that one statement; the table is as before. *)
Theorem X17_refused_delete_is_a_server_error (c : Context) (w : World) (err : error) :
  Query c "id" <> "" ->
  store_fault (DELETE_WHERE_id (Query c "id")) = Some err ->
  DeleteCustomRule c w
  = (returns (JSON 500 (gin_H [("error", "failed to delete custom rule. " +:+ Error err)])),
     record (Sql (DELETE_WHERE_id (Query c "id"))) w)
  /\ table (snd (DeleteCustomRule c w)) = table w.
Proof.
  intros Hid Hfault. unfold DeleteCustomRule. rewrite (eqb_empty_false _ Hid).
  unfold Delete, Exec. run. rewrite Hfault. auto.
Qed.

(** *** The custom-rule handlers *)

Lemma GetById_run (id : string) (w : World) :
  GetById id w =
    (match store_fault (SELECT_WHERE_id id) with
     | Some err =>
         inl (if is_ErrNoRows err
              then errors_New ("rule with id '" +:+ id +:+ "' not found") else err)
     | None =>
         match List.find (id_is id) (table w) with
         | Some r => inr (scan r)
         | None => inl (errors_New ("rule with id '" +:+ id +:+ "' not found"))
         end
     end,
     record (Sql (SELECT_WHERE_id id)) w).
Proof.
  unfold GetById, QueryRow_Scan. run.
  destruct (store_fault _) as [err |].
  - destruct (is_ErrNoRows err); reflexivity.
  - destruct (List.find _ _); reflexivity.
Qed.

Lemma Save_run (rule : Rule.t) (w : World) :
  Save rule w =
    match store_fault (INSERT_domain_robots_txt (Rule.Domain rule) (Rule.RobotsTxt rule)) with
    | Some err =>
        (inl err,
         record (Sql (INSERT_domain_robots_txt (Rule.Domain rule) (Rule.RobotsTxt rule))) w)
    | None =>
        (inr (next_id w),
         mkWorld (table w ++ [mkRow (next_id w) (Rule.Domain rule) (Rule.RobotsTxt rule)
                                    blocked_default (clock w) (clock w)])
                 (next_id w + 1) (clock w) (memcached w)
                 (events w ++ [Sql (INSERT_domain_robots_txt (Rule.Domain rule)
                                                             (Rule.RobotsTxt rule))])
                 (success_responses w) (error_responses w))
    end.
Proof. unfold Save. run. destruct (store_fault _); reflexivity. Qed.

(** What a lookup of the repository returns is a row of the table, scanned. *)
Lemma GetById_answer (id : string) (w : World) :
  exists found,
    GetById id w = (found, record (Sql (SELECT_WHERE_id id)) w)
    /\ forall rule, found = inr rule ->
         Rule.Blocked rule = false /\ List.In rule (map scan (table w)).
Proof.
  rewrite GetById_run. eexists. split; [reflexivity |].
  intros rule. destruct (store_fault _) as [err |]; [discriminate |].
  destruct (List.find _ _) as [r |] eqn:Hfind; [| discriminate].
  intros [= <-]. split; [reflexivity |].
  apply in_map. now apply List.find_some in Hfind.
Qed.

Lemma GetByUrl_answer (url : string) (w : World) :
  exists found w0,
    GetByUrl url w = (found, w0)
    /\ table w0 = table w /\ next_id w0 = next_id w
    /\ forall rule, found = inr rule ->
         Rule.Blocked rule = false /\ List.In rule (map scan (table w)).
Proof.
  unfold GetByUrl, QueryRow_Scan. destruct (GetDomain url) as [err | domain].
  - do 2 eexists. split; [reflexivity |]. repeat split; discriminate.
  - run. destruct (store_fault _) as [err |].
    + destruct (is_ErrNoRows err); do 2 eexists; (split; [reflexivity |]);
        repeat split; discriminate.
    + destruct (List.find _ _) as [r |] eqn:Hfind.
      * do 2 eexists. split; [reflexivity |]. split; [reflexivity |].
        split; [reflexivity |]. intros rule [= <-]. split; [reflexivity |].
        apply in_map. now apply List.find_some in Hfind.
      * do 2 eexists. split; [reflexivity |]. repeat split; discriminate.
Qed.


(** X19: id takes precedence over url.  When id is not empty GetCustomRule
    looks the rule up by id and does not read the url parameter: the request
    behaves as the one carrying the id alone. *)
Theorem X19_id_takes_precedence_over_url (c : Context) (w : World) :
  Query c "id" <> "" ->
  GetCustomRule c w = GetCustomRule (mkContext [("id", Query c "id")]) w.
Proof.
  intros Hid. unfold GetCustomRule.
  change (Query (mkContext [("id", Query c "id")]) "id") with (Query c "id").
  change (Query (mkContext [("id", Query c "id")]) "url") with "".
  rewrite (eqb_empty_false _ Hid). reflexivity.
Qed.

(** X20: the answers of CreateCustomRule.  Either it answers 200 with the id
    the store drew, and the table has gained exactly one row, with that id, the
    hostname extracted from url as domain, the body as text, and the store's own
    default in the blocked column; or it answers 400 or 500 with an error text
    and the table is as before. *)
Theorem X20_create_adds_one_row_or_none (c : BodyContext) (w : World) :
  let a := fst (CreateCustomRule c w) in
  let w' := snd (CreateCustomRule c w) in
  (exists domain body created updated,
      a = Answered 200 (H_id (next_id w))
      /\ GetDomain (Query (context c) "url") = inr domain
      /\ ReadAll_Body c = inr body /\ body <> []
      /\ table w' = table w ++ [mkRow (next_id w) domain (string_of_list_byte body)
                                      blocked_default created updated]
      /\ next_id w' = next_id w + 1)
  \/ (exists text,
        (a = Answered 400 (H_text [("error", text)])
         \/ a = Answered 500 (H_text [("error", text)]))
        /\ table w' = table w /\ next_id w' = next_id w).
Proof.
  cbv zeta. destruct (CreateCustomRule c w) as [a w'] eqn:Hrun. cbn [fst snd].
  unfold CreateCustomRule in Hrun.
  destruct (String.eqb (Query (context c) "url") "");
    [injection Hrun as <- <-; right; eauto |].
  destruct (ReadAll_Body c) as [err | body] eqn:Hbody;
    [injection Hrun as <- <-; right; eauto |].
  destruct (len (slice body) =? 0) eqn:Hlen;
    [injection Hrun as <- <-; right; eauto |].
  destruct (GetDomain _) as [err | domain] eqn:Hdom;
    [injection Hrun as <- <-; right; eauto |].
  unfold bind in Hrun. rewrite Save_run in Hrun.
  cbn [Rule.Domain Rule.RobotsTxt] in Hrun.
  destruct (store_fault _) as [err |]; injection Hrun as <- <-.
  - right. eauto.
  - left. exists domain, body, (clock w), (clock w).
    repeat split; auto. intros ->. vm_compute in Hlen. discriminate.
Qed.

(** X21: the blocked parameter of a create request has no effect.  Two
    requests with the same url and the same body are answered alike and leave
    the same state, whatever their blocked parameters. *)
Theorem X21_create_ignores_blocked (c1 c2 : BodyContext) (w : World) :
  Query (context c1) "url" = Query (context c2) "url" ->
  ReadAll_Body c1 = ReadAll_Body c2 ->
  CreateCustomRule c1 w = CreateCustomRule c2 w.
Proof.
  intros Hurl Hbody. unfold CreateCustomRule. rewrite Hurl, Hbody.
  destruct (String.eqb _ ""); [reflexivity |].
  destruct (ReadAll_Body c2) as [err | body]; [reflexivity |].
  destruct (len (slice body) =? 0); [reflexivity |].
  destruct (GetDomain _) as [err | domain]; [reflexivity |].
  unfold bind. rewrite !Save_run. reflexivity.
Qed.

Lemma string_of_list_byte_nonempty (body : list byte) :
  body <> [] -> String.eqb (string_of_list_byte body) "" = false.
Proof. destruct body; [congruence | reflexivity]. Qed.

(** X22: a created rule is what the crawl decision uses.  After
    CreateCustomRule stored the first rule of a domain, GetAllowedCrawl for any
    URL of that domain answers with the evaluator's verdict on the text that was
    the body of the create request, with blocked false and statusCode 200, and
    sends no cache command and no HTTP request. *)
Theorem X22_created_rule_decides_the_crawl
        (c : BodyContext) (q : Context) (w : World) (domain : string) (body : list byte) :
  Query (context c) "url" <> "" ->
  ReadAll_Body c = inr body ->
  body <> [] ->
  GetDomain (Query (context c) "url") = inr domain ->
  store_fault (INSERT_domain_robots_txt domain (string_of_list_byte body)) = None ->
  List.find (fun r => String.eqb (row_domain r) domain) (table w) = None ->
  Query q "url" <> "" ->
  Query q "user_agent" <> "" ->
  GetDomain (Query q "url") = inr domain ->
  store_fault (SELECT_WHERE_domain domain) = None ->
  let w1 := snd (CreateCustomRule c w) in
  exists w2,
    fst (CreateCustomRule c w) = Answered 200 (H_id (next_id w))
    /\ GetAllowedCrawl q w1
       = (returns (JSON 200 (crawl_response
            (AllowedCrawlResponse.mk
               (AgentAllowed (string_of_list_byte body) (Query q "user_agent")
                             (Query q "url"))
               false 200 ""))), w2)
    /\ List.filter (fun e => negb (is_sql e)) (events w2)
       = List.filter (fun e => negb (is_sql e)) (events w).
Proof.
  intros Hurl Hbody Hne Hdom Hins Hfresh Hqurl Hqua Hqdom Hsel. cbv zeta.
  assert (Hlen : (len (slice body) =? 0) = false).
  { destruct body; [congruence | reflexivity]. }
  assert (Hc : CreateCustomRule c w =
    (Answered 200 (H_id (next_id w)),
     mkWorld (table w ++ [mkRow (next_id w) domain (string_of_list_byte body)
                                blocked_default (clock w) (clock w)])
             (next_id w + 1) (clock w) (memcached w)
             (events w ++ [Sql (INSERT_domain_robots_txt domain (string_of_list_byte body))])
             (success_responses w) (error_responses w))).
  { unfold CreateCustomRule. rewrite (eqb_empty_false _ Hurl), Hbody, Hlen, Hdom.
    unfold bind. rewrite Save_run. cbn [Rule.Domain Rule.RobotsTxt]. now rewrite Hins. }
  rewrite Hc. cbn [fst snd].
  unfold GetAllowedCrawl. rewrite (eqb_empty_false _ Hqurl), (eqb_empty_false _ Hqua).
  unfold bind at 1.
  erewrite GetByUrl_found; [| exact Hqdom | exact Hsel |].
  2:{ cbn [table]. rewrite (find_app_none _ _ _ Hfresh). cbn [row_domain].
      rewrite String.eqb_refl. reflexivity. }
  cbn [custom_rule scan Rule.RobotsTxt Rule.Blocked Rule.zero row_robots_txt].
  rewrite (string_of_list_byte_nonempty body Hne). cbn [negb Rule.RobotsTxt Rule.Blocked].
  rewrite answer_run. eexists. split; [reflexivity |]. split; [reflexivity |].
  rewrite SuccessResponseCounter_events.
  cbn [events record]. rewrite !List.filter_app. cbn. now rewrite !app_nil_r.
Qed.

Lemma find_id_is (id : string) (rows : list Row) (r : Row) :
  List.find (id_is id) rows = Some r ->
  List.find (fun r' => row_id r' =? row_id r) rows = Some r.
Proof.
  intros H. pose proof (List.find_some _ _ H) as [_ Hr]. unfold id_is in H, Hr.
  destruct (integer_of_text id) as [n |]; [| discriminate].
  apply Z.eqb_eq in Hr. rewrite Hr. exact H.
Qed.

Lemma ParseBool_nonempty (b : string) (v : bool) :
  ParseBool b = Some v -> String.eqb b "" = false.
Proof.
  intros H. destruct (String.eqb b "") eqn:Hb; [| reflexivity].
  apply String.eqb_eq in Hb. subst b. discriminate.
Qed.

Lemma map_row_blocked_updated (rule : Rule.t) (rows : list Row) :
  map row_blocked (map (update_row rule) rows) = map row_blocked rows.
Proof.
  induction rows as [| r rows IH]; [reflexivity |].
  cbn [map]. rewrite IH. unfold update_row.
  destruct (row_id r =? Rule.ID rule); reflexivity.
Qed.

(** X23: an update that changes nothing is skipped.  When the rule found by
    id already has the text of the body and the request says blocked=false,
    UpdateCustomRule answers 200 with the rule as read and sends no statement
    beside the SELECT; this is so whatever the row's blocked column holds, since
    the value compared is the one the repository scanned. *)
Theorem X23_update_without_change_is_skipped
        (c : BodyContext) (w : World) (r : Row) (body : list byte) :
  Query (context c) "id" <> "" ->
  ParseBool (Query (context c) "blocked") = Some false ->
  ReadAll_Body c = inr body ->
  body <> [] ->
  store_fault (SELECT_WHERE_id (Query (context c) "id")) = None ->
  List.find (id_is (Query (context c) "id")) (table w) = Some r ->
  row_robots_txt r = string_of_list_byte body ->
  UpdateCustomRule c w
  = (Answered 200 (rule_json (scan r)),
     record (Sql (SELECT_WHERE_id (Query (context c) "id"))) w).
Proof.
  intros Hid Hb Hbody Hne Hsel Hfind Htext.
  assert (Hlen : (len (slice body) =? 0) = false).
  { destruct body; [congruence | reflexivity]. }
  unfold UpdateCustomRule.
  rewrite (eqb_empty_false _ Hid), (ParseBool_nonempty _ _ Hb), Hb, Hbody, Hlen.
  cbn [andb negb]. unfold bind. rewrite GetById_run, Hsel, Hfind.
  cbn [scan Rule.RobotsTxt Rule.Blocked Rule.zero]. rewrite Htext, String.eqb_refl.
  reflexivity.
Qed.

(** X24: an update that changes the rule.  When the text differs from the
    stored one, or the request says blocked=true, UpdateCustomRule sends the
    UPDATE for the row found by id and answers 200 with the row read again: the
    row then has the text of the body, its blocked column is what it was before
    the request, and the rule in the answer has Blocked false. *)
Theorem X24_update_replaces_the_text_only
        (c : BodyContext) (w : World) (r : Row) (body : list byte) (blocked : bool) :
  Query (context c) "id" <> "" ->
  ParseBool (Query (context c) "blocked") = Some blocked ->
  ReadAll_Body c = inr body ->
  body <> [] ->
  store_fault (SELECT_WHERE_id (Query (context c) "id")) = None ->
  List.find (id_is (Query (context c) "id")) (table w) = Some r ->
  row_robots_txt r <> string_of_list_byte body \/ blocked = true ->
  store_fault (UPDATE_SET_domain_robots_txt_WHERE_id
                 (row_domain r) (string_of_list_byte body) (row_id r)) = None ->
  store_fault (SELECT_WHERE_id (Itoa (row_id r))) = None ->
  exists w' created updated,
    UpdateCustomRule c w
    = (Answered 200 (rule_json (Rule.mk (row_id r) (row_domain r) false
                                        (string_of_list_byte body) created updated)), w')
    /\ List.find (fun r' => row_id r' =? row_id r) (table w')
       = Some (mkRow (row_id r) (row_domain r) (string_of_list_byte body)
                     (row_blocked r) created updated)
    /\ map row_id (table w') = map row_id (table w).
Proof.
  intros Hid Hb Hbody Hne Hsel Hfind Hchange Hupd Hsel2.
  assert (Hlen : (len (slice body) =? 0) = false).
  { destruct body; [congruence | reflexivity]. }
  assert (Hcond : String.eqb (row_robots_txt r) (string_of_list_byte body)
                  && Bool.eqb false blocked = false).
  { destruct Hchange as [Htext | ->].
    - apply String.eqb_neq in Htext. now rewrite Htext.
    - apply andb_false_r. }
  unfold UpdateCustomRule.
  rewrite (eqb_empty_false _ Hid), (ParseBool_nonempty _ _ Hb), Hb, Hbody, Hlen.
  cbn [andb negb]. unfold bind at 1. rewrite GetById_run, Hsel, Hfind.
  cbn [scan Rule.RobotsTxt Rule.Blocked Rule.ID Rule.Domain Rule.CreatedAt Rule.UpdatedAt
       Rule.zero].
  rewrite Hcond. unfold bind.
  set (rule := Rule.mk (row_id r) (row_domain r) blocked (string_of_list_byte body)
                       (row_created_at r) (row_updated_at r)).
  destruct (Update_existing rule (record (Sql (SELECT_WHERE_id (Query (context c) "id"))) w) r)
    as (w' & Hrun & Htable & Hrow); try assumption.
  { exact (find_id_is _ _ _ Hfind). }
  rewrite Hrun. exists w', (row_created_at r), (row_updated_at r).
  split; [reflexivity |]. split; [exact Hrow |].
  rewrite Htable. apply map_row_id_updated.
Qed.

(** X25: what UpdateCustomRule never does.  Whatever the request and
    whatever the store answers, the ids of the rows and their blocked columns
    are after the call what they were before it, in the same order, and no id
    is drawn; the answer has status 200, 400, 404 or 500, and an answer with
    status 400 is given before any I/O. *)
Theorem X25_update_keeps_ids_and_blocked_columns (c : BodyContext) (w : World) :
  let a := fst (UpdateCustomRule c w) in
  let w' := snd (UpdateCustomRule c w) in
  map row_id (table w') = map row_id (table w)
  /\ map row_blocked (table w') = map row_blocked (table w)
  /\ next_id w' = next_id w
  /\ (status a = 200 \/ status a = 400 \/ status a = 404 \/ status a = 500)
  /\ (status a = 400 -> w' = w).
Proof.
  cbv zeta. destruct (UpdateCustomRule c w) as [a w'] eqn:Hrun. cbn [fst snd].
  unfold UpdateCustomRule in Hrun.
  destruct (String.eqb (Query (context c) "id") "" && String.eqb (Query (context c) "url") "");
    [injection Hrun as <- <-; cbn; auto 8 |].
  destruct (String.eqb (Query (context c) "blocked") "");
    [injection Hrun as <- <-; cbn; auto 8 |].
  destruct (ParseBool _) as [blocked |];
    [| injection Hrun as <- <-; cbn; repeat split; auto; discriminate].
  destruct (ReadAll_Body c) as [err | body];
    [injection Hrun as <- <-; cbn; repeat split; auto; discriminate |].
  destruct (len (slice body) =? 0);
    [injection Hrun as <- <-; cbn; auto 8 |].
  unfold bind at 1 in Hrun.
  assert (Hlookup : exists found w0,
            (if negb (String.eqb (Query (context c) "id") "")
             then GetById (Query (context c) "id")
             else GetByUrl (Query (context c) "url")) w = (found, w0)
            /\ table w0 = table w /\ next_id w0 = next_id w).
  { destruct (negb _).
    - destruct (GetById_answer (Query (context c) "id") w) as (found & Hg & _).
      exists found. eexists. split; [exact Hg |]. split; reflexivity.
    - destruct (GetByUrl_answer (Query (context c) "url") w)
        as (found & w0 & Hg & Ht & Hn & _).
      exists found, w0. auto. }
  destruct Hlookup as (found & w0 & Hg & Ht & Hn). rewrite Hg in Hrun.
  destruct found as [err | rule];
    [injection Hrun as <- <-; cbn; rewrite Ht, Hn; repeat split; auto; discriminate |].
  destruct (String.eqb _ _ && Bool.eqb _ _);
    [injection Hrun as <- <-; cbn; rewrite Ht, Hn; repeat split; auto; discriminate |].
  unfold bind in Hrun.
  match type of Hrun with
  | context [Update ?u w0] =>
      pose proof (Update_world u w0) as (Hn1 & Ht1);
      destruct (Update u w0) as [result w1]
  end.
  cbn [snd] in Hn1, Ht1.
  assert (Hids : map row_id (table w1) = map row_id (table w)
                 /\ map row_blocked (table w1) = map row_blocked (table w)).
  { destruct Ht1 as [-> | ->]; rewrite ?map_row_id_updated, ?map_row_blocked_updated, Ht;
      auto. }
  destruct Hids as (Hi & Hb).
  destruct result as [err | result]; injection Hrun as <- <-; cbn;
    rewrite Hi, Hb, Hn1, Hn; repeat split; auto; discriminate.
Qed.

(** *** main *)

(** X26: who passes apiKeyCheck.  The request goes on to the handler exactly
    when the X-API-Key header is not empty, the store executes the SELECT, and
    the first row whose api_key equals the hex SHA-256 digest of the header is
    active.  The store is not queried for an empty header, and otherwise is
    queried once, with the 64-character digest and never the key as sent. *)
Theorem X26_who_passes_the_api_key_check
        (keys : list ApiKeyRow) (key_fault : string -> option error) (apiKey : string) :
  (fst (apiKeyCheck keys key_fault apiKey) = Next
   <-> apiKey <> ""
       /\ key_fault (hashAPIKey apiKey) = None
       /\ exists row,
            List.find (fun row => String.eqb (api_key row) (hashAPIKey apiKey)) keys = Some row
            /\ is_active row = true)
  /\ snd (apiKeyCheck keys key_fault apiKey)
     = (if String.eqb apiKey "" then [] else [hashAPIKey apiKey])
  /\ String.length (hashAPIKey apiKey) = 64%nat.
Proof.
  split; [| split].
  - unfold apiKeyCheck. destruct (String.eqb apiKey "") eqn:Hkey.
    + apply String.eqb_eq in Hkey. split; [discriminate | tauto].
    + apply String.eqb_neq in Hkey.
      destruct (key_fault _) as [err |].
      * split; [destruct (is_ErrNoRows err); discriminate |].
        intros (_ & H & _). discriminate.
      * destruct (List.find _ keys) as [row |].
        -- destruct (is_active row) eqn:Hactive; cbn [negb fst].
           ++ split; [eauto | reflexivity].
           ++ split; [discriminate |]. intros (_ & _ & row' & [= <-] & H). congruence.
        -- split; [discriminate |]. intros (_ & _ & row' & H & _). discriminate.
  - unfold apiKeyCheck. destruct (String.eqb apiKey ""); [reflexivity |].
    destruct (key_fault _) as [err |]; [destruct (is_ErrNoRows err); reflexivity |].
    destruct (List.find _ keys) as [row |]; [| reflexivity].
    destruct (negb _); reflexivity.
  - apply hashURL_length.
Qed.

(** X27: a request that does not pass apiKeyCheck reaches no handler.  On a
    custom-rule route the gate's SELECT on the key table is sent first (none
    when the header is empty).  Then either the gate lets the request through
    and the handler runs in the state so reached, or the gate answers 401, 403
    or 500 and nothing else happened: the rule table, the id sequence, the cache
    and the counters are what they were, and the I/O trace has gained the gate's
    statement only, whatever the handler would have done. *)
Theorem X27_rejected_requests_reach_no_handler
        {A : Type} (keys : list ApiKeyRow) (apiKey : string) (handler : M A) (w : World) :
  let gate :=
    fst (apiKeyCheck keys
           (fun apiKeyHash => store_fault (SELECT_is_active_WHERE_api_key apiKeyHash))
           apiKey) in
  let sent :=
    if String.eqb apiKey "" then []
    else [Sql (SELECT_is_active_WHERE_api_key (hashAPIKey apiKey))] in
  let w0 := mkWorld (table w) (next_id w) (clock w) (memcached w) (events w ++ sent)
                    (success_responses w) (error_responses w) in
  (gate = Next
   /\ customRule keys apiKey handler w = (Handled (fst (handler w0)), snd (handler w0)))
  \/ (exists status fields,
        gate = Abort status fields
        /\ (status = 401 \/ status = 403 \/ status = 500)
        /\ customRule keys apiKey handler w = (Aborted status fields, w0)).
Proof.
  cbv zeta.
  assert (Hsent : forall w1,
            emit_each (map (fun apiKeyHash => Sql (SELECT_is_active_WHERE_api_key apiKeyHash))
                           (snd (apiKeyCheck keys
                                   (fun apiKeyHash =>
                                      store_fault (SELECT_is_active_WHERE_api_key apiKeyHash))
                                   apiKey))) w1
            = (tt, mkWorld (table w1) (next_id w1) (clock w1) (memcached w1)
                           (events w1 ++ (if String.eqb apiKey "" then []
                                          else [Sql (SELECT_is_active_WHERE_api_key
                                                       (hashAPIKey apiKey))]))
                           (success_responses w1) (error_responses w1))).
  { intros w1. unfold apiKeyCheck. destruct (String.eqb apiKey "").
    - cbn. rewrite app_nil_r. now destruct w1.
    - assert (Hone : forall g : Gate,
                emit_each (map (fun apiKeyHash => Sql (SELECT_is_active_WHERE_api_key apiKeyHash))
                               (snd (g, [hashAPIKey apiKey]))) w1
                = (tt, mkWorld (table w1) (next_id w1) (clock w1) (memcached w1)
                               (events w1 ++ [Sql (SELECT_is_active_WHERE_api_key
                                                     (hashAPIKey apiKey))])
                               (success_responses w1) (error_responses w1)))
        by reflexivity.
      destruct (store_fault _) as [err |]; [destruct (is_ErrNoRows err); apply Hone |].
      destruct (List.find _ keys) as [row |]; [| apply Hone].
      destruct (negb _); apply Hone. }
  assert (Hrun : customRule keys apiKey handler w =
            let w0 := mkWorld (table w) (next_id w) (clock w) (memcached w)
                        (events w ++ (if String.eqb apiKey "" then []
                                      else [Sql (SELECT_is_active_WHERE_api_key
                                                   (hashAPIKey apiKey))]))
                        (success_responses w) (error_responses w) in
            match fst (apiKeyCheck keys
                         (fun apiKeyHash =>
                            store_fault (SELECT_is_active_WHERE_api_key apiKeyHash))
                         apiKey) with
            | Abort status fields => (Aborted status fields, w0)
            | Next => (Handled (fst (handler w0)), snd (handler w0))
            end).
  { unfold customRule. cbv zeta. unfold bind at 1. rewrite Hsent.
    destruct (fst (apiKeyCheck keys _ apiKey)); [reflexivity |].
    unfold bind. destruct (handler _). reflexivity. }
  rewrite Hrun. cbv zeta. clear Hrun Hsent.
  destruct (fst (apiKeyCheck keys _ apiKey)) as [status fields |] eqn:Hgate.
  - right. exists status, fields. split; [reflexivity |]. split; [| reflexivity].
    unfold apiKeyCheck in Hgate. destruct (String.eqb apiKey "").
    + injection Hgate as <- _. auto.
    + destruct (store_fault _) as [err |].
      * destruct (is_ErrNoRows err); injection Hgate as <- _; auto.
      * destruct (List.find _ keys) as [row |].
        -- destruct (negb _); [injection Hgate as <- _; auto | discriminate].
        -- injection Hgate as <- _; auto.
  - left. split; reflexivity.
Qed.

Lemma ping_loop_six (ping : Z -> option error) :
  ping_loop ping 6 6 1 0 0 =
    match ping 1 with
    | None => Connected 1 0
    | Some _ =>
    match ping 2 with
    | None => Connected 2 5
    | Some _ =>
    match ping 3 with
    | None => Connected 3 15
    | Some _ =>
    match ping 4 with
    | None => Connected 4 30
    | Some _ =>
    match ping 5 with
    | None => Connected 5 50
    | Some _ =>
    match ping 6 with
    | None => Connected 6 75
    | Some _ => Exit1 6 75
    end end end end end end.
Proof. reflexivity. Qed.

(** X28: the start-up of the database connection.  setupDatabase ends the
    process exactly when sql.Open fails or all six pings fail; otherwise it
    returns after the first ping that succeeds, the k-th, having pinged k times
    (at most six) and slept 5+10+...+5(k-1) seconds, so never more than 75. *)
Theorem X28_database_start_up (sql_Open : option error) (ping : Z -> option error) :
  ((exists pings slept, setupDatabase sql_Open ping = Exit1 pings slept)
   <-> sql_Open <> None \/ forall i, 1 <= i <= 6 -> ping i <> None)
  /\ forall pings slept,
       setupDatabase sql_Open ping = Connected pings slept ->
       sql_Open = None
       /\ (1 <= pings <= 6)%nat
       /\ ping (Z.of_nat pings) = None
       /\ (forall i, 1 <= i < Z.of_nat pings -> ping i <> None)
       /\ 2 * slept = 5 * Z.of_nat pings * (Z.of_nat pings - 1)
       /\ slept <= 75.
Proof.
  assert (Hcases : forall i, 1 <= i <= 6 -> i = 1 \/ i = 2 \/ i = 3 \/ i = 4 \/ i = 5 \/ i = 6)
    by lia.
  unfold setupDatabase. destruct sql_Open as [err |].
  { split.
    - split; [intros _; left; discriminate | intros _; eauto].
    - discriminate. }
  rewrite ping_loop_six.
  destruct (ping 1) eqn:H1.
  2:{ split.
      - split; [intros (p & s & H); discriminate |].
        intros [H | H]; [congruence |]. exfalso. apply (H 1); [lia | exact H1].
      - intros p s [= <- <-]. repeat split; try lia; try exact H1. }
  destruct (ping 2) eqn:H2.
  2:{ split.
      - split; [intros (p & s & H); discriminate |].
        intros [H | H]; [congruence |]. exfalso. apply (H 2); [lia | exact H2].
      - intros p s [= <- <-]. repeat split; try lia; try exact H2.
        intros i Hi. assert (i = 1) as -> by lia. congruence. }
  destruct (ping 3) eqn:H3.
  2:{ split.
      - split; [intros (p & s & H); discriminate |].
        intros [H | H]; [congruence |]. exfalso. apply (H 3); [lia | exact H3].
      - intros p s [= <- <-]. repeat split; try lia; try exact H3.
        intros i Hi. assert (i = 1 \/ i = 2) as [-> | ->] by lia; congruence. }
  destruct (ping 4) eqn:H4.
  2:{ split.
      - split; [intros (p & s & H); discriminate |].
        intros [H | H]; [congruence |]. exfalso. apply (H 4); [lia | exact H4].
      - intros p s [= <- <-]. repeat split; try lia; try exact H4.
        intros i Hi. assert (i = 1 \/ i = 2 \/ i = 3) as [-> | [-> | ->]] by lia; congruence. }
  destruct (ping 5) eqn:H5.
  2:{ split.
      - split; [intros (p & s & H); discriminate |].
        intros [H | H]; [congruence |]. exfalso. apply (H 5); [lia | exact H5].
      - intros p s [= <- <-]. repeat split; try lia; try exact H5.
        intros i Hi.
        assert (i = 1 \/ i = 2 \/ i = 3 \/ i = 4) as [-> | [-> | [-> | ->]]] by lia; congruence. }
  destruct (ping 6) eqn:H6.
  2:{ split.
      - split; [intros (p & s & H); discriminate |].
        intros [H | H]; [congruence |]. exfalso. apply (H 6); [lia | exact H6].
      - intros p s [= <- <-]. repeat split; try lia; try exact H6.
        intros i Hi.
        assert (i = 1 \/ i = 2 \/ i = 3 \/ i = 4 \/ i = 5)
          as [-> | [-> | [-> | [-> | ->]]]] by lia; congruence. }
  split.
  - split; [| eauto]. intros _. right. intros i Hi.
    destruct (Hcases i Hi) as [-> | [-> | [-> | [-> | [-> | ->]]]]]; congruence.
  - discriminate.
Qed.


End RuleApi.

(** ** The library models, on known values *)

Example sha256_abc :
  hex.EncodeToString (sha256.Sum256 (list_byte_of_string "abc"))
  = "ba7816bf8f01cfea414140de5dae2223b00361a396177a9cb410ff61f20015ad".
Proof. vm_compute. reflexivity. Qed.

Example sha256_empty :
  hex.EncodeToString (sha256.Sum256 [])
  = "e3b0c44298fc1c149afbf4c8996fb92427ae41e4649b934ca495991b7852b855".
Proof. vm_compute. reflexivity. Qed.

Example sha256_two_blocks :
  hex.EncodeToString (sha256.Sum256 (list_byte_of_string
    "abcdbcdecdefdefgefghfghighijhijkijkljklmklmnlmnomnopnopq"))
  = "248d6a61d20638b8e5c026930c3e6039a33ce45964ff2167f6ecedd419db06c1".
Proof. vm_compute. reflexivity. Qed.

Example base64_vectors :
  map (fun s => base64.EncodeToString (list_byte_of_string s))
      ["f"; "fo"; "foo"; "foob"; "fooba"; "foobar"]
  = ["Zg=="; "Zm8="; "Zm9v"; "Zm9vYg=="; "Zm9vYmE="; "Zm9vYmFy"].
Proof. vm_compute. reflexivity. Qed.

Example parse_examples :
  map (fun s => match url.Parse s with
                | inr u => Some (url.Scheme u, url.Host u, url.Hostname u, url.Path u, url.RawQuery u)
                | inl _ => None
                end)
      ["https://example.com/test"; "HTTPS://Example.COM:8080/a%20b?x=1#top"; "example.com/x";
       "http://[::1]:80/"; "http://a b/"; "mailto:joe@example.com"; "//host/p"; "http://u:p@h.io";
       "http://example.com/%zz"; "1http://x/"; ":foo"]
  = [Some ("https", "example.com", "example.com", "/test", "");
     Some ("https", "Example.COM:8080", "Example.COM", "/a b", "x=1");
     Some ("", "", "", "example.com/x", "");
     Some ("http", "[::1]:80", "::1", "/", "");
     None;
     Some ("mailto", "", "", "", "");
     Some ("", "host", "host", "/p", "");
     Some ("http", "h.io", "h.io", "", "");
     None;
     None; None].
Proof. vm_compute. reflexivity. Qed.

Example json_Marshal_values :
  json.Marshal (bytes_of_string "foobar") = bytes_of_string (dquote +:+ "Zm9vYmFy" +:+ dquote)
  /\ json.Marshal (slice []) = bytes_of_string (dquote +:+ dquote)
  /\ json.Marshal nil_slice = bytes_of_string "null".
Proof. vm_compute. auto. Qed.

Example GetDomain_values :
  GetDomain "https://example.com/test" = inr "example.com"
  /\ GetDomain "http://example.com:8080/other?page=2#top" = inr "example.com"
  /\ GetDomain "https://EXAMPLE.com/test" = inr "EXAMPLE.com"
  /\ GetDomain "example.com/x"
     = inl (errors_New "invalid url. Url should contain scheme and hostname")
  /\ GetBaseUrl "HTTPS://example.com:8443/a/b?c=d" = inr "https://example.com".
Proof. vm_compute. auto 10. Qed.

(** ** The claims on concrete inputs *)

Lemma C1_witness :
  exists resp w',
    GetAllowedCrawl quote_plain always_allowed store_up gets_answered sets_answered
                    site_serving config_yml request_test world_blocked_rule
    = (returns (JSON 200 (crawl_response resp)), w')
    /\ AllowedCrawlResponse.IsAllowed resp
       = always_allowed robots_allow_test "bot" "https://example.com/test"
    /\ AllowedCrawlResponse.StatusCode resp = 200
    /\ AllowedCrawlResponse.Error resp = ""
    /\ events w' = events world_blocked_rule ++ [Sql (SELECT_WHERE_domain "example.com")]
    /\ memcached w' = memcached world_blocked_rule
    /\ table w' = table world_blocked_rule.
Proof.
  apply (C1_override_short_circuits quote_plain always_allowed store_up gets_answered
           sets_answered site_serving config_yml request_test world_blocked_rule
           "example.com" row_example_blocked).
  - discriminate.
  - discriminate.
  - vm_compute. reflexivity.
  - reflexivity.
  - reflexivity.
  - discriminate.
Defined.

(** C1 as stated fails when the rule exists but the store's lookup fails: the
    handler goes on as if there were no rule.  With the site answering 404 the
    answer is isAllowed false with statusCode 404, after a cache get and a live
    fetch; with the site serving a file the cache is written too. *)
Lemma C1_counterexample_failed_lookup :
  List.find (fun r => String.eqb (row_domain r) "example.com") (table world_blocked_rule)
  = Some row_example_blocked
  /\ GetDomain (Query request_test "url") = inr "example.com"
  /\ String.eqb (row_robots_txt row_example_blocked) "" = false
  /\ store_down (SELECT_WHERE_domain "example.com")
     = Some (foreign_error "pq: the database system is shutting down")
  /\ fst (GetAllowedCrawl quote_plain always_allowed store_down gets_answered sets_answered
                          site_not_found config_yml request_test world_blocked_rule)
     = returns (JSON 200 (crawl_response
         (AllowedCrawlResponse.mk false false 404 "404 page not found")))
  /\ events (snd (GetAllowedCrawl quote_plain always_allowed store_down gets_answered
                                  sets_answered site_not_found config_yml request_test
                                  world_blocked_rule))
     = [Sql (SELECT_WHERE_domain "example.com");
        MemcacheGet (generateDomainHash "https://example.com/test");
        HttpDo (mkRequest "GET" "https://example.com/robots.txt"
                          "Mozilla/5.0 (Windows NT 10.0; Win64; x64)")]
  /\ events (snd (GetAllowedCrawl quote_plain always_allowed store_down gets_answered
                                  sets_answered site_serving config_yml request_test
                                  world_blocked_rule))
     = [Sql (SELECT_WHERE_domain "example.com");
        MemcacheGet (generateDomainHash "https://example.com/test");
        HttpDo (mkRequest "GET" "https://example.com/robots.txt"
                          "Mozilla/5.0 (Windows NT 10.0; Win64; x64)");
        MemcacheSet (mkItem (generateDomainHash "https://example.com/test")
                            (json.Marshal (slice file_disallow_test)) 86400)].
Proof. vm_compute. auto 10. Qed.

Lemma C5_witness :
  exists text w',
    GetAllowedCrawl quote_plain always_allowed store_up gets_answered sets_answered
                    site_down config_yml request_test world_empty
    = (returns (JSON 500 (crawl_response (AllowedCrawlResponse.mk false false 500 text))), w')
    /\ text = "Get " +:+ quote_plain "https://example.com/robots.txt" +:+ ": "
              +:+ "dial tcp 192.0.2.1:443: connect: connection refused"
    /\ text <> ""
    /\ code_of (fst (GetAllowedCrawl quote_plain always_allowed store_up gets_answered
                       sets_answered site_down config_yml request_test world_empty))
       <> Some StatusOK
    /\ memcached w' = memcached world_empty
    /\ List.filter is_cache_set (events w') = List.filter is_cache_set (events world_empty)
    /\ error_responses w' = error_responses world_empty + 1
    /\ success_responses w' = success_responses world_empty.
Proof.
  apply (C5_transport_failure_is_an_error_result quote_plain always_allowed store_up
           gets_answered sets_answered site_down config_yml request_test world_empty
           "https://example.com"
           (mkRequest "GET" "https://example.com/robots.txt" "")
           "https://example.com/robots.txt"
           (foreign_error "dial tcp 192.0.2.1:443: connect: connection refused")).
  - discriminate.
  - discriminate.
  - vm_compute. reflexivity.
  - vm_compute. reflexivity.
  - vm_compute. reflexivity.
  - vm_compute. reflexivity.
  - reflexivity.
Defined.

Lemma C6_witness :
  exists w',
    GetAllowedCrawl quote_plain always_allowed store_up gets_answered sets_answered
                    site_not_found config_yml request_test world_empty
    = (returns (JSON 200 (crawl_response
         (AllowedCrawlResponse.mk false false 404
            (string_of_list_byte (list_byte_of_string "404 page not found"))))), w')
    /\ memcached w' = memcached world_empty
    /\ List.filter is_cache_set (events w') = List.filter is_cache_set (events world_empty)
    /\ success_responses w' = success_responses world_empty + 1
    /\ error_responses w' = error_responses world_empty.
Proof.
  apply (C6_non_2xx_is_disallowed_and_not_cached quote_plain always_allowed store_up
           gets_answered sets_answered site_not_found config_yml request_test world_empty
           "https://example.com"
           (mkRequest "GET" "https://example.com/robots.txt" "")).
  - discriminate.
  - discriminate.
  - vm_compute. reflexivity.
  - vm_compute. reflexivity.
  - vm_compute. reflexivity.
  - vm_compute. reflexivity.
  - reflexivity.
  - reflexivity.
Defined.



Lemma C9_witness :
  let w1 := snd (Delete store_up "1" world_plain_rule) in
  let w2 := snd (Delete store_up "1" w1) in
  fst (Delete store_up "1" world_plain_rule) = None
  /\ fst (Delete store_up "1" w1) = None
  /\ table w1 = List.filter (fun r => negb (id_is "1" r)) (table world_plain_rule)
  /\ (forallb (fun r => negb (id_is "1" r)) (table world_plain_rule) = true ->
      table w1 = table world_plain_rule)
  /\ table w2 = table w1
  /\ (forall c, Query c "id" = "1" -> "1" <> "" ->
        code_of (fst (DeleteCustomRule quote_plain store_up c world_plain_rule)) = Some 200
        /\ code_of (fst (DeleteCustomRule quote_plain store_up c
                           (snd (DeleteCustomRule quote_plain store_up c world_plain_rule))))
           = Some 200).
Proof.
  apply (C9_delete_is_idempotent quote_plain store_up "1" world_plain_rule).
  reflexivity.
Defined.

(** Deleting an id that no row has, twice. *)
Example Delete_missing_id_twice :
  fst (Delete store_up "42" world_plain_rule) = None
  /\ fst (Delete store_up "42" (snd (Delete store_up "42" world_plain_rule))) = None
  /\ table (snd (Delete store_up "42" world_plain_rule)) = table world_plain_rule.
Proof. vm_compute. auto. Qed.

(** The fallback of the key derivation: no hostname in the input. *)
Example generateDomainHash_fallback :
  generateDomainHash "not a url"
  = "d8b5bf9b9fd4760c61234d12614d80c96892c75fe92d8819c6320f1ca6b3533d-robots-txt"
  /\ generateDomainHash "example.com/x"
     = "1c7dadca7c6960846f13b9e956f179105f99e323f53f315a6d731019a4bcaf67-robots-txt".
Proof. vm_compute. auto. Qed.

(** C2 on the code: the robots file of example.com is fetched and written to
    the cache; the read that follows (server up, entry present) returns the
    JSON encoding of the file, its base64 text between quotes, and not the bytes
    that were written: the second resolution gets another directive text than
    the first, from the cache, without a fetch. *)
Theorem C2_cache_returns_the_json_encoding_not_the_bytes :
  let url := "https://example.com/test" in
  let key := "a379a6f6eeafb9a55e378c118034e2751e682fab9f2d30ab13d2125586ce1947-robots-txt" in
  let written := bytes_of_string robots_disallow_test in
  let read := bytes_of_string (dquote +:+ "VXNlci1hZ2VudDogKgpEaXNhbGxvdzogL3Rlc3Q=" +:+ dquote) in
  let sent := mkRequest "GET" "https://example.com/robots.txt" (RuleUserAgent config_yml) in
  let first := getRobotsTxt quote_plain gets_answered sets_answered site_serving config_yml
                            url world_empty in
  let second := getRobotsTxt quote_plain gets_answered sets_answered site_serving config_yml
                             url (snd first) in
  fst (GetRobotsFile gets_answered url
         (snd (SaveRobotsFile sets_answered config_yml url written world_empty)))
  = (read, true)
  /\ read <> written
  /\ fst first = returns (inr (TargetResponse.mk 200 written))
  /\ fst second = returns (inr (TargetResponse.mk 200 read))
  /\ events (snd second)
     = [MemcacheGet key; HttpDo sent; MemcacheSet (mkItem key read 86400); MemcacheGet key].
Proof.
  cbv zeta. split; [| split; [| split; [| split]]].
  - rewrite (read_after_write_returns_the_json_encoding
               gets_answered sets_answered config_yml); reflexivity.
  - apply (json_Marshal_is_not_identity (bytes_of_string robots_disallow_test)).
  - vm_compute. reflexivity.
  - vm_compute. reflexivity.
  - vm_compute. reflexivity.
Qed.

(** C3 on the code: the table holds a rule for example.com whose blocked
    column is true and whose text is not empty; the resolution finds it, answers
    from its text with status 200, and reports blocked = false. *)
Theorem C3_blocked_column_is_not_reported :
  List.find (fun r => String.eqb (row_domain r) "example.com") (table world_blocked_rule)
  = Some row_example_blocked
  /\ row_blocked row_example_blocked = true
  /\ row_robots_txt row_example_blocked <> ""
  /\ fst (GetAllowedCrawl quote_plain always_allowed store_up gets_answered sets_answered
            site_serving config_yml request_test world_blocked_rule)
     = returns (JSON 200 (crawl_response (AllowedCrawlResponse.mk true false 200 ""))).
Proof. vm_compute. repeat split; discriminate. Qed.

(** C4 on the code: the rule with id 1 is updated with another text and
    blocked = true; the stored row gets the text, and its blocked column stays
    false; the rule returned, read again from the store, has blocked = false. *)
Theorem C4_update_leaves_blocked_as_it_was :
  map row_blocked (table world_plain_rule) = [false]
  /\ Rule.Blocked rule_now_blocked = true
  /\ fst (Update store_up rule_now_blocked world_plain_rule)
     = inr (Rule.mk 1 "example.com" false robots_disallow_test 0 0)
  /\ table (snd (Update store_up rule_now_blocked world_plain_rule))
     = [mkRow 1 "example.com" robots_disallow_test false 0 0].
Proof. vm_compute. auto. Qed.

(** The other half of C4: an id that no row has. *)
Example Update_unknown_id :
  fst (Update store_up (Rule.mk 7 "example.org" false robots_allow_test 0 0) world_plain_rule)
  = inl (errors_New "rule with id '7' not found")
  /\ table (snd (Update store_up (Rule.mk 7 "example.org" false robots_allow_test 0 0)
                        world_plain_rule))
     = table world_plain_rule.
Proof. vm_compute. auto. Qed.

(** ** Further properties on concrete inputs *)



Lemma X3_witness :
  let w1 := snd (Save store_up false rule_now_blocked world_empty) in
  exists created updated,
    let saved := Rule.mk 1 "example.com" false robots_disallow_test created updated in
    fst (Save store_up false rule_now_blocked world_empty) = inr 1
    /\ fst (GetById store_up (Itoa 1) w1) = inr saved
    /\ fst (GetByUrl quote_plain store_up "https://example.com/test" w1) = inr saved.
Proof.
  apply (X3_save_then_get quote_plain store_up false rule_now_blocked
           "https://example.com/test" world_empty).
  - reflexivity.
  - reflexivity.
  - reflexivity.
  - split; constructor.
  - vm_compute. reflexivity.
  - reflexivity.
Defined.

Lemma X4_witness :
  well_keyed (snd (Save store_up false rule_now_blocked world_plain_rule))
  /\ well_keyed (snd (Update store_up rule_now_blocked world_plain_rule))
  /\ well_keyed (snd (Delete store_up "1" world_plain_rule)).
Proof.
  apply (X4_writes_keep_ids_unique store_up false rule_now_blocked "1" world_plain_rule).
  unfold well_keyed, world_plain_rule. cbn [table next_id map row_id]. split.
  - constructor; [intros [] | constructor].
  - constructor; [reflexivity | constructor].
Defined.

Lemma X5_witness :
  exists w' created updated,
    Update store_up rule_now_blocked world_plain_rule
    = (inr (Rule.mk 1 "example.com" false robots_disallow_test created updated), w')
    /\ List.find (fun r => row_id r =? 1) (table w')
       = Some (mkRow 1 "example.com" robots_disallow_test false created updated)
    /\ List.filter (fun r => negb (row_id r =? 1)) (table w')
       = List.filter (fun r => negb (row_id r =? 1)) (table world_plain_rule)
    /\ List.length (table w') = List.length (table world_plain_rule).
Proof.
  apply (X5_update_rewrites_one_row store_up rule_now_blocked world_plain_rule
           (mkRow 1 "example.com" robots_allow_test false 0 0)); reflexivity.
Defined.

Lemma X6_witness :
  fst (Update store_up (Rule.mk 7 "example.org" false robots_allow_test 0 0) world_plain_rule)
  = inl (errors_New ("rule with id '" +:+ Itoa 7 +:+ "' not found"))
  /\ table (snd (Update store_up (Rule.mk 7 "example.org" false robots_allow_test 0 0)
                        world_plain_rule))
     = table world_plain_rule.
Proof.
  apply (X6_update_of_unknown_id_is_not_found store_up
           (Rule.mk 7 "example.org" false robots_allow_test 0 0) world_plain_rule);
    reflexivity.
Defined.

Lemma X7_witness :
  let down := foreign_error "pq: the database system is shutting down" in
  (fst (Save store_down false rule_now_blocked world_plain_rule) = inl down
   /\ table (snd (Save store_down false rule_now_blocked world_plain_rule))
      = table world_plain_rule
   /\ next_id (snd (Save store_down false rule_now_blocked world_plain_rule))
      = next_id world_plain_rule)
  /\ (fst (Update store_down rule_now_blocked world_plain_rule) = inl down
      /\ table (snd (Update store_down rule_now_blocked world_plain_rule))
         = table world_plain_rule
      /\ events (snd (Update store_down rule_now_blocked world_plain_rule))
         = events world_plain_rule
           ++ [Sql (UPDATE_SET_domain_robots_txt_WHERE_id "example.com" robots_disallow_test 1)])
  /\ (fst (Delete store_down "1" world_plain_rule) = Some down
      /\ table (snd (Delete store_down "1" world_plain_rule)) = table world_plain_rule).
Proof.
  apply (X7_refused_statement_changes_nothing store_down false rule_now_blocked "1"
           world_plain_rule); reflexivity.
Defined.

Lemma X8_witness :
  fst (GetById store_up "1" (snd (Delete store_up "1" world_plain_rule)))
  = inl (errors_New ("rule with id '" +:+ "1" +:+ "' not found"))
  /\ (forall r, List.In r (table world_plain_rule) -> id_is "1" r = false ->
        List.In r (table (snd (Delete store_up "1" world_plain_rule)))).
Proof.
  apply (X8_deleted_rule_is_not_found store_up "1" world_plain_rule); reflexivity.
Defined.

Lemma X9_witness :
  let url := "https://example.com/test" in
  GetRobotsFile gets_refused url world_empty
  = ((nil_slice, false), record (MemcacheGet (generateDomainHash url)) world_empty)
  /\ SaveRobotsFile sets_refused config_yml url (slice file_disallow_test) world_empty
     = (tt, record (MemcacheSet (mkItem (generateDomainHash url)
                                        (json.Marshal (slice file_disallow_test))
                                        (TtlSeconds config_yml))) world_empty)
  /\ memcached (snd (SaveRobotsFile sets_refused config_yml url (slice file_disallow_test)
                                    world_empty))
     = memcached world_empty.
Proof.
  apply (X9_cache_failures_are_swallowed gets_refused sets_refused config_yml
           "https://example.com/test" (slice file_disallow_test) world_empty
           (foreign_error "memcache: connect timeout to 127.0.0.1:11211")
           (foreign_error "memcache: connect timeout to 127.0.0.1:11211")); reflexivity.
Defined.

Lemma X10_witness :
  fst (GetRobotsFile gets_answered "http://example.com:8080/robots.txt?x=1"
         (snd (SaveRobotsFile sets_answered config_yml "https://example.com/test"
                 (slice file_disallow_test) world_empty)))
  = (json.Marshal (slice file_disallow_test), true).
Proof.
  apply (X10_urls_of_a_host_share_the_entry gets_answered sets_answered config_yml
           "https://example.com/test" "http://example.com:8080/robots.txt?x=1"
           "example.com" (slice file_disallow_test) world_empty).
  - vm_compute. reflexivity.
  - vm_compute. reflexivity.
  - reflexivity.
  - reflexivity.
Defined.

Lemma X11_witness :
  let url := "https://example.com/test" in
  let w2 := snd (SaveRobotsFile sets_answered config_yml url (slice file_allow_test)
                   (snd (SaveRobotsFile sets_answered config_yml url (slice file_disallow_test)
                           world_empty))) in
  memcached w2
  = <[generateDomainHash url :=
        mkItem (generateDomainHash url) (json.Marshal (slice file_allow_test))
               (TtlSeconds config_yml)]> (memcached world_empty)
  /\ fst (GetRobotsFile gets_answered url w2) = (json.Marshal (slice file_allow_test), true).
Proof.
  apply (X11_last_write_wins gets_answered sets_answered config_yml
           "https://example.com/test" (slice file_disallow_test) (slice file_allow_test)
           world_empty); reflexivity.
Defined.

Lemma X12_witness :
  let key := generateDomainHash "https://example.com/test" in
  let item := mkItem key (slice file_allow_test) 86400 in
  let w := mkWorld [] 1 0 (<[key := item]> ∅) [] 0 0 in
  exists w',
    GetAllowedCrawl quote_plain always_allowed store_up gets_answered sets_answered
                    site_down config_yml request_test w
    = (returns (JSON 200 (crawl_response
         (AllowedCrawlResponse.mk
            (always_allowed (string_of_bytes (Value item)) (Query request_test "user_agent")
                            (Query request_test "url"))
            false 200 ""))), w')
    /\ List.filter is_http (events w') = List.filter is_http (events w)
    /\ List.filter is_cache_set (events w') = List.filter is_cache_set (events w)
    /\ memcached w' = memcached w.
Proof.
  cbv zeta.
  apply (X12_cache_hit_is_answered_without_a_fetch quote_plain always_allowed store_up
           gets_answered sets_answered site_down config_yml request_test).
  - discriminate.
  - discriminate.
  - vm_compute. reflexivity.
  - reflexivity.
  - cbn [memcached]. apply lookup_insert_eq.
Defined.

Lemma X13_witness :
  let key := generateDomainHash (Query request_test "url") in
  let item := mkItem key (json.Marshal (slice file_disallow_test)) (TtlSeconds config_yml) in
  exists w',
    GetAllowedCrawl quote_plain always_allowed store_up gets_answered sets_answered
                    site_serving config_yml request_test world_empty
    = (returns (JSON 200 (crawl_response
         (AllowedCrawlResponse.mk
            (always_allowed (string_of_list_byte file_disallow_test)
                            (Query request_test "user_agent") (Query request_test "url"))
            false 200 ""))), w')
    /\ (file_disallow_test <> [] -> sets_answered item = None ->
        memcached w' = <[key := item]> (memcached world_empty))
    /\ (file_disallow_test = [] -> memcached w' = memcached world_empty).
Proof.
  apply (X13_fetched_file_is_answered_and_cached quote_plain always_allowed store_up
           gets_answered sets_answered site_serving config_yml request_test world_empty
           "https://example.com" (mkRequest "GET" "https://example.com/robots.txt" "")
           200 file_disallow_test).
  - discriminate.
  - discriminate.
  - vm_compute. reflexivity.
  - vm_compute. reflexivity.
  - vm_compute. reflexivity.
  - vm_compute. reflexivity.
  - reflexivity.
  - reflexivity.
Defined.

Lemma X14_witness :
  exists w',
    GetAllowedCrawl quote_plain always_allowed store_up gets_answered sets_answered
                    site_serving config_yml request_no_scheme world_empty
    = (returns (JSON 500 (crawl_response
         (AllowedCrawlResponse.mk false false 500
            ("failed to parse url. "
             +:+ Error quote_plain
                   (errors_New "invalid url. Url should contain scheme and hostname"))))),
       w')
    /\ List.filter is_http (events w') = List.filter is_http (events world_empty)
    /\ memcached w' = memcached world_empty.
Proof.
  apply (X14_url_without_base_is_an_error quote_plain always_allowed store_up
           gets_answered sets_answered site_serving config_yml request_no_scheme world_empty).
  - discriminate.
  - discriminate.
  - vm_compute. reflexivity.
  - vm_compute. reflexivity.
  - vm_compute. reflexivity.
Defined.

Lemma X16_witness :
  exists why w',
    GetAllowedCrawl quote_plain always_allowed store_up gets_answered sets_answered
                    site_serving config_yml request_zone world_empty
    = (panics why, w')
    /\ List.filter is_http (events w') = List.filter is_http (events world_empty)
    /\ success_responses w' = success_responses world_empty
    /\ error_responses w' = error_responses world_empty.
Proof.
  apply (X16_refused_request_address_panics quote_plain always_allowed store_up
           gets_answered sets_answered site_serving config_yml request_zone world_empty
           "http://::1%eth0"
           (url_Error "parse" "http://::1%eth0/robots.txt" (url_invalid_port ":1%eth0"))).
  - discriminate.
  - discriminate.
  - vm_compute. reflexivity.
  - vm_compute. reflexivity.
  - vm_compute. reflexivity.
  - vm_compute. reflexivity.
Defined.

Lemma X17_witness :
  DeleteCustomRule quote_plain store_down request_rule_1 world_plain_rule
  = (returns (JSON 500 (gin_H [("error",
        "failed to delete custom rule. "
        +:+ Error quote_plain (foreign_error "pq: the database system is shutting down"))])),
     record (Sql (DELETE_WHERE_id (Query request_rule_1 "id"))) world_plain_rule)
  /\ table (snd (DeleteCustomRule quote_plain store_down request_rule_1 world_plain_rule))
     = table world_plain_rule.
Proof.
  apply (X17_refused_delete_is_a_server_error quote_plain store_down request_rule_1
           world_plain_rule).
  - discriminate.
  - reflexivity.
Defined.

Lemma X19_witness :
  GetCustomRule quote_plain store_up request_rule_1_and_url world_plain_rule
  = GetCustomRule quote_plain store_up
      (mkContext [("id", Query request_rule_1_and_url "id")]) world_plain_rule.
Proof.
  apply (X19_id_takes_precedence_over_url quote_plain store_up request_rule_1_and_url
           world_plain_rule).
  discriminate.
Defined.

Lemma X21_witness :
  CreateCustomRule quote_plain store_up false create_request_blocked world_empty
  = CreateCustomRule quote_plain store_up false create_request world_empty.
Proof.
  apply (X21_create_ignores_blocked quote_plain store_up false create_request_blocked
           create_request world_empty); reflexivity.
Defined.

Lemma X22_witness :
  let w1 := snd (CreateCustomRule quote_plain store_up false create_request_blocked
                   world_empty) in
  exists w2,
    fst (CreateCustomRule quote_plain store_up false create_request_blocked world_empty)
    = Answered 200 (H_id (next_id world_empty))
    /\ GetAllowedCrawl quote_plain always_allowed store_up gets_answered sets_answered
                       site_down config_yml request_test w1
       = (returns (JSON 200 (crawl_response
            (AllowedCrawlResponse.mk
               (always_allowed (string_of_list_byte file_disallow_test)
                               (Query request_test "user_agent") (Query request_test "url"))
               false 200 ""))), w2)
    /\ List.filter (fun e => negb (is_sql e)) (events w2)
       = List.filter (fun e => negb (is_sql e)) (events world_empty).
Proof.
  apply (X22_created_rule_decides_the_crawl quote_plain always_allowed store_up false
           gets_answered sets_answered site_down config_yml create_request_blocked
           request_test world_empty "example.com" file_disallow_test).
  - discriminate.
  - reflexivity.
  - discriminate.
  - vm_compute. reflexivity.
  - reflexivity.
  - reflexivity.
  - discriminate.
  - discriminate.
  - vm_compute. reflexivity.
  - reflexivity.
Defined.

Lemma X23_witness :
  UpdateCustomRule quote_plain store_up update_request_unchanged world_blocked_rule
  = (Answered 200 (rule_json (scan row_example_blocked)),
     record (Sql (SELECT_WHERE_id (Query (context update_request_unchanged) "id")))
            world_blocked_rule).
Proof.
  apply (X23_update_without_change_is_skipped quote_plain store_up update_request_unchanged
           world_blocked_rule row_example_blocked file_allow_test).
  - discriminate.
  - reflexivity.
  - reflexivity.
  - discriminate.
  - reflexivity.
  - reflexivity.
  - reflexivity.
Defined.

Lemma X24_witness :
  exists w' created updated,
    UpdateCustomRule quote_plain store_up update_request_blocked world_plain_rule
    = (Answered 200 (rule_json (Rule.mk 1 "example.com" false
                                        (string_of_list_byte file_allow_test)
                                        created updated)), w')
    /\ List.find (fun r' => row_id r' =? 1) (table w')
       = Some (mkRow 1 "example.com" (string_of_list_byte file_allow_test) false
                     created updated)
    /\ map row_id (table w') = map row_id (table world_plain_rule).
Proof.
  apply (X24_update_replaces_the_text_only quote_plain store_up update_request_blocked
           world_plain_rule (mkRow 1 "example.com" robots_allow_test false 0 0)
           file_allow_test true).
  - discriminate.
  - reflexivity.
  - reflexivity.
  - discriminate.
  - reflexivity.
  - reflexivity.
  - right. reflexivity.
  - reflexivity.
  - reflexivity.
Defined.
